(** * Verification of the host-monitoring core of sistema-redes2

    Shallow embedding of the parts of the repository the specification is
    about:
    - [Py]     : the few Python string and truthiness helpers the code uses;
    - [App]    : [app.py], the Flask monitor (DNS cache, [checar_um_host],
                 status cache and history writes);
    - [Mon]    : [src/services/monitoring.py], [MonitoringService];
    - [Alerts] : [src/services/alerts.py], [AlertService] evaluation.

    I/O primitives (DNS lookups, ping processes, sockets, HTTP requests)
    are parameters of the models: records of functions that play the role of
    the network.  Every call to one of them is written to a trace, so that
    the theorems can speak about which probes were run and in which order.
    Timestamps are modelled as integer instants and latencies as integer
    milliseconds. *)

From Stdlib Require Import ZArith Lia String Ascii QArith Sorting.Sorted Sorting.Permutation.
From stdpp Require Import base gmap strings list.

Open Scope string_scope.
Open Scope Z_scope.

(* ================================================================= *)
(** ** Python helpers *)

Module Py.

(** Truthiness of an optional string ([None] and [""] are falsy). *)
Definition truthy (o : option string) : bool :=
  match o with
  | Some s => negb (String.eqb s "")
  | None => false
  end.

(** [==] on two optional strings. *)
Definition opt_eqb (a b : option string) : bool :=
  match a, b with
  | Some x, Some y => String.eqb x y
  | None, None => true
  | _, _ => false
  end.

(** [str(x)] of an optional string as an f-string renders it. *)
Definition show_opt (o : option string) : string :=
  match o with Some s => s | None => "None" end.

(** [s.split(c)], Python semantics: [""] splits to [[""]]. *)
Fixpoint split_on (c : ascii) (s : string) : list string :=
  match s with
  | EmptyString => [EmptyString]
  | String a rest =>
      match split_on c rest with
      | [] => [] (* unreachable *)
      | cur :: others =>
          if Ascii.eqb a c then EmptyString :: cur :: others
          else String a cur :: others
      end
  end.

Definition is_space (a : ascii) : bool :=
  let n := Ascii.nat_of_ascii a in
  (Nat.eqb n 32 || Nat.eqb n 9 || Nat.eqb n 10 || Nat.eqb n 11
   || Nat.eqb n 12 || Nat.eqb n 13)%bool.

Fixpoint lstrip (s : string) : string :=
  match s with
  | EmptyString => EmptyString
  | String a rest => if is_space a then lstrip rest else s
  end.

Fixpoint rev_str (s : string) (acc : string) : string :=
  match s with
  | EmptyString => acc
  | String a rest => rev_str rest (String a acc)
  end.

(** [s.strip()] on ASCII whitespace. *)
Definition strip (s : string) : string :=
  rev_str (lstrip (rev_str (lstrip s) EmptyString)) EmptyString.

Definition lower_char (a : ascii) : ascii :=
  let n := Ascii.nat_of_ascii a in
  if (Nat.leb 65 n && Nat.leb n 90)%bool then Ascii.ascii_of_nat (n + 32) else a.

(** [s.lower()] on ASCII letters. *)
Fixpoint lower (s : string) : string :=
  match s with
  | EmptyString => EmptyString
  | String a rest => String (lower_char a) (lower rest)
  end.

Definition is_digit (a : ascii) : bool :=
  let n := Ascii.nat_of_ascii a in (Nat.leb 48 n && Nat.leb n 57)%bool.

Fixpoint all_digits (s : string) : bool :=
  match s with
  | EmptyString => true
  | String a rest => is_digit a && all_digits rest
  end.

(** [s.isdigit()] on ASCII digits: non-empty and all digits. *)
Definition isdigit (s : string) : bool :=
  negb (String.eqb s "") && all_digits s.

Fixpoint digits_value (s : string) (acc : Z) : Z :=
  match s with
  | EmptyString => acc
  | String a rest =>
      digits_value rest (10 * acc + Z.of_nat (Ascii.nat_of_ascii a - 48))
  end.

(** [int(s)] for a string of ASCII digits. *)
Definition int_of_digits (s : string) : Z := digits_value s 0.

(** [sub in s] on strings. *)
Fixpoint str_contains (sub s : string) : bool :=
  match s with
  | EmptyString => String.eqb sub ""
  | String _ rest => String.prefix sub s || str_contains sub rest
  end.

(** [x in l] on a list of strings. *)
Definition str_mem (x : string) (l : list string) : bool :=
  existsb (String.eqb x) l.

End Py.

(* ================================================================= *)
(** ** [app.py] *)

Module App.

(** An entry of [dns_cache]: [{ip, resolved_at, ok, error}]. *)
Record DnsEntry := mkDnsEntry {
  de_ip : option string;
  de_resolved_at : Z;
  de_ok : bool;
  de_error : option string
}.

(** An entry of [status_cache] (the dict built by [checar_um_host] or by
    [inicializar_cache]). *)
Record StatusEntry := mkStatusEntry {
  se_name : string;
  se_ip : option string;
  se_status : string;
  se_last_checked : option Z;
  se_latency_ms : option Z;
  se_reason : option string;
  se_method : option string;
  se_ip_changed : bool
}.

(** A row of the [history] table ([HostHistory]). *)
Record HostHistory := mkHostHistory {
  hh_name : string;
  hh_ip : string;
  hh_status : string;
  hh_latency_ms : option Z;
  hh_timestamp : Z
}.

(** A machine as loaded by [carregar_maquinas]: [{"name", "ip"}]. *)
Record Machine := mkMachine { m_name : string; m_ip : option string }.

(** Calls to the outside world, in the order they are made. *)
Inductive Event :=
| EvLookup (hostname : string)          (* socket.gethostbyname *)
| EvIcmp (target : string) (attempt : nat) (* one ping process *)
| EvTcp (ip : string) (port : Z).       (* one socket.connect_ex *)

(** The module-level mutable state of [app.py] that the checker touches. *)
Record AppState := mkAppState {
  dns_cache : gmap string DnsEntry;
  status_cache : gmap string StatusEntry;
  history : list HostHistory;
  successful_checks : Z;
  trace : list Event
}.

(** The network: [gethostbyname] (an address or the text of the raised
    exception), one ping process (its latency when the return code is 0)
    and [connect_ex] (true when it returns 0). *)
Record Net := mkNet {
  gethostbyname : string -> Z -> string + string;
  ping_once : string -> nat -> option Z;
  tcp_connect : string -> Z -> bool
}.

Definition CACHE_TTL : Z := 300.
Definition MAX_RETRIES : nat := 2.
Definition PORTAS_TCP_TESTE : list Z := [3389; 445; 80].

Definition set_dns_cache (c : gmap string DnsEntry) (s : AppState) : AppState :=
  mkAppState c (status_cache s) (history s) (successful_checks s) (trace s).
Definition set_status_cache (c : gmap string StatusEntry) (s : AppState) : AppState :=
  mkAppState (dns_cache s) c (history s) (successful_checks s) (trace s).
Definition add_history (r : HostHistory) (s : AppState) : AppState :=
  mkAppState (dns_cache s) (status_cache s) (history s ++ [r])
    (successful_checks s) (trace s).
Definition bump_successful (s : AppState) : AppState :=
  mkAppState (dns_cache s) (status_cache s) (history s)
    (successful_checks s + 1) (trace s).
Definition log (e : Event) (s : AppState) : AppState :=
  mkAppState (dns_cache s) (status_cache s) (history s)
    (successful_checks s) (trace s ++ [e]).

(** The state of [app.py] with only its trace replaced. *)
Definition same_but_trace (s s' : AppState) : Prop :=
  dns_cache s' = dns_cache s /\ status_cache s' = status_cache s /\
  history s' = history s /\ successful_checks s' = successful_checks s.

(** Whether a call recorded in the trace succeeded on the network [net]. *)
Definition event_ok (net : Net) (e : Event) : bool :=
  match e with
  | EvLookup _ => false
  | EvIcmp target attempt => bool_decide (is_Some (ping_once net target attempt))
  | EvTcp ip port => tcp_connect net ip port
  end.

Section WithNet.
Variable net : Net.

(** [resolve_hostname(hostname)] at time [now]: a cache entry younger than
    300 s is returned as it is (address or error), otherwise a lookup is
    made and its outcome, success or failure, is cached. *)
Definition dns_lookup (hostname : string) (now : Z) (s : AppState)
  : (option string * option string) * AppState :=
  let s := log (EvLookup hostname) s in
  match gethostbyname net hostname now with
  | inl ip =>
      ((Some ip, None),
       set_dns_cache (<[hostname := mkDnsEntry (Some ip) now true None]> (dns_cache s)) s)
  | inr e =>
      let error_msg := "DNS resolution failed: " ++ e in
      ((None, Some error_msg),
       set_dns_cache (<[hostname := mkDnsEntry None now false (Some error_msg)]> (dns_cache s)) s)
  end.

Definition resolve_hostname (hostname : string) (now : Z) (s : AppState)
  : (option string * option string) * AppState :=
  match dns_cache s !! hostname with
  | Some cache_entry =>
      if bool_decide (now - de_resolved_at cache_entry < CACHE_TTL) then
        (if de_ok cache_entry then (de_ip cache_entry, None)
         else (None, de_error cache_entry), s)
      else dns_lookup hostname now s
  | None => dns_lookup hostname now s
  end.

(** [ping_icmp_target(target)]: up to [MAX_RETRIES] ping processes. *)
Fixpoint ping_attempts (target : string) (attempt fuel : nat) (s : AppState)
  : (bool * option Z) * AppState :=
  match fuel with
  | O => ((false, None), s)
  | S fuel' =>
      let s := log (EvIcmp target attempt) s in
      match ping_once net target attempt with
      | Some latency => ((true, Some latency), s)
      | None => ping_attempts target (S attempt) fuel' s
      end
  end.

Definition ping_icmp_target (target : string) (s : AppState)
  : (bool * option Z) * AppState :=
  ping_attempts target 0 MAX_RETRIES s.

(** [tcp_ping(ip, port)]: no connection at all for an empty address. *)
Definition tcp_ping (ip : string) (port : Z) (s : AppState) : bool * AppState :=
  if String.eqb ip "" then (false, s)
  else (tcp_connect net ip port, log (EvTcp ip port) s).

(** The loop [for port in PORTAS_TCP_TESTE: if tcp_ping(ip, port): ... break]. *)
Fixpoint tcp_scan (ip : string) (ports : list Z) (s : AppState) : bool * AppState :=
  match ports with
  | [] => (false, s)
  | port :: rest =>
      let '(ok, s) := tcp_ping ip port s in
      if ok then (true, s) else tcp_scan ip rest s
  end.

(** ICMP first; when it fails, the TCP ports (a TCP success reports no
    latency). *)
Definition probe (icmp_target tcp_target : string) (s : AppState)
  : (bool * option Z) * AppState :=
  let '((online, latency), s) := ping_icmp_target icmp_target s in
  if online then ((online, latency), s)
  else
    let '(ok, s) := tcp_scan tcp_target PORTAS_TCP_TESTE s in
    if ok then ((true, None), s) else ((false, latency), s).

Definition ip_changed_row (hostname : string) (old_ip final_ip : string)
    (method : option string) (now : Z) : HostHistory :=
  mkHostHistory hostname final_ip
    ("IP_CHANGED: " ++ old_ip ++ " → " ++ final_ip ++ " via " ++ Py.show_opt method)
    None now.

(** [checar_um_host(host)] at time [now]. *)
Definition checar_um_host (host : Machine) (now : Z) (s : AppState)
  : option StatusEntry * AppState :=
  let hostname := m_name host in
  let ip_fallback := m_ip host in
  if String.eqb hostname "" then (None, s) else
  let '((resolved_ip, dns_error), s) := resolve_hostname hostname now s in
  let '(online, latency, reason, target_ip, method, s) :=
    if Py.truthy resolved_ip then
      let '((on, lat), s) := probe hostname (default "" resolved_ip) s in
      (on, lat, None, resolved_ip, Some "HOSTNAME", s)
    else if Py.truthy ip_fallback then
      let '((on, lat), s) := probe (default "" ip_fallback) (default "" ip_fallback) s in
      (on, lat, Some "DNS_FAIL_FALLBACK", ip_fallback, Some "IP_FALLBACK", s)
    else (false, None, Some "DNS_FAIL_NO_BACKUP", None, None, s) in
  let existing := status_cache s !! hostname in
  let old_status := se_status <$> existing in
  let new_status := if online then "Online" else "Offline" in
  let final_ip := if Py.truthy resolved_ip then resolved_ip else target_ip in
  let data := mkStatusEntry hostname final_ip new_status (Some now) latency
                reason method false in
  let '(data, s) :=
    match existing with
    | Some e =>
        if (Py.truthy (se_ip e) && Py.truthy final_ip
            && negb (Py.opt_eqb (se_ip e) final_ip))%bool then
          (mkStatusEntry hostname final_ip new_status (Some now) latency
             reason method true,
           add_history (ip_changed_row hostname (default "" (se_ip e))
                          (default "" final_ip) method now) s)
        else (data, s)
    | None => (data, s)
    end in
  let s := set_status_cache (<[hostname := data]> (status_cache s)) s in
  let s :=
    if (Py.truthy old_status && negb (Py.opt_eqb old_status (Some new_status)))%bool
    then add_history (mkHostHistory hostname
                        (match final_ip with Some ip => if String.eqb ip "" then "unknown" else ip
                                        | None => "unknown" end)
                        new_status latency now) s
    else s in
  (Some data, bump_successful s).

End WithNet.

End App.

(* ================================================================= *)
(** ** [src/services/monitoring.py] *)

Module Mon.

Inductive HostStatus := ONLINE | OFFLINE | WARNING | UNKNOWN | MAINTENANCE.

Definition HostStatus_value (st : HostStatus) : string :=
  match st with
  | ONLINE => "Online" | OFFLINE => "Offline" | WARNING => "Warning"
  | UNKNOWN => "Unknown" | MAINTENANCE => "Maintenance"
  end.


(** A [datetime]: its instant (in seconds) and whether it carries a
    [tzinfo].  [datetime.now(timezone.utc)] is aware; a [DateTime] column
    (no [timezone=True]) read back through SQLAlchemy from SQLite is naive. *)
Record DateTime := mkDateTime {
  dt_ticks : Z;
  dt_aware : bool
}.

(** [a > b] on datetimes; [None] is the [TypeError] "can't compare
    offset-naive and offset-aware datetimes". *)
Definition dt_gt (a b : DateTime) : option bool :=
  if Bool.eqb (dt_aware a) (dt_aware b) then Some (dt_ticks b <? dt_ticks a) else None.

(** A row of the [hosts] table ([models/host.py], the columns the checker
    and the alert service read). *)
Record Host := mkHost {
  hostname : string;
  ip_address : option string;
  fallback_ip : option string;
  timeout : Z;
  check_types : option string;
  tcp_ports : option string;
  tags : option string;
  group_name : option string;
  enabled : bool;
  in_maintenance : bool;
  maintenance_until : option DateTime
}.

(** A row of the [host_history] table written by [save_check_result]. *)
Record HistoryRow := mkHistoryRow {
  hr_hostname : string;
  hr_status : HostStatus;
  hr_ip : option string;
  hr_latency_ms : option Z;
  hr_timestamp : Z;
  hr_reason : option string
}.

(** Outcome of [socket.gethostbyname]: an address, a [gaierror] or another
    exception (with its text). *)
Inductive DnsOutcome :=
| DnsOk (ip : string)
| DnsGaiError (msg : string)
| DnsOtherError (msg : string).

(** The probes of [MonitoringService]: [ping_icmp], [ping_tcp], [ping_http]
    (success, latency, status text) and [check_ssl_certificate] (success,
    days until expiry), with the DNS primitive. *)
Record Prober := mkProber {
  gethostbyname : string -> DnsOutcome;
  ping_icmp : string -> Z -> bool * option Z;
  ping_tcp : string -> Z -> Z -> bool * option Z;
  ping_http : string -> Z -> bool * option Z * string;
  check_ssl_certificate : string -> Z -> Z -> bool * option Z
}.

Inductive Event :=
| EvLookup (hostname : string)
| EvIcmp (target : string)
| EvTcp (target : string) (port : Z)
| EvHttp (url : string)
| EvSsl (target : string) (port : Z).

(** The entries of [results['checks']]. *)
Record DnsCheck := mkDnsCheck {
  dns_success : bool; dns_ip : option string; dns_error : option string;
  dns_fallback_used : bool
}.
Record ProbeCheck := mkProbeCheck {
  pc_success : bool; pc_latency_ms : option Z; pc_target : string
}.
Record TcpCheck := mkTcpCheck {
  tc_port : Z; tc_success : bool; tc_latency_ms : option Z
}.
Record HttpCheck := mkHttpCheck {
  hc_success : bool; hc_latency_ms : option Z; hc_status : string; hc_url : string
}.
Record SslCheck := mkSslCheck { sc_success : bool; sc_certificate : option Z }.

Record Checks := mkChecks {
  ck_dns : option DnsCheck;
  ck_icmp : option ProbeCheck;
  ck_tcp : option (list TcpCheck);
  ck_http : option HttpCheck;
  ck_https : option HttpCheck;
  ck_ssl : option SslCheck
}.

Definition no_checks : Checks := mkChecks None None None None None None.

(** The dict returned by [check_host_comprehensive]. *)
Record Result := mkResult {
  r_hostname : string;
  r_timestamp : Z;
  r_overall_status : HostStatus;
  r_checks : Checks;
  r_primary_ip : option string;
  r_response_time : option Z;
  r_error_message : option string
}.

(** Database rows the service writes, and the calls it made. *)
Record MonState := mkMonState {
  hosts : gmap string Host;
  host_history : list HistoryRow;
  trace : list Event
}.

Definition log (e : Event) (s : MonState) : MonState :=
  mkMonState (hosts s) (host_history s) (trace s ++ [e]).

(** A host row with [in_maintenance = False] and [maintenance_until = None]. *)
Definition clear_maintenance (h : Host) : Host :=
  mkHost (hostname h) (ip_address h) (fallback_ip h) (timeout h)
    (check_types h) (tcp_ports h) (tags h) (group_name h) (enabled h) false None.

(** Whether one of the probes recorded in [results['checks']] (ICMP, a TCP
    port, HTTP or HTTPS) succeeded. *)
Definition probe_success (ck : Checks) : bool :=
  match ck_icmp ck with Some c => pc_success c | None => false end
  || match ck_tcp ck with Some l => existsb tc_success l | None => false end
  || match ck_http ck with Some c => hc_success c | None => false end
  || match ck_https ck with Some c => hc_success c | None => false end.

Section WithProber.
Variable P : Prober.

(** [resolve_hostname]: one lookup on every call, no cache. *)
Definition resolve_hostname (hn : string) (s : MonState)
  : (option string * option string) * MonState :=
  let s := log (EvLookup hn) s in
  match gethostbyname P hn with
  | DnsOk ip => ((Some ip, None), s)
  | DnsGaiError e => ((None, Some ("DNS resolution failed: " ++ e)), s)
  | DnsOtherError e => ((None, Some ("DNS error: " ++ e)), s)
  end.

(** [best_latency is None or (lat and lat < best_latency)]. *)
Definition improve (best lat : option Z) : option Z :=
  match best with
  | None => lat
  | Some b =>
      match lat with
      | Some l => if negb (l =? 0) && (l <? b) then lat else best
      | None => best
      end
  end.

(** [[ct.strip().lower() for ct in (host.check_types or "icmp,tcp").split(',')]] *)
Definition parse_check_types (ct : option string) : list string :=
  let raw := if Py.truthy ct then default "" ct else "icmp,tcp" in
  map (fun c => Py.lower (Py.strip c)) (Py.split_on "," raw).

(** [[int(p.strip()) for p in host.tcp_ports.split(',') if p.strip().isdigit()]] *)
Definition parse_tcp_ports (ports : string) : list Z :=
  map (fun p => Py.int_of_digits (Py.strip p))
      (filter (fun p => Py.isdigit (Py.strip p) = true) (Py.split_on "," ports)).

(** The TCP loop: every configured port is tried, in order. *)
Fixpoint tcp_loop (target : string) (tmo : Z) (ports : list Z)
    (any : bool) (best : option Z) (acc : list TcpCheck) (s : MonState)
  : bool * option Z * list TcpCheck * MonState :=
  match ports with
  | [] => (any, best, acc, s)
  | port :: rest =>
      let s := log (EvTcp target port) s in
      let '(ok, lat) := ping_tcp P target port tmo in
      let acc := (acc ++ [mkTcpCheck port ok lat])%list in
      if ok then tcp_loop target tmo rest true (improve best lat) acc s
      else tcp_loop target tmo rest any best acc s
  end.

Definition set_ck_icmp (c : ProbeCheck) (ck : Checks) : Checks :=
  mkChecks (ck_dns ck) (Some c) (ck_tcp ck) (ck_http ck) (ck_https ck) (ck_ssl ck).
Definition set_ck_tcp (c : list TcpCheck) (ck : Checks) : Checks :=
  mkChecks (ck_dns ck) (ck_icmp ck) (Some c) (ck_http ck) (ck_https ck) (ck_ssl ck).
Definition set_ck_http (c : HttpCheck) (ck : Checks) : Checks :=
  mkChecks (ck_dns ck) (ck_icmp ck) (ck_tcp ck) (Some c) (ck_https ck) (ck_ssl ck).
Definition set_ck_https (c : HttpCheck) (ssl : SslCheck) (ck : Checks) : Checks :=
  mkChecks (ck_dns ck) (ck_icmp ck) (ck_tcp ck) (ck_http ck) (Some c) (Some ssl).

(** The probing part of [check_host_comprehensive], after an address has
    been found: ICMP, TCP, HTTP, HTTPS (+ SSL) for the enabled check types,
    returning [any_success], [best_latency] and the per-method checks. *)
Definition run_probes (host : Host) (target : string) (checks : Checks) (s : MonState)
  : bool * option Z * Checks * MonState :=
  let cts := parse_check_types (check_types host) in
  let tmo := timeout host in
  let '(any, best, checks, s) :=
    if Py.str_mem "icmp" cts then
      let s := log (EvIcmp target) s in
      let '(ok, lat) := ping_icmp P target tmo in
      let checks := set_ck_icmp (mkProbeCheck ok lat target) checks in
      if ok then (true, improve None lat, checks, s) else (false, None, checks, s)
    else (false, None, checks, s) in
  let '(any, best, checks, s) :=
    if Py.str_mem "tcp" cts && Py.truthy (tcp_ports host) then
      let '(any, best, res, s) :=
        tcp_loop target tmo (parse_tcp_ports (default "" (tcp_ports host))) any best [] s in
      (any, best, set_ck_tcp res checks, s)
    else (any, best, checks, s) in
  let '(any, best, checks, s) :=
    if Py.str_mem "http" cts then
      let url := "http://" ++ target in
      let s := log (EvHttp url) s in
      let '(ok, lat, status) := ping_http P url tmo in
      let checks := set_ck_http (mkHttpCheck ok lat status url) checks in
      if ok then (true, improve best lat, checks, s) else (any, best, checks, s)
    else (any, best, checks, s) in
  if Py.str_mem "https" cts then
    let url := "https://" ++ target in
    let s := log (EvHttp url) s in
    let '(ok, lat, status) := ping_http P url tmo in
    let s := log (EvSsl target 443) s in
    let '(ssl_ok, ssl_info) := check_ssl_certificate P target 443 tmo in
    let checks := set_ck_https (mkHttpCheck ok lat status url)
                    (mkSslCheck ssl_ok ssl_info) checks in
    if ok then (true, improve best lat, checks, s) else (any, best, checks, s)
  else (any, best, checks, s).

(** Everything after the maintenance test. *)
Definition check_after_maintenance (host : Host) (now : Z) (s : MonState)
  : Result * MonState :=
  let hn := hostname host in
  let '((resolved_ip, dns_error), s) := resolve_hostname hn s in
  let '(primary_ip, dns) :=
    if Py.truthy resolved_ip then (resolved_ip, mkDnsCheck true resolved_ip None false)
    else if Py.truthy (fallback_ip host) then
      (fallback_ip host, mkDnsCheck false None dns_error true)
    else (None, mkDnsCheck false None dns_error false) in
  let checks := mkChecks (Some dns) None None None None None in
  if negb (Py.truthy primary_ip) then
    (mkResult hn now OFFLINE checks primary_ip None (Some "No IP address available"), s)
  else
    let '(any_success, best_latency, checks, s) :=
      run_probes host (default "" primary_ip) checks s in
    if any_success then
      (mkResult hn now ONLINE checks primary_ip best_latency None, s)
    else
      let msg := if dns_success dns then "All checks failed" else "DNS resolution failed" in
      (mkResult hn now OFFLINE checks primary_ip None (Some msg), s).

(** The end of a maintenance window in the database: [in_maintenance] and
    [maintenance_until] cleared on the host's row, when there is one. *)
Definition end_maintenance (hn : string) (s : MonState) : MonState :=
  match hosts s !! hn with
  | Some h =>
      mkMonState (<[hn := clear_maintenance h]> (hosts s)) (host_history s) (trace s)
  | None => s
  end.

(** The result returned for a host in maintenance. *)
Definition maintenance_result (host : Host) (now : Z) : Result :=
  mkResult (hostname host) now MAINTENANCE no_checks None None None.

(** [check_host_comprehensive(host)] at time [now] (the aware
    [datetime.now(timezone.utc)]); [None] is the [TypeError] raised by the
    comparison [datetime.now(timezone.utc) > host.maintenance_until] when
    [maintenance_until] is naive: nothing has been done yet then.  A
    [datetime] is always truthy, so any [maintenance_until] is compared. *)
Definition check_host_comprehensive (host : Host) (now : Z) (s : MonState)
  : option Result * MonState :=
  if in_maintenance host then
    match maintenance_until host with
    | Some until =>
        match dt_gt (mkDateTime now true) until with
        | None => (None, s)
        | Some true =>
            let '(r, s') :=
              check_after_maintenance host now (end_maintenance (hostname host) s) in
            (Some r, s')
        | Some false => (Some (maintenance_result host now), s)
        end
    | None => (Some (maintenance_result host now), s)
    end
  else let '(r, s') := check_after_maintenance host now s in (Some r, s').

(** The raise of the maintenance test: a host in maintenance whose
    [maintenance_until] is naive. *)
Definition maintenance_raises (host : Host) : Prop :=
  in_maintenance host = true /\
  exists u, maintenance_until host = Some u /\ dt_aware u = false.

End WithProber.

(** [save_check_result(result)]: the host's address is updated when the
    result has one, and one history row is added. *)
Definition save_check_result (result : Result) (s : MonState) : MonState :=
  let hn := r_hostname result in
  let hs :=
    match hosts s !! hn with
    | Some h =>
        if Py.truthy (r_primary_ip result)
           && negb (Py.opt_eqb (r_primary_ip result) (ip_address h)) then
          <[hn := mkHost (hostname h) (r_primary_ip result) (fallback_ip h)
                    (timeout h) (check_types h) (tcp_ports h) (tags h)
                    (group_name h) (enabled h) (in_maintenance h)
                    (maintenance_until h)]> (hosts s)
        else hosts s
    | None => hosts s
    end in
  mkMonState hs
    (host_history s ++ [mkHistoryRow hn (r_overall_status result)
                          (r_primary_ip result) (r_response_time result)
                          (r_timestamp result) (r_error_message result)])
    (trace s).

(** [self.stats]; counters are integers, the average a float (here Q). *)
Record Stats := mkStats {
  total_checks : Z;
  successful_checks : Z;
  failed_checks : Z;
  avg_response_time : Q
}.

(** [update_stats(successful, response_time)]; [None] is the
    [ZeroDivisionError] raised when the divisor is 0. *)
Definition update_stats (st : Stats) (successful : bool) (response_time : option Q)
  : option Stats :=
  let total := total_checks st + 1 in
  let succ := if successful then successful_checks st + 1 else successful_checks st in
  let failed := if successful then failed_checks st else failed_checks st + 1 in
  match response_time with
  | None => Some (mkStats total succ failed (avg_response_time st))
  | Some rt =>
      if succ =? 0 then None
      else Some (mkStats total succ failed
                   ((avg_response_time st * inject_Z (succ - 1) + rt) / inject_Z succ)%Q)
  end.

(** The stats of a fresh [MonitoringService] (the counters it averages). *)
Definition init_stats : Stats := mkStats 0 0 0 0.

(** A sequence of [update_stats] calls; [None] if one of them raises. *)
Fixpoint run_stats (st : Stats) (calls : list (bool * option Q)) : option Stats :=
  match calls with
  | [] => Some st
  | (successful, rt) :: rest =>
      match update_stats st successful rt with
      | Some st' => run_stats st' rest
      | None => None
      end
  end.

End Mon.

(* ================================================================= *)
(** ** [src/services/alerts.py] *)

Module Alerts.
Import Mon.

Inductive AlertStatus := ACTIVE | ACKNOWLEDGED | RESOLVED | SILENCED.
Inductive AlertSeverity := LOW | MEDIUM | HIGH | CRITICAL.

Definition AlertStatus_eqb (a b : AlertStatus) : bool :=
  match a, b with
  | ACTIVE, ACTIVE | ACKNOWLEDGED, ACKNOWLEDGED
  | RESOLVED, RESOLVED | SILENCED, SILENCED => true
  | _, _ => false
  end.

(** A Python [float]: finite (its exact value), an infinity, or NaN. *)
Inductive PyFloat := FFin (q : Q) | FInf (neg : bool) | FNaN.

(** JSON values as [json.loads] returns them: [None], [bool], [int],
    [float], [str], [list] and [dict] (keys distinct, in insertion
    order). *)
#[warnings="-register-all"]
Inductive Json :=
| JNull
| JBool (b : bool)
| JNum (n : Z)
| JFloat (f : PyFloat)
| JStr (s : string)
| JList (l : list Json)
| JObj (kvs : list (string * Json)).

(** The numeric value of a [bool], [int] or [float]. *)
Definition json_num (j : Json) : option PyFloat :=
  match j with
  | JBool b => Some (FFin (if b then 1 else 0)%Q)
  | JNum n => Some (FFin (inject_Z n))
  | JFloat f => Some f
  | _ => None
  end.

(** [==] between numbers.  [json.loads] returns one and the same NaN
    object, and [in] and container equality test identity before [==],
    so a NaN from JSON matches a NaN from JSON. *)
Definition float_eqb (a b : PyFloat) : bool :=
  match a, b with
  | FFin x, FFin y => Qeq_bool x y
  | FInf x, FInf y => Bool.eqb x y
  | FNaN, FNaN => true
  | _, _ => false
  end.

Fixpoint assoc_str {A} (k : string) (kvs : list (string * A)) : option A :=
  match kvs with
  | [] => None
  | (k', v) :: rest => if String.eqb k k' then Some v else assoc_str k rest
  end.

(** Python equality of two JSON values (as [in] tests it). *)
Fixpoint json_eqb (a b : Json) : bool :=
  match a, b with
  | JNull, JNull => true
  | JStr x, JStr y => String.eqb x y
  | JList xs, JList ys =>
      (fix go (xs ys : list Json) : bool :=
         match xs, ys with
         | [], [] => true
         | x :: xs', y :: ys' => json_eqb x y && go xs' ys'
         | _, _ => false
         end) xs ys
  | JObj xs, JObj ys =>
      (fix all (xs : list (string * Json)) : bool :=
         match xs with
         | [] => true
         | (k, v) :: rest =>
             match assoc_str k ys with
             | Some w => json_eqb v w && all rest
             | None => false
             end
         end) xs
      && forallb (fun kv => match assoc_str (fst kv) xs with Some _ => true | None => false end) ys
  | _, _ =>
      match json_num a, json_num b with
      | Some x, Some y => float_eqb x y
      | _, _ => false
      end
  end.

Fixpoint chars (s : string) : list Json :=
  match s with
  | EmptyString => []
  | String c rest => JStr (String c EmptyString) :: chars rest
  end.

(** [x in v]; [None] is the [TypeError] of [in] on a number, a [bool] or
    [None], of a non-string in a string, and of an unhashable [list] or
    [dict] in a [dict] (whose keys are strings). *)
Definition py_in (x v : Json) : option bool :=
  match v with
  | JList l => Some (existsb (json_eqb x) l)
  | JStr s => match x with JStr t => Some (Py.str_contains t s) | _ => None end
  | JObj kvs =>
      match x with
      | JStr t => Some (existsb (fun kv => String.eqb (fst kv) t) kvs)
      | JList _ | JObj _ => None
      | _ => Some false
      end
  | _ => None
  end.

(** [iter(v)]: the elements of a list, the characters of a string, the
    keys of a dict; [None] when [v] is not iterable ([TypeError]). *)
Definition py_iter (v : Json) : option (list Json) :=
  match v with
  | JList l => Some l
  | JStr s => Some (chars s)
  | JObj kvs => Some (map (fun kv => JStr (fst kv)) kvs)
  | _ => None
  end.

(** A parameter as the sqlite3 driver binds it. *)
Inductive SqlValue := SqlNull | SqlInt (n : Z) | SqlReal (f : PyFloat) | SqlText (t : string).

(** The parameter bound for [NotificationChannel.id == channel_id]:
    [None] makes SQLAlchemy write [IS NULL]; a [bool] is bound as 1 or 0;
    [None] as a result is the exception of the driver (a [list] or [dict]
    cannot be bound, an [int] must fit in 64 bits). *)
Definition sqlite_bind (j : Json) : option SqlValue :=
  match j with
  | JNull => Some SqlNull
  | JBool b => Some (SqlInt (if b then 1 else 0))
  | JNum n => if ((- 2 ^ 63 <=? n) && (n <? 2 ^ 63))%bool then Some (SqlInt n) else None
  | JFloat f => Some (SqlReal f)
  | JStr t => Some (SqlText t)
  | JList _ | JObj _ => None
  end.

(** The integer a rational is equal to, if any. *)
Definition q_int (q : Q) : option Z :=
  if Z.rem (Qnum q) (Zpos (Qden q)) =? 0 then Some (Z.quot (Qnum q) (Zpos (Qden q)))
  else None.

(** [any(tag in host_tags for tag in rule_tags)], propagating a raise. *)
Fixpoint any_in (tags : list Json) (host_tags : Json) : option bool :=
  match tags with
  | [] => Some false
  | t :: rest =>
      match py_in t host_tags with
      | None => None
      | Some true => Some true
      | Some false => any_in rest host_tags
      end
  end.

(** A row of [alert_rules]. *)
Record AlertRule := mkAlertRule {
  ar_id : Z;
  ar_name : string;
  ar_condition_type : string;
  ar_condition_operator : string;
  ar_condition_value : string;
  ar_target_hosts : option string;
  ar_target_tags : option string;
  ar_target_groups : option string;
  ar_severity : AlertSeverity;
  ar_notification_channels : option string;
  ar_enabled : bool
}.

(** [trigger_value]: [str(latency_ms)] or [status.value]. *)
Inductive TriggerValue := TVLatency (q : Q) | TVStatus (s : string).

(** A row of [alert_instances]. *)
Record AlertInstance := mkAlertInstance {
  ai_id : Z;
  ai_rule_id : Z;
  ai_hostname : string;
  ai_status : AlertStatus;
  ai_severity : AlertSeverity;
  ai_title : string;
  ai_triggered_at : Z;
  ai_resolved_at : option Z;
  ai_trigger_value : TriggerValue;
  ai_notification_count : Z
}.

(** A dispatch to one notification channel: triggered or resolution, with
    the alert's rule id, the alert's id and the channel id. *)
Inductive Notification :=
| NTriggered (rule_id alert_id channel_id : Z)
| NResolved (rule_id alert_id channel_id : Z).

Definition notif_alert (n : Notification) : Z :=
  match n with NTriggered _ a _ | NResolved _ a _ => a end.

(** What the evaluator reads: the [hosts] table, the notification
    channels ([id -> enabled]) and the [alert_rules] table. *)
Record Env := mkEnv {
  env_hosts : gmap string Host;
  env_channels : gmap Z bool;
  env_rules : list AlertRule
}.

(** The SQLAlchemy session of [evaluate_alert_rules]
    ([autocommit=False, autoflush=False]): queries read [working], a commit
    makes it [committed], and closing the session drops what was not
    committed. *)
Record Session := mkSession {
  committed : list AlertInstance;
  working : list AlertInstance
}.

Definition commit (ss : Session) : Session := mkSession (working ss) (working ss).

Section WithDecoders.
(** [json.loads] ([None]: it raises) and [float] ([None]: [ValueError]). *)
Variable json_loads : string -> option Json.
Variable parse_float : string -> option Q.
Variable env : Env.
(** SQLite's NUMERIC affinity on a text: the number it converts to, if
    the text is a well-formed number. *)
Variable sqlite_numeric : string -> option Q.

(** [_matches_target(rule, hostname)] *)
Definition hosts_match (th hn : string) : bool :=
  let fallback := (String.eqb th "*" || Py.str_contains hn th)%bool in
  match json_loads th with
  | Some v =>
      match py_in (JStr "*") v with
      | Some true => true
      | Some false =>
          match py_in (JStr hn) v with Some b => b | None => fallback end
      | None => fallback
      end
  | None => fallback
  end.

Definition tags_match (tt ht : string) : bool :=
  match json_loads tt, json_loads ht with
  | Some rule_tags, Some host_tags =>
      match py_iter rule_tags with
      | Some l => match any_in l host_tags with Some b => b | None => false end
      | None => false
      end
  | _, _ => false
  end.

Definition groups_match (tg g : string) : bool :=
  match json_loads tg with
  | Some rule_groups =>
      match py_in (JStr g) rule_groups with
      | Some b => b
      | None => Py.str_contains g tg
      end
  | None => Py.str_contains g tg
  end.

Definition matches_target (rule : AlertRule) (hn : string) : bool :=
  match env_hosts env !! hn with
  | None => false
  | Some host =>
      if Py.truthy (ar_target_hosts rule)
         && hosts_match (default "" (ar_target_hosts rule)) hn then true
      else if Py.truthy (ar_target_tags rule) && Py.truthy (tags host)
              && tags_match (default "" (ar_target_tags rule)) (default "" (tags host)) then true
      else if Py.truthy (ar_target_groups rule) && Py.truthy (group_name host)
              && groups_match (default "" (ar_target_groups rule)) (default "" (group_name host))
      then true
      else negb (Py.truthy (ar_target_hosts rule) || Py.truthy (ar_target_tags rule)
                 || Py.truthy (ar_target_groups rule))
  end.

(** The "Check condition" block of [_should_trigger_alert]. *)
Definition condition_holds (rule : AlertRule) (status : HostStatus)
    (latency_ms : option Q) : bool :=
  if String.eqb (ar_condition_type rule) "status" then
    if String.eqb (ar_condition_operator rule) "equals" then
      String.eqb (HostStatus_value status) (ar_condition_value rule)
    else if String.eqb (ar_condition_operator rule) "not_equals" then
      negb (String.eqb (HostStatus_value status) (ar_condition_value rule))
    else false
  else if String.eqb (ar_condition_type rule) "latency" then
    match latency_ms with
    | Some l =>
        match parse_float (ar_condition_value rule) with
        | None => false
        | Some threshold =>
            if String.eqb (ar_condition_operator rule) "greater_than" then
              negb (Qle_bool l threshold)
            else if String.eqb (ar_condition_operator rule) "less_than" then
              negb (Qle_bool threshold l)
            else false
        end
    | None => false
    end
  else false.

Definition should_trigger_alert (rule : AlertRule) (hn : string)
    (status : HostStatus) (latency_ms : option Q) : bool :=
  if negb (matches_target rule hn) then false
  else condition_holds rule status latency_ms.

(** The channel id an integer primary key equals in [id = ?] with the
    bound value: an integer as such, a real if it is integral, a text
    through NUMERIC affinity; NULL, NaN and the infinities equal none. *)
Definition sql_id (v : SqlValue) : option Z :=
  match v with
  | SqlInt n => Some n
  | SqlReal (FFin q) => q_int q
  | SqlText t => match sqlite_numeric t with Some q => q_int q | None => None end
  | _ => None
  end.

(** The loop [for channel_id in channel_ids] of the notification senders:
    the ids of the channels found (enabled ones for a trigger), in order,
    and whether a query raised, which ends the loop. *)
Fixpoint dispatch (need_enabled : bool) (ids : list Json) : list Z * bool :=
  match ids with
  | [] => ([], false)
  | j :: rest =>
      match sqlite_bind j with
      | None => ([], true)
      | Some v =>
          let here :=
            match sql_id v with
            | Some c =>
                match env_channels env !! c with
                | Some en => if (negb need_enabled || en)%bool then [c] else []
                | None => []
                end
            | None => []
            end in
          let '(cs, raised) := dispatch need_enabled rest in ((here ++ cs)%list, raised)
      end
  end.

(** The channels [_send_alert_notifications] ([need_enabled]) or
    [_send_resolution_notification] notify, and whether the sender raised:
    nothing for a falsy [notification_channels] or one [json.loads]
    rejects (the bare [except] returns); the [TypeError] of iterating a
    value that is not iterable (outside the [try]); the loop otherwise. *)
Definition channel_targets (rule : AlertRule) (need_enabled : bool) : list Z * bool :=
  if negb (Py.truthy (ar_notification_channels rule)) then ([], false) else
  match json_loads (default "" (ar_notification_channels rule)) with
  | None => ([], false)
  | Some v =>
      match py_iter v with
      | None => ([], true)
      | Some ids => dispatch need_enabled ids
      end
  end.

Definition send_alert_notifications (rule : AlertRule) (alert : AlertInstance)
  : list Notification * bool :=
  let '(cs, raised) := channel_targets rule true in
  (map (NTriggered (ar_id rule) (ai_id alert)) cs, raised).

Definition send_resolution_notification (rule : AlertRule) (alert : AlertInstance)
  : list Notification * bool :=
  let '(cs, raised) := channel_targets rule false in
  (map (NResolved (ar_id rule) (ai_id alert)) cs, raised).

Definition is_active_for (rule : AlertRule) (hn : string) (a : AlertInstance) : bool :=
  (ai_rule_id a =? ar_id rule) && String.eqb (ai_hostname a) hn
  && AlertStatus_eqb (ai_status a) ACTIVE.

Fixpoint update_first (p : AlertInstance -> bool) (f : AlertInstance -> AlertInstance)
    (l : list AlertInstance) : list AlertInstance :=
  match l with
  | [] => []
  | a :: rest => if p a then f a :: rest else a :: update_first p f rest
  end.

Definition next_id (l : list AlertInstance) : Z :=
  1 + fold_right (fun a m => Z.max (ai_id a) m) 0 l.

Definition trigger_value (status : HostStatus) (latency_ms : option Q) : TriggerValue :=
  match latency_ms with
  | Some l => if Qeq_bool l 0 then TVStatus (HostStatus_value status) else TVLatency l
  | None => TVStatus (HostStatus_value status)
  end.

Definition retrigger (tv : TriggerValue) (a : AlertInstance) : AlertInstance :=
  mkAlertInstance (ai_id a) (ai_rule_id a) (ai_hostname a) (ai_status a)
    (ai_severity a) (ai_title a) (ai_triggered_at a) (ai_resolved_at a)
    tv (ai_notification_count a + 1).

(** [_create_alert_instance]: a re-trigger updates the first active
    instance of the pair in the session (no commit on that branch); a new
    instance is added, committed and notified.  The flag is the exception
    of the notification sender, raised after the commit. *)
Definition create_alert_instance (ss : Session) (rule : AlertRule) (hn : string)
    (status : HostStatus) (latency_ms : option Q) (now : Z)
  : Session * list Notification * bool :=
  let tv := trigger_value status latency_ms in
  match find (is_active_for rule hn) (working ss) with
  | Some _ =>
      (mkSession (committed ss)
         (update_first (is_active_for rule hn) (retrigger tv) (working ss)), [], false)
  | None =>
      let alert := mkAlertInstance (next_id (working ss)) (ar_id rule) hn ACTIVE
                     (ar_severity rule) (ar_name rule ++ " - " ++ hn) now None tv 1 in
      let ss := commit (mkSession (committed ss) (working ss ++ [alert])) in
      let '(ns, raised) := send_alert_notifications rule alert in
      (ss, ns, raised)
  end.

Definition resolve_alert (now : Z) (a : AlertInstance) : AlertInstance :=
  mkAlertInstance (ai_id a) (ai_rule_id a) (ai_hostname a) RESOLVED
    (ai_severity a) (ai_title a) (ai_triggered_at a) (Some now)
    (ai_trigger_value a) (ai_notification_count a).

(** The loop of [_check_alert_resolution] over the instances of the
    session: each active instance of the pair whose condition, re-tested
    without latency, fails is resolved and its resolution sent; an
    exception of the sender ends the loop. *)
Fixpoint resolution_loop (rule : AlertRule) (hn : string) (status : HostStatus) (now : Z)
    (l : list AlertInstance) : list AlertInstance * list Notification * bool :=
  match l with
  | [] => ([], [], false)
  | a :: rest =>
      if is_active_for rule hn a && negb (should_trigger_alert rule hn status None) then
        let a' := resolve_alert now a in
        let '(ns, raised) := send_resolution_notification rule a' in
        if raised then (a' :: rest, ns, true)
        else
          let '(rest', ns', raised') := resolution_loop rule hn status now rest in
          (a' :: rest', (ns ++ ns')%list, raised')
      else
        let '(rest', ns', raised') := resolution_loop rule hn status now rest in
        (a :: rest', ns', raised')
  end.

(** [_check_alert_resolution]: the session is committed after the loop,
    unless the loop raised. *)
Definition check_alert_resolution (ss : Session) (rule : AlertRule) (hn : string)
    (status : HostStatus) (now : Z) : Session * list Notification * bool :=
  let '(w, ns, raised) := resolution_loop rule hn status now (working ss) in
  if raised then (mkSession (committed ss) w, ns, true)
  else (commit (mkSession (committed ss) w), ns, false).

(** One iteration of the loop of [evaluate_alert_rules]. *)
Definition rule_step (rule : AlertRule) (hn : string) (status : HostStatus)
    (latency_ms : option Q) (now : Z) (ss : Session) : Session * list Notification * bool :=
  if should_trigger_alert rule hn status latency_ms
  then create_alert_instance ss rule hn status latency_ms now
  else check_alert_resolution ss rule hn status now.

(** The loop of [evaluate_alert_rules]; an exception ends it. *)
Fixpoint eval_rules (rules : list AlertRule) (hn : string) (status : HostStatus)
    (latency_ms : option Q) (now : Z) (ss : Session) (out : list Notification)
  : Session * list Notification * bool :=
  match rules with
  | [] => (ss, out, false)
  | rule :: rest =>
      let '(ss, ns, raised) := rule_step rule hn status latency_ms now ss in
      if raised then (ss, (out ++ ns)%list, true)
      else eval_rules rest hn status latency_ms now ss (out ++ ns)%list
  end.

(** [evaluate_alert_rules(hostname, current_status, latency_ms)] on the
    table [table] of alert instances: the enabled rules in table order.
    The result is the table afterwards (what the session committed; the
    rest is dropped when the session closes, also on an exception), the
    notifications sent, and whether the call raised. *)
Definition evaluate_alert_rules (hn : string) (status : HostStatus)
    (latency_ms : option Q) (now : Z) (table : list AlertInstance)
  : list AlertInstance * list Notification * bool :=
  let '(ss, out, raised) :=
    eval_rules (filter (fun r => ar_enabled r = true) (env_rules env))
      hn status latency_ms now (mkSession table table) [] in
  (committed ss, out, raised).

End WithDecoders.

End Alerts.

(* ================================================================= *)
(** ** [app.py]: the machine list, the cache initialisation and the
    [/status] and [/search] routes *)

Module AppRoutes.
Import App.

Definition CACHE_TIMEOUT : Z := 300.

(** [str(n)] of a natural number. *)
Fixpoint str_nat_go (fuel n : nat) (acc : string) : string :=
  match fuel with
  | O => acc
  | S f =>
      let acc := String (Ascii.ascii_of_nat (48 + Nat.modulo n 10)%nat) acc in
      if Nat.ltb n 10 then acc else str_nat_go f (Nat.div n 10) acc
  end.

Definition str_nat (n : nat) : string := str_nat_go (S n) n "".

(** The globals [machines_cache] and [last_machines_load], with the number
    of times the list has been rebuilt (each rebuild consults the file
    system). *)
Record LoaderState := mkLoaderState {
  machines_cache : list Machine;
  last_machines_load : Z;
  rebuilds : nat
}.

(** One row of [csv.reader] after the header: [None] when the row adds no
    machine (no cell, or an empty name). *)
Definition parse_row (row : list string) : option Machine :=
  match row with
  | [] => None
  | c0 :: rest =>
      let name := Py.strip c0 in
      let ip_hint := match rest with c1 :: _ => Some (Py.strip c1) | [] => None end in
      if String.eqb name "" then None
      else if (Py.truthy ip_hint && negb (Py.opt_eqb ip_hint (Some "?"))
               && negb (Py.str_contains "/" (default "" ip_hint)))%bool
      then Some (mkMachine name ip_hint)
      else Some (mkMachine name None)
  end.

(** The machines read from [machines.csv]; [rows] are the rows the reader
    produced, header included (a read error ends the loop, and the rows
    read until then are kept, as the [try] around it does). *)
Definition load_rows (rows : list (list string)) : list Machine :=
  match rows with
  | [] => []
  | _ :: body => omap parse_row body
  end.

(** The list used when [machines.csv] does not exist. *)
Definition scan_hosts : list Machine :=
  map (fun i => mkMachine ("Host-" ++ str_nat i) (Some ("192.168.0." ++ str_nat i)))
      (seq 1 50).

Definition nonempty {A} (l : list A) : bool :=
  match l with [] => false | _ => true end.

(** [carregar_maquinas()] at time [now]; [file now] is [None] when
    [machines.csv] does not exist at that time, else the rows read from it. *)
Definition carregar_maquinas (file : Z -> option (list (list string))) (now : Z)
    (ls : LoaderState) : list Machine * LoaderState :=
  if (nonempty (machines_cache ls)
      && bool_decide (now - last_machines_load ls < CACHE_TIMEOUT))%bool
  then (machines_cache ls, ls)
  else
    let maquinas := match file now with
                    | Some rows => load_rows rows
                    | None => scan_hosts
                    end in
    (maquinas, mkLoaderState maquinas now (S (rebuilds ls))).

(** The entry [inicializar_cache] writes for a machine. *)
Definition init_entry (hostname : string) : StatusEntry :=
  mkStatusEntry hostname None "Desconhecido" None None None None false.

(** [inicializar_cache()] at time [now]. *)
Definition inicializar_cache (file : Z -> option (list (list string))) (now : Z)
    (ls : LoaderState) (s : AppState) : LoaderState * AppState :=
  let '(ms, ls) := carregar_maquinas file now ls in
  (ls, fold_left (fun s m =>
          set_status_cache (<[m_name m := init_entry (m_name m)]> (status_cache s)) s)
        ms s).

Section Routes.
(** [str.lower] (its Unicode case mapping is left abstract) and
    [formatar_data_br] on a timestamp. *)
Variable str_lower : string -> string.
Variable formatar_data_br : Z -> string.

(** [key(a) <= key(b)] for the sort key
    [(x["status"] != "Online", x["name"].lower())]: [False < True], then
    the lowered names. *)
Definition key_le (a b : StatusEntry) : bool :=
  let ka := negb (String.eqb (se_status a) "Online") in
  let kb := negb (String.eqb (se_status b) "Online") in
  if Bool.eqb ka kb then String.leb (str_lower (se_name a)) (str_lower (se_name b))
  else kb.

(** [items.sort(key=...)]: Python's sort is stable; written as an insertion
    sort that puts an element before the first one whose key is not
    smaller, so that equal keys keep their order. *)
Fixpoint insert_by (x : StatusEntry) (l : list StatusEntry) : list StatusEntry :=
  match l with
  | [] => [x]
  | y :: rest => if key_le x y then x :: y :: rest else y :: insert_by x rest
  end.

Fixpoint sort_items (l : list StatusEntry) : list StatusEntry :=
  match l with
  | [] => []
  | x :: rest => insert_by x (sort_items rest)
  end.

(** [formatar_data_br(it["last_checked"]) if it["last_checked"] else None] *)
Definition fmt_last_checked (t : option Z) : option string :=
  match t with Some t => Some (formatar_data_br t) | None => None end.

(** An element of the JSON list of [/status]. *)
Record StatusView := mkStatusView {
  sv_name : string;
  sv_ip : option string;
  sv_status : string;
  sv_time_last_checked : option string;
  sv_latency_ms : option Z;
  sv_reason : option string;
  sv_method : option string;
  sv_ip_changed : bool
}.

Definition status_view (it : StatusEntry) : StatusView :=
  mkStatusView (se_name it) (se_ip it) (se_status it)
    (fmt_last_checked (se_last_checked it)) (se_latency_ms it)
    (se_reason it) (se_method it) (se_ip_changed it).

(** The [/status] route; [items] is [list(status_cache.values())]. *)
Definition status_route (items : list StatusEntry) : list StatusView :=
  map status_view (sort_items items).

(** An element of the JSON list of [/search]. *)
Record SearchView := mkSearchView {
  sr_name : string;
  sr_ip : option string;
  sr_status : string;
  sr_time_last_checked : option string;
  sr_latency_ms : option Z
}.

Definition search_view (it : StatusEntry) : SearchView :=
  mkSearchView (se_name it) (se_ip it) (se_status it)
    (fmt_last_checked (se_last_checked it)) (se_latency_ms it).

(** [query in item["name"].lower() or query in (item.get("ip") or "").lower()] *)
Definition matches_query (query : string) (it : StatusEntry) : bool :=
  Py.str_contains query (str_lower (se_name it))
  || Py.str_contains query (str_lower (default "" (se_ip it))).

Definition matches_status (status_filter : string) (it : StatusEntry) : bool :=
  String.eqb (str_lower (se_status it)) (str_lower status_filter).

(** The [/search] route for the arguments [q] and [status] (a missing
    argument is [""]); [items] is [list(status_cache.values())]. *)
Definition search (q status_filter : string) (items : list StatusEntry)
  : list SearchView :=
  let query := str_lower q in
  let items := if negb (String.eqb query "")
               then List.filter (matches_query query) items else items in
  let items := if negb (String.eqb status_filter "")
               then List.filter (matches_status status_filter) items else items in
  map search_view (sort_items items).

End Routes.

End AppRoutes.

(* ================================================================= *)
(** ** [src/api/routes/monitoring.py]: [force_host_check] *)

Module MonRoutes.
Import Mon.




(** The latencies of the probes recorded as successful in [checks], in the
    order [check_host_comprehensive] runs them (ICMP, the TCP ports, HTTP,
    HTTPS). *)
Definition successful_latencies (ck : Checks) : list (option Z) :=
  (match ck_icmp ck with
   | Some c => if pc_success c then [pc_latency_ms c] else []
   | None => [] end ++
   match ck_tcp ck with
   | Some l => map tc_latency_ms (List.filter tc_success l)
   | None => [] end ++
   match ck_http ck with
   | Some c => if hc_success c then [hc_latency_ms c] else []
   | None => [] end ++
   match ck_https ck with
   | Some c => if hc_success c then [hc_latency_ms c] else []
   | None => [] end)%list.

(** The calls [check_host_comprehensive] makes to probe the address
    [target] of [host], read off its check types and ports. *)
Definition probe_plan (host : Host) (target : string) : list Event :=
  let cts := parse_check_types (check_types host) in
  ((if Py.str_mem "icmp" cts then [EvIcmp target] else []) ++
   (if (Py.str_mem "tcp" cts && Py.truthy (tcp_ports host))%bool
    then map (EvTcp target) (parse_tcp_ports (default "" (tcp_ports host))) else []) ++
   (if Py.str_mem "http" cts then [EvHttp ("http://" ++ target)] else []) ++
   (if Py.str_mem "https" cts
    then [EvHttp ("https://" ++ target); EvSsl target 443] else []))%list.

End MonRoutes.

(* ================================================================= *)
(** ** [src/services/alerts.py]: [acknowledge_alert] *)

Module AlertsAck.
Import Mon Alerts.

Definition set_acknowledged (a : AlertInstance) : AlertInstance :=
  mkAlertInstance (ai_id a) (ai_rule_id a) (ai_hostname a) ACKNOWLEDGED
    (ai_severity a) (ai_title a) (ai_triggered_at a) (ai_resolved_at a)
    (ai_trigger_value a) (ai_notification_count a).

(** [acknowledge_alert(alert_id, acknowledged_by)] at time [now] on the
    table [table]; [acks] holds the columns [acknowledged_at] and
    [acknowledged_by], by alert id. *)
Definition acknowledge_alert (alert_id : Z) (acknowledged_by : string) (now : Z)
    (table : list AlertInstance) (acks : gmap Z (Z * string))
  : bool * (list AlertInstance * gmap Z (Z * string)) :=
  match find (fun a => ai_id a =? alert_id) table with
  | Some a =>
      if AlertStatus_eqb (ai_status a) ACTIVE then
        (true, (update_first (fun a => ai_id a =? alert_id) set_acknowledged table,
                <[alert_id := (now, acknowledged_by)]> acks))
      else (false, (table, acks))
  | None => (false, (table, acks))
  end.

(** An [ACTIVE] instance of the rule id [rid] for the host [hn]. *)
Definition active_pair (rid : Z) (hn : string) (a : AlertInstance) : bool :=
  (ai_rule_id a =? rid) && String.eqb (ai_hostname a) hn
  && AlertStatus_eqb (ai_status a) ACTIVE.

(** At most one [ACTIVE] instance per rule id and host. *)
Definition one_active_per_pair (t : list AlertInstance) : Prop :=
  forall rid hn, (length (List.filter (active_pair rid hn) t) <= 1)%nat.

End AlertsAck.

(* ================================================================= *)
(** * Proofs *)

Module StatsProofs.
Import Mon.

Lemma update_stats_succ_nonneg st successful rt st' :
  0 <= successful_checks st -> update_stats st successful rt = Some st' ->
  0 <= successful_checks st'.
Proof.
  intros H Hu. unfold update_stats in Hu.
  destruct rt as [q|]; [destruct (Z.eqb_spec (if successful then successful_checks st + 1
                                               else successful_checks st) 0)|];
    inversion Hu; subst; simpl; destruct successful; lia.
Qed.





End StatsProofs.

Module MonProofs.
Import Mon.
Local Open Scope list_scope.

(** [check_after_maintenance] reads no maintenance field of the host. *)
Lemma check_after_maintenance_clear P host now s :
  check_after_maintenance P (clear_maintenance host) now s =
  check_after_maintenance P host now s.
Proof. reflexivity. Qed.



(** The TCP loop tries every port, in order, and reports whether one of
    them answered. *)
Lemma tcp_loop_spec P target tmo ports any best acc s :
  let '(any', best', acc', s') := tcp_loop P target tmo ports any best acc s in
  exists fresh, acc' = acc ++ fresh /\
    any' = (any || existsb tc_success fresh)%bool /\
    map tc_port fresh = ports /\
    trace s' = trace s ++ map (EvTcp target) ports /\
    hosts s' = hosts s /\ host_history s' = host_history s.
Proof.
  revert any best acc s. induction ports as [|port rest IH]; intros any best acc s.
  - simpl. exists []. rewrite !app_nil_r. rewrite orb_false_r. done.
  - simpl. destruct (ping_tcp P target port tmo) as [ok lat] eqn:Hp.
    destruct ok.
    + specialize (IH true (improve best lat) (acc ++ [mkTcpCheck port true lat])
                    (log (EvTcp target port) s)).
      destruct (tcp_loop P target tmo rest true (improve best lat)
                  (acc ++ [mkTcpCheck port true lat]) (log (EvTcp target port) s))
        as [[[any' best'] acc'] s'].
      destruct IH as (fresh & Hacc & Hany & Hports & Htr & Hh & Hhist).
      exists (mkTcpCheck port true lat :: fresh).
      split; [rewrite Hacc, <- app_assoc; done|].
      split; [rewrite Hany; simpl; by rewrite orb_true_r|].
      split; [simpl; by rewrite Hports|].
      split; [rewrite Htr; simpl; by rewrite <- app_assoc|]. done.
    + specialize (IH any best (acc ++ [mkTcpCheck port false lat])
                    (log (EvTcp target port) s)).
      destruct (tcp_loop P target tmo rest any best
                  (acc ++ [mkTcpCheck port false lat]) (log (EvTcp target port) s))
        as [[[any' best'] acc'] s'].
      destruct IH as (fresh & Hacc & Hany & Hports & Htr & Hh & Hhist).
      exists (mkTcpCheck port false lat :: fresh).
      split; [rewrite Hacc, <- app_assoc; done|].
      split; [rewrite Hany; done|].
      split; [simpl; by rewrite Hports|].
      split; [rewrite Htr; simpl; by rewrite <- app_assoc|]. done.
Qed.

(** [any_success] after the probes is [probe_success] of the checks they
    recorded, when no probe was recorded before. *)
Lemma run_probes_any_success P host target dns s :
  let '(any, best, checks, s') :=
    run_probes P host target (mkChecks (Some dns) None None None None None) s in
  any = probe_success checks /\ ck_dns checks = Some dns.
Proof.
  unfold run_probes.
  destruct (Py.str_mem "icmp" _) eqn:Hicmp.
  - destruct (ping_icmp P target (timeout host)) as [ok lat] eqn:Hi.
    destruct (Py.str_mem "tcp" _ && Py.truthy (tcp_ports host))%bool eqn:Htcp.
    + pose proof (tcp_loop_spec P target (timeout host)
                    (parse_tcp_ports (default "" (tcp_ports host)))
                    (if ok then true else false) (if ok then improve None lat else None)
                    [] (log (EvIcmp target) s)) as Hl.
      destruct ok;
      (destruct (tcp_loop _ _ _ _ _ _ _ _) as [[[any1 best1] acc1] s1];
       destruct Hl as (fresh & Hacc & Hany & _); simpl in Hacc; subst acc1 any1;
       destruct (Py.str_mem "http" _);
       [destruct (ping_http P _ _) as [[hok hlat] hst]; destruct hok|];
       destruct (Py.str_mem "https" _);
       try (destruct (ping_http P ("https://" ++ target)%string _) as [[sok slat] sst];
            destruct (check_ssl_certificate P target 443 _); destruct sok);
       cbv [probe_success set_ck_https set_ck_http set_ck_tcp set_ck_icmp]; cbn;
       split; try reflexivity;
       repeat (rewrite ?orb_true_r, ?orb_false_r, ?orb_true_l, ?orb_false_l);
       reflexivity).
    + destruct ok;
      (destruct (Py.str_mem "http" _);
       [destruct (ping_http P _ _) as [[hok hlat] hst]; destruct hok|];
       destruct (Py.str_mem "https" _);
       try (destruct (ping_http P ("https://" ++ target)%string _) as [[sok slat] sst];
            destruct (check_ssl_certificate P target 443 _); destruct sok);
       cbv [probe_success set_ck_https set_ck_http set_ck_tcp set_ck_icmp]; cbn;
       split; try reflexivity;
       repeat (rewrite ?orb_true_r, ?orb_false_r, ?orb_true_l, ?orb_false_l);
       reflexivity).
  - destruct (Py.str_mem "tcp" _ && Py.truthy (tcp_ports host))%bool eqn:Htcp.
    + pose proof (tcp_loop_spec P target (timeout host)
                    (parse_tcp_ports (default "" (tcp_ports host)))
                    false None [] s) as Hl.
      destruct (tcp_loop _ _ _ _ _ _ _ _) as [[[any1 best1] acc1] s1];
       destruct Hl as (fresh & Hacc & Hany & _); simpl in Hacc; subst acc1 any1;
       destruct (Py.str_mem "http" _);
       [destruct (ping_http P _ _) as [[hok hlat] hst]; destruct hok|];
       destruct (Py.str_mem "https" _);
       try (destruct (ping_http P ("https://" ++ target)%string _) as [[sok slat] sst];
            destruct (check_ssl_certificate P target 443 _); destruct sok);
       cbv [probe_success set_ck_https set_ck_http set_ck_tcp set_ck_icmp]; cbn;
       split; try reflexivity;
       repeat (rewrite ?orb_true_r, ?orb_false_r, ?orb_true_l, ?orb_false_l);
       reflexivity.
    + destruct (Py.str_mem "http" _);
       [destruct (ping_http P _ _) as [[hok hlat] hst]; destruct hok|];
       destruct (Py.str_mem "https" _);
       try (destruct (ping_http P ("https://" ++ target)%string _) as [[sok slat] sst];
            destruct (check_ssl_certificate P target 443 _); destruct sok);
       cbv [probe_success set_ck_https set_ck_http set_ck_tcp set_ck_icmp]; cbn;
       split; try reflexivity;
       repeat (rewrite ?orb_true_r, ?orb_false_r, ?orb_true_l, ?orb_false_l);
       reflexivity.
Qed.

End MonProofs.

Module AppProofs.
Import App.
Local Open Scope list_scope.

Section Net.
Variable net : Net.

Lemma ping_attempts_spec target attempt fuel s :
  let '((ok, lat), s') := ping_attempts net target attempt fuel s in
  exists evs, trace s' = trace s ++ evs /\ ok = existsb (event_ok net) evs /\
    Forall (fun e => exists a, e = EvIcmp target a) evs /\ same_but_trace s s'.
Proof.
  revert attempt s. induction fuel as [|fuel IH]; intros attempt s; simpl.
  - exists []. rewrite app_nil_r. split; [reflexivity|]. split; [reflexivity|].
    split; [constructor|]. unfold same_but_trace; done.
  - destruct (ping_once net target attempt) as [l|] eqn:Hp.
    + exists [EvIcmp target attempt]. simpl. rewrite Hp.
      split; [reflexivity|]. split; [reflexivity|].
      split; [repeat constructor; eauto|]. unfold same_but_trace; done.
    + specialize (IH (S attempt) (log (EvIcmp target attempt) s)).
      destruct (ping_attempts net target (S attempt) fuel _) as [[ok lat] s'].
      destruct IH as (evs & Htr & Hok & Hall & Hd & Hst & Hh & Hsc).
      exists (EvIcmp target attempt :: evs).
      rewrite Htr. simpl. rewrite <- app_assoc. simpl. rewrite Hp. simpl.
      repeat split; [exact Hok| constructor; eauto | exact Hd | exact Hst | exact Hh | exact Hsc].
Qed.

Lemma tcp_scan_spec ip ports s :
  let '(ok, s') := tcp_scan net ip ports s in
  exists evs, trace s' = trace s ++ evs /\ ok = existsb (event_ok net) evs /\
    Forall (fun e => exists p, e = EvTcp ip p) evs /\ same_but_trace s s'.
Proof.
  revert s. induction ports as [|port rest IH]; intros s; simpl.
  - exists []. rewrite app_nil_r. split; [reflexivity|]. split; [reflexivity|].
    split; [constructor|]. unfold same_but_trace; done.
  - unfold tcp_ping. destruct (String.eqb ip "") eqn:Hip.
    + apply IH.
    + destruct (tcp_connect net ip port) eqn:Hc.
      * exists [EvTcp ip port]. simpl. rewrite Hc.
        split; [reflexivity|]. split; [reflexivity|].
        split; [repeat constructor; eauto|]. unfold same_but_trace; done.
      * specialize (IH (log (EvTcp ip port) s)).
        destruct (tcp_scan net ip rest _) as [ok s'].
        destruct IH as (evs & Htr & Hok & Hall & Hd & Hst & Hh & Hsc).
        exists (EvTcp ip port :: evs).
        rewrite Htr. simpl. rewrite <- app_assoc. simpl. rewrite Hc. simpl.
        repeat split; [exact Hok| constructor; eauto | exact Hd | exact Hst | exact Hh | exact Hsc].
Qed.

Lemma probe_spec icmp_target tcp_target s :
  let '((ok, lat), s') := probe net icmp_target tcp_target s in
  exists evs, trace s' = trace s ++ evs /\ ok = existsb (event_ok net) evs /\
    Forall (fun e => (exists a, e = EvIcmp icmp_target a) \/
                     (exists p, e = EvTcp tcp_target p)) evs /\
    same_but_trace s s'.
Proof.
  unfold probe.
  pose proof (ping_attempts_spec icmp_target 0 MAX_RETRIES s) as Hi.
  unfold ping_icmp_target.
  destruct (ping_attempts net icmp_target 0 MAX_RETRIES s) as [[on lat] s1].
  destruct Hi as (evs1 & Htr1 & Hok1 & Hall1 & Hsb1).
  destruct on.
  - exists evs1. split; [exact Htr1|]. split; [exact Hok1|]. split; [|exact Hsb1].
    eapply Forall_impl; [exact Hall1|]. intros e He. left. exact He.
  - pose proof (tcp_scan_spec tcp_target PORTAS_TCP_TESTE s1) as Ht.
    destruct (tcp_scan net tcp_target PORTAS_TCP_TESTE s1) as [ok s2].
    destruct Ht as (evs2 & Htr2 & Hok2 & Hall2 & Hsb2).
    destruct ok; exists (evs1 ++ evs2);
      rewrite existsb_app, <- Hok1, <- Hok2, Htr2, Htr1, <- app_assoc;
      (split; [reflexivity|]); (split; [reflexivity|]);
      (split; [apply Forall_app; split;
               (eapply Forall_impl; [eassumption|]); intros e He; [left|right]; exact He|]);
      unfold same_but_trace in *; destruct Hsb1 as (? & ? & ? & ?), Hsb2 as (? & ? & ? & ?);
      (split; [congruence|]); (split; [congruence|]); split; congruence.
Qed.

Lemma resolve_hostname_spec hostname now s :
  let '(r, s') := resolve_hostname net hostname now s in
  (s' = s) \/ (trace s' = trace s ++ [EvLookup hostname] /\
               status_cache s' = status_cache s /\ history s' = history s).
Proof.
  unfold resolve_hostname, dns_lookup.
  destruct (dns_cache s !! hostname) as [e|].
  - destruct (bool_decide _); [left; reflexivity|].
    destruct (gethostbyname net hostname now); right; done.
  - destruct (gethostbyname net hostname now); right; done.
Qed.

(** The tail of [checar_um_host] (status cache, history rows, counter)
    touches no trace. *)
Lemma resolve_events_fail hostname now s :
  let '(r, s') := resolve_hostname net hostname now s in
  exists evs, trace s' = trace s ++ evs /\ existsb (event_ok net) evs = false /\
    status_cache s' = status_cache s /\ history s' = history s.
Proof.
  pose proof (resolve_hostname_spec hostname now s) as H.
  destruct (resolve_hostname net hostname now s) as [r s'].
  destruct H as [->|(Htr & Hsc & Hh)].
  - exists []. rewrite app_nil_r. done.
  - exists [EvLookup hostname]. done.
Qed.

(** C1 for [app.py]: the status written by [checar_um_host] is ["Online"]
    exactly when one of the ping attempts or TCP connections it made
    succeeded, ["Offline"] otherwise. *)
Lemma checar_status_iff_success hn ip now s d s' :
  checar_um_host net (mkMachine hn ip) now s = (Some d, s') ->
  exists evs, trace s' = trace s ++ evs /\
    ((se_status d = "Online" /\ existsb (event_ok net) evs = true) \/
     (se_status d = "Offline" /\ existsb (event_ok net) evs = false)).
Proof.
  unfold checar_um_host. simpl.
  destruct (String.eqb hn "") eqn:Hhn; [discriminate|].
  pose proof (resolve_events_fail hn now s) as Hr.
  destruct (resolve_hostname net hn now s) as [[rip derr] s1].
  destruct Hr as (evs0 & Htr0 & Hok0 & _ & _).
  destruct (Py.truthy rip) eqn:Hrip; [|destruct (Py.truthy ip) eqn:Hip].
  - pose proof (probe_spec hn (default "" rip) s1) as Hp.
    destruct (probe net hn (default "" rip) s1) as [[on lat] s2].
    destruct Hp as (evs & Htr & Hok & _ & _).
    intros Hc.
    assert (Htr' : trace s' = trace s2 /\ se_status d = if on then "Online" else "Offline").
    { destruct (status_cache s2 !! hn) as [e|];
        [destruct (_ && _ && _)%bool|];
        (destruct (_ && _)%bool; injection Hc as <- <-; split; reflexivity). }
    destruct Htr' as [-> Hst]. exists (evs0 ++ evs).
    rewrite Htr, Htr0, <- app_assoc. split; [reflexivity|].
    rewrite existsb_app, Hok0, <- Hok. simpl. destruct on; [left|right]; done.
  - pose proof (probe_spec (default "" ip) (default "" ip) s1) as Hp.
    destruct (probe net (default "" ip) (default "" ip) s1) as [[on lat] s2].
    destruct Hp as (evs & Htr & Hok & _ & _).
    intros Hc.
    assert (Htr' : trace s' = trace s2 /\ se_status d = if on then "Online" else "Offline").
    { destruct (status_cache s2 !! hn) as [e|];
        [destruct (_ && _ && _)%bool|];
        (destruct (_ && _)%bool; injection Hc as <- <-; split; reflexivity). }
    destruct Htr' as [-> Hst]. exists (evs0 ++ evs).
    rewrite Htr, Htr0, <- app_assoc. split; [reflexivity|].
    rewrite existsb_app, Hok0, <- Hok. simpl. destruct on; [left|right]; done.
  - intros Hc.
    assert (Htr' : trace s' = trace s1 /\ se_status d = "Offline").
    { destruct (status_cache s1 !! hn) as [e|];
        [destruct (_ && _ && _)%bool|];
        (destruct (_ && _)%bool; injection Hc as <- <-; split; reflexivity). }
    destruct Htr' as [-> Hst]. exists evs0.
    split; [exact Htr0|]. right. done.
Qed.

End Net.

End AppProofs.

Module MergeProofs.
Import Mon.

Lemma check_after_maintenance_status P host now s :
  let '(r, _) := check_after_maintenance P host now s in
  (r_overall_status r = ONLINE /\ probe_success (r_checks r) = true) \/
  (r_overall_status r = OFFLINE /\ probe_success (r_checks r) = false).
Proof.
  unfold check_after_maintenance.
  destruct (resolve_hostname P (hostname host) s) as [[rip derr] s1].
  destruct (if Py.truthy rip then _ else _) as [pip dns].
  destruct (negb (Py.truthy pip)); [right; split; reflexivity|].
  pose proof (MonProofs.run_probes_any_success P host (default "" pip) dns s1) as H.
  destruct (run_probes P host (default "" pip) _ s1) as [[[any best] checks] s2].
  destruct H as [Hany _].
  destruct any; [left|right]; simpl; split; auto.
Qed.

(** C1 (counterexample): a host whose check types are ["dns"] and whose
    name resolves: the DNS check is recorded as a success, yet the host is
    [OFFLINE], since no ICMP/TCP/HTTP/HTTPS probe ran. *)
Lemma dns_only_host_offline_counterexample :
  let P := mkProber (fun _ => DnsOk "10.0.0.5") (fun _ _ => (false, None))
             (fun _ _ _ => (false, None)) (fun _ _ => (false, None, "HTTP 500"))
             (fun _ _ _ => (false, None)) in
  let h := mkHost "db1" None None 5 (Some "dns") None None None true false None in
  match check_host_comprehensive P h 0 (mkMonState ∅ [] []) with
  | (Some r, _) =>
      Py.str_mem "dns" (parse_check_types (check_types h)) = true /\
      option_map dns_success (ck_dns (r_checks r)) = Some true /\
      r_overall_status r = OFFLINE
  | (None, _) => False
  end.
Proof. vm_compute. repeat split. Qed.

(** C1 (amended): when [check_host_comprehensive] is not short-circuited by
    maintenance, the status is [ONLINE] exactly when one of the ICMP, TCP
    (one of the configured ports), HTTP or HTTPS probes it ran succeeded,
    and [OFFLINE] otherwise; the DNS resolution and the SSL check do not
    count.  In [app.py], [checar_um_host] writes ["Online"] exactly when
    one of the ping attempts or TCP connections it made succeeded, and
    ["Offline"] otherwise. *)
Theorem overall_status_iff_probe_success :
  (forall (P : Prober) (host : Host) (now : Z) (s : MonState),
     match check_host_comprehensive P host now s with
     | (Some r, _) =>
         (r_overall_status r = MAINTENANCE /\ in_maintenance host = true /\
          r_checks r = no_checks) \/
         (r_overall_status r = ONLINE /\ probe_success (r_checks r) = true) \/
         (r_overall_status r = OFFLINE /\ probe_success (r_checks r) = false)
     | (None, s') =>
         s' = s /\ in_maintenance host = true /\
         exists u, maintenance_until host = Some u /\ dt_aware u = false
     end) /\
  (forall (net : App.Net) (hn : string) (ip : option string) (now : Z) (s : App.AppState),
     let '(od, s') := App.checar_um_host net (App.mkMachine hn ip) now s in
     match od with
     | Some d =>
         exists evs, App.trace s' = (App.trace s ++ evs)%list /\
           ((App.se_status d = "Online" /\ existsb (App.event_ok net) evs = true) \/
            (App.se_status d = "Offline" /\ existsb (App.event_ok net) evs = false))
     | None => hn = ""
     end).
Proof.
  split.
  - intros P host now s. unfold check_host_comprehensive.
    destruct (in_maintenance host) eqn:Hin.
    + destruct (maintenance_until host) as [until|] eqn:Hu.
      * unfold dt_gt. cbn [dt_aware dt_ticks].
        destruct (dt_aware until) eqn:Ha; cbn [Bool.eqb].
        -- destruct (dt_ticks until <? now).
           ++ pose proof (check_after_maintenance_status P host now
                            (end_maintenance (hostname host) s)) as H.
              destruct (check_after_maintenance _ _ _ _) as [r s'].
              right. exact H.
           ++ left. done.
        -- split; [reflexivity|]. split; [reflexivity|]. exists until. split; [reflexivity|exact Ha].
      * left. done.
    + pose proof (check_after_maintenance_status P host now s) as H.
      destruct (check_after_maintenance _ _ _ _) as [r s'].
      right. exact H.
  - intros net hn ip now s.
    pose proof (AppProofs.checar_status_iff_success net hn ip now s) as H.
    destruct (App.checar_um_host net (App.mkMachine hn ip) now s) as [od s'] eqn:Hc.
    destruct od as [d|].
    + exact (H d s' eq_refl).
    + unfold App.checar_um_host in Hc. simpl in Hc.
      destruct (String.eqb_spec hn ""); [assumption|].
      exfalso. revert Hc.
      destruct (App.resolve_hostname net hn now s) as [[rip derr] s1].
      destruct (Py.truthy rip); [|destruct (Py.truthy ip)];
        [destruct (App.probe net hn _ s1) as [[on lat] s2]
        |destruct (App.probe net _ _ s1) as [[on lat] s2]|];
        repeat (case_match; simpl); discriminate.
Qed.

End MergeProofs.

Module CacheProofs.
Local Open Scope list_scope.

Lemma dns_lookup_entry net hn t s :
  let '(r, s1) := App.dns_lookup net hn t s in
  App.trace s1 = App.trace s ++ [App.EvLookup hn] /\
  exists e, App.dns_cache s1 !! hn = Some e /\ App.de_resolved_at e = t /\
    r = (if App.de_ok e then (App.de_ip e, None) else (None, App.de_error e)) /\
    r = match App.gethostbyname net hn t with
        | inl ip => (Some ip, None)
        | inr err => (None, Some ("DNS resolution failed: " ++ err)%string)
        end.
Proof.
  unfold App.dns_lookup.
  destruct (App.gethostbyname net hn t) as [ip|err]; simpl;
    (split; [reflexivity|]); eexists; rewrite lookup_insert_eq; done.
Qed.

(** [MonitoringService.resolve_hostname] logs one lookup and reads nothing
    of the state. *)
Lemma mon_resolve_each_call (P : Mon.Prober) (hn : string) (m : Mon.MonState) :
  snd (Mon.resolve_hostname P hn m) = Mon.log (Mon.EvLookup hn) m /\
  forall m2, fst (Mon.resolve_hostname P hn m2) = fst (Mon.resolve_hostname P hn m).
Proof.
  unfold Mon.resolve_hostname.
  destruct (Mon.gethostbyname P hn); (split; [reflexivity|intros m2; reflexivity]).
Qed.

(** C5 (amended): in [app.py], a resolution at [t1] that finds no entry
    younger than 300 s makes one lookup and caches its outcome, success or
    failure; any resolution of the same name at a time [t] with
    [t1 <= t < t1 + 300] then returns the same outcome (the same error
    for a failure) and changes nothing, in particular makes no lookup;
    from [t1 + 300] on, a resolution makes a new lookup.  The
    [resolve_hostname] of [services/monitoring.py] has no cache: every
    call, whatever the state, makes one lookup and changes nothing else,
    and its result does not depend on the state (so on earlier calls). *)
Theorem app_resolve_hostname_ttl_cache (net : App.Net) (hn : string) (t1 : Z)
    (s : App.AppState)
    (Hcold : forall e, App.dns_cache s !! hn = Some e ->
                       t1 - App.de_resolved_at e >= App.CACHE_TTL) :
  (let '(r1, s1) := App.resolve_hostname net hn t1 s in
  App.trace s1 = App.trace s ++ [App.EvLookup hn] /\
  r1 = match App.gethostbyname net hn t1 with
       | inl ip => (Some ip, None)
       | inr err => (None, Some ("DNS resolution failed: " ++ err)%string)
       end /\
  (forall t, t1 <= t < t1 + App.CACHE_TTL ->
     App.resolve_hostname net hn t s1 = (r1, s1)) /\
  (forall t, t1 + App.CACHE_TTL <= t ->
     App.trace (snd (App.resolve_hostname net hn t s1)) =
       App.trace s1 ++ [App.EvLookup hn])) /\
  (forall (P : Mon.Prober) (hn' : string) (m : Mon.MonState),
     snd (Mon.resolve_hostname P hn' m) = Mon.log (Mon.EvLookup hn') m /\
     forall m2, fst (Mon.resolve_hostname P hn' m2) = fst (Mon.resolve_hostname P hn' m)).
Proof.
  split; [|exact mon_resolve_each_call].
  assert (Hr : App.resolve_hostname net hn t1 s = App.dns_lookup net hn t1 s).
  { unfold App.resolve_hostname.
    destruct (App.dns_cache s !! hn) as [e|] eqn:He; [|reflexivity].
    specialize (Hcold e eq_refl).
    rewrite bool_decide_eq_false_2; [reflexivity|]. unfold App.CACHE_TTL in *. lia. }
  rewrite Hr.
  pose proof (dns_lookup_entry net hn t1 s) as H.
  destruct (App.dns_lookup net hn t1 s) as [r1 s1].
  destruct H as (Htr & e & He & Hat & Hr1 & Hg).
  split; [exact Htr|]. split; [exact Hg|]. split.
  - intros t Ht. unfold App.resolve_hostname. rewrite He.
    rewrite bool_decide_eq_true_2; [|unfold App.CACHE_TTL in *; lia].
    rewrite Hr1. reflexivity.
  - intros t Ht. unfold App.resolve_hostname. rewrite He.
    rewrite bool_decide_eq_false_2; [|unfold App.CACHE_TTL in *; lia].
    pose proof (dns_lookup_entry net hn t s1) as H2.
    destruct (App.dns_lookup net hn t s1) as [r2 s2].
    apply H2.
Qed.

(** C5 (counterexample): the [MonitoringService.resolve_hostname] of
    [services/monitoring.py] has no cache: two resolutions of the same name
    in a row make two lookups. *)
Lemma monitoring_resolve_no_cache_counterexample :
  let P := Mon.mkProber (fun _ => Mon.DnsOk "10.0.0.5") (fun _ _ => (false, None))
             (fun _ _ _ => (false, None)) (fun _ _ => (false, None, "HTTP 500"))
             (fun _ _ _ => (false, None)) in
  let '(r1, s1) := Mon.resolve_hostname P "db1" (Mon.mkMonState ∅ [] []) in
  let '(r2, s2) := Mon.resolve_hostname P "db1" s1 in
  r1 = r2 /\ Mon.trace s2 = [Mon.EvLookup "db1"; Mon.EvLookup "db1"].
Proof. vm_compute. split; reflexivity. Qed.

(** Witness for C5. *)
Lemma app_resolve_hostname_ttl_cache_witness :
  let net := App.mkNet (fun _ _ => inr "[Errno -2] Name or service not known")
               (fun _ _ => None) (fun _ _ => false) in
  let s := App.mkAppState ∅ ∅ [] 0 [] in
  (forall e, App.dns_cache s !! "db1" = Some e ->
             1000 - App.de_resolved_at e >= App.CACHE_TTL) /\
  (let '(r1, s1) := App.resolve_hostname net "db1" 1000 s in
  App.trace s1 = App.trace s ++ [App.EvLookup "db1"] /\
  r1 = match App.gethostbyname net "db1" 1000 with
       | inl ip => (Some ip, None)
       | inr err => (None, Some ("DNS resolution failed: " ++ err)%string)
       end /\
  (forall t, 1000 <= t < 1000 + App.CACHE_TTL ->
     App.resolve_hostname net "db1" t s1 = (r1, s1)) /\
  (forall t, 1000 + App.CACHE_TTL <= t ->
     App.trace (snd (App.resolve_hostname net "db1" t s1)) =
       App.trace s1 ++ [App.EvLookup "db1"])) /\
  (forall (P : Mon.Prober) (hn' : string) (m : Mon.MonState),
     snd (Mon.resolve_hostname P hn' m) = Mon.log (Mon.EvLookup hn') m /\
     forall m2, fst (Mon.resolve_hostname P hn' m2) = fst (Mon.resolve_hostname P hn' m)).
Proof.
  intros net s. split.
  - intros e He. discriminate He.
  - apply (app_resolve_hostname_ttl_cache net "db1" 1000 s).
    intros e He. discriminate He.
Defined.

End CacheProofs.

Module FallbackProofs.
Import App.
Local Open Scope list_scope.

(** In [services/monitoring.py], a name that does not resolve leaves the
    fallback address as the primary address, marked as used in the DNS
    check; without a fallback the result is [OFFLINE], "No IP address
    available", after the lookup and nothing else. *)
Lemma monitoring_dns_failure (P : Mon.Prober) (host : Mon.Host) (now : Z)
    (m : Mon.MonState)
    (Hm : Mon.in_maintenance host = false)
    (Hf : Py.truthy (fst (fst (Mon.resolve_hostname P (Mon.hostname host) m))) = false) :
  match Mon.check_host_comprehensive P host now m with
  | (Some res, m') =>
      if Py.truthy (Mon.fallback_ip host) then
        Mon.r_primary_ip res = Mon.fallback_ip host /\
        option_map Mon.dns_fallback_used (Mon.ck_dns (Mon.r_checks res)) = Some true
      else
        Mon.r_overall_status res = Mon.OFFLINE /\
        Mon.r_error_message res = Some "No IP address available" /\
        Mon.trace m' = Mon.trace m ++ [Mon.EvLookup (Mon.hostname host)]
  | (None, _) => False
  end.
Proof.
  unfold Mon.check_host_comprehensive. rewrite Hm. unfold Mon.check_after_maintenance.
  destruct (Mon.resolve_hostname P (Mon.hostname host) m) as [[rip derr] m1] eqn:Hr.
  simpl in Hf. rewrite Hf.
  destruct (Py.truthy (Mon.fallback_ip host)) eqn:Hfb; simpl; rewrite ?Hfb; simpl.
  - pose proof (MonProofs.run_probes_any_success P host (default "" (Mon.fallback_ip host))
                  (Mon.mkDnsCheck false None derr true) m1) as Hp.
    destruct (Mon.run_probes P host _ _ m1) as [[[any best] checks] m2].
    destruct Hp as [_ Hd].
    destruct any; simpl; rewrite Hd; split; reflexivity.
  - split; [reflexivity|]. split; [reflexivity|].
    unfold Mon.resolve_hostname in Hr.
    destruct (Mon.gethostbyname P (Mon.hostname host)); injection Hr as _ _ <-; reflexivity.
Qed.

(** C6: in [app.py], when the name does not resolve (cache or lookup), a
    configured fallback address becomes the target of every ping and TCP
    connection, and the entry carries that address, the reason
    ["DNS_FAIL_FALLBACK"] and the method ["IP_FALLBACK"]; without a
    fallback the entry is ["Offline"] with reason ["DNS_FAIL_NO_BACKUP"] and
    no probe at all is made.  [services/monitoring.py] follows the same
    course (its results have no reason field): the fallback becomes the
    primary address, and without one the result is [OFFLINE] with no probe
    made after the lookup. *)
Theorem checar_dns_failure (net : Net) (hn : string) (ip : option string)
    (now : Z) (s : AppState)
    (Hhn : hn <> "")
    (Hfail : Py.truthy (fst (fst (resolve_hostname net hn now s))) = false) :
  (let '(od, s') := checar_um_host net (mkMachine hn ip) now s in
   exists d evs, od = Some d /\
    trace s' = trace (snd (resolve_hostname net hn now s)) ++ evs /\
    if Py.truthy ip then
      se_reason d = Some "DNS_FAIL_FALLBACK" /\ se_ip d = ip /\
      se_method d = Some "IP_FALLBACK" /\
      Forall (fun e => (exists a, e = EvIcmp (default "" ip) a) \/
                       (exists p, e = EvTcp (default "" ip) p)) evs
    else
      se_status d = "Offline" /\ se_reason d = Some "DNS_FAIL_NO_BACKUP" /\
      se_ip d = None /\ evs = []) /\
  (forall (P : Mon.Prober) (host : Mon.Host) (m : Mon.MonState),
     Mon.in_maintenance host = false ->
     Py.truthy (fst (fst (Mon.resolve_hostname P (Mon.hostname host) m))) = false ->
     match Mon.check_host_comprehensive P host now m with
     | (Some res, m') =>
     if Py.truthy (Mon.fallback_ip host) then
       Mon.r_primary_ip res = Mon.fallback_ip host /\
       option_map Mon.dns_fallback_used (Mon.ck_dns (Mon.r_checks res)) = Some true
     else
       Mon.r_overall_status res = Mon.OFFLINE /\
       Mon.r_error_message res = Some "No IP address available" /\
       Mon.trace m' = Mon.trace m ++ [Mon.EvLookup (Mon.hostname host)]
     | (None, _) => False
     end).
Proof.
  split; [|intros P host m Hm Hf; exact (monitoring_dns_failure P host now m Hm Hf)].
  unfold checar_um_host. simpl.
  apply String.eqb_neq in Hhn. rewrite Hhn.
  destruct (resolve_hostname net hn now s) as [[rip derr] s1]. simpl in Hfail |- *.
  rewrite Hfail.
  destruct (Py.truthy ip) eqn:Hip.
  - pose proof (AppProofs.probe_spec net (default "" ip) (default "" ip) s1) as Hp.
    destruct (probe net (default "" ip) (default "" ip) s1) as [[on lat] s2].
    destruct Hp as (evs & Htr & _ & Hall & _).
    destruct (status_cache s2 !! hn) as [e|];
      [destruct (_ && _ && _)%bool|];
      destruct (_ && _)%bool; simpl; eexists _, evs;
      (split; [reflexivity|]); (split; [exact Htr|]); done.
  - destruct (status_cache s1 !! hn) as [e|];
      [destruct (_ && _ && _)%bool|];
      destruct (_ && _)%bool; simpl; eexists _, [];
      (split; [reflexivity|]); (split; [rewrite app_nil_r; reflexivity|]); done.
Qed.

(** Witness for C6: [db1] does not resolve, fallback [192.0.2.9]. *)
Lemma checar_dns_failure_witness :
  let net := mkNet (fun _ _ => inr "[Errno -2] Name or service not known")
               (fun _ _ => None) (fun _ p => bool_decide (p = 445)) in
  let s := mkAppState ∅ ∅ [] 0 [] in
  "db1" <> "" /\
  Py.truthy (fst (fst (resolve_hostname net "db1" 1000 s))) = false /\
  (let '(od, s') := checar_um_host net (mkMachine "db1" (Some "192.0.2.9")) 1000 s in
   exists d evs, od = Some d /\
    trace s' = trace (snd (resolve_hostname net "db1" 1000 s)) ++ evs /\
    if Py.truthy (Some "192.0.2.9") then
      se_reason d = Some "DNS_FAIL_FALLBACK" /\ se_ip d = Some "192.0.2.9" /\
      se_method d = Some "IP_FALLBACK" /\
      Forall (fun e => (exists a, e = EvIcmp (default "" (Some "192.0.2.9")) a) \/
                       (exists p, e = EvTcp (default "" (Some "192.0.2.9")) p)) evs
    else
      se_status d = "Offline" /\ se_reason d = Some "DNS_FAIL_NO_BACKUP" /\
      se_ip d = None /\ evs = []) /\
  (forall (P : Mon.Prober) (host : Mon.Host) (m : Mon.MonState),
     Mon.in_maintenance host = false ->
     Py.truthy (fst (fst (Mon.resolve_hostname P (Mon.hostname host) m))) = false ->
     match Mon.check_host_comprehensive P host 1000 m with
     | (Some res, m') =>
     if Py.truthy (Mon.fallback_ip host) then
       Mon.r_primary_ip res = Mon.fallback_ip host /\
       option_map Mon.dns_fallback_used (Mon.ck_dns (Mon.r_checks res)) = Some true
     else
       Mon.r_overall_status res = Mon.OFFLINE /\
       Mon.r_error_message res = Some "No IP address available" /\
       Mon.trace m' = Mon.trace m ++ [Mon.EvLookup (Mon.hostname host)]
     | (None, _) => False
     end).
Proof.
  intros net s. split; [discriminate|]. split; [vm_compute; reflexivity|].
  apply (checar_dns_failure net "db1" (Some "192.0.2.9") 1000 s).
  - discriminate.
  - vm_compute. reflexivity.
Defined.

End FallbackProofs.

Module PortOrderProofs.
Local Open Scope list_scope.

(** C9 (counterexample): in [services/monitoring.py] a host with check
    types ["tcp"] and ports ["22,80"], both open: port 80 is still tried
    after port 22 answered. *)
Lemma monitoring_tcp_no_stop_counterexample :
  let P := Mon.mkProber (fun _ => Mon.DnsOk "10.0.0.5") (fun _ _ => (false, None))
             (fun _ _ _ => (true, Some 1)) (fun _ _ => (false, None, "HTTP 500"))
             (fun _ _ _ => (false, None)) in
  let h := Mon.mkHost "db1" None None 5 (Some "tcp") (Some "22,80") None None
             true false None in
  match Mon.check_host_comprehensive P h 0 (Mon.mkMonState ∅ [] []) with
  | (Some _, s') =>
      Mon.ping_tcp P "10.0.0.5" 22 5 = (true, Some 1) /\
      Mon.trace s' = [Mon.EvLookup "db1"; Mon.EvTcp "10.0.0.5" 22; Mon.EvTcp "10.0.0.5" 80]
  | (None, _) => False
  end.
Proof. vm_compute. split; reflexivity. Qed.

(** C9 (amended): in [app.py] the TCP loop tries the ports in the order of
    the list and stops at the first one that accepts a connection: when
    the ports before [p] refuse and [p] accepts, exactly the connections to
    the ports up to [p] are made, in order, and the probe succeeds.  In
    [services/monitoring.py] the loop over a host's configured ports never
    stops: every port is tried, in order, whatever the outcomes. *)
Theorem tcp_probe_port_order (net : App.Net) (ip : string) (pre post : list Z)
    (p : Z) (s : App.AppState)
    (Hip : ip <> "")
    (Hpre : Forall (fun q => App.tcp_connect net ip q = false) pre)
    (Hp : App.tcp_connect net ip p = true) :
  (let '(ok, s') := App.tcp_scan net ip (pre ++ p :: post) s in
   ok = true /\
   App.trace s' = App.trace s ++ map (App.EvTcp ip) (pre ++ [p]) /\
   App.same_but_trace s s') /\
  (forall (P : Mon.Prober) (target : string) (tmo : Z) (any : bool)
          (best : option Z) (m : Mon.MonState),
     let '(_, _, res, m') := Mon.tcp_loop P target tmo (pre ++ p :: post) any best [] m in
     Mon.trace m' = Mon.trace m ++ map (Mon.EvTcp target) (pre ++ p :: post) /\
     map Mon.tc_port res = pre ++ p :: post).
Proof.
  split.
  - apply String.eqb_neq in Hip.
    revert s. induction pre as [|q pre IH]; intros s; simpl.
    + unfold App.tcp_ping. rewrite Hip, Hp. simpl.
      split; [reflexivity|]. split; [reflexivity|]. unfold App.same_but_trace; done.
    + inversion Hpre as [|? ? Hq Hpre']; subst.
      unfold App.tcp_ping at 1. rewrite Hip, Hq.
      specialize (IH Hpre' (App.log (App.EvTcp ip q) s)).
      destruct (App.tcp_scan net ip (pre ++ p :: post) _) as [ok s'].
      destruct IH as (Hok & Htr & Hsb). split; [exact Hok|]. split.
      * rewrite Htr. simpl. rewrite <- app_assoc. reflexivity.
      * unfold App.same_but_trace in *. simpl in Hsb. exact Hsb.
  - intros P target tmo any best m.
    pose proof (MonProofs.tcp_loop_spec P target tmo (pre ++ p :: post) any best [] m) as H.
    destruct (Mon.tcp_loop P target tmo (pre ++ p :: post) any best [] m)
      as [[[any' best'] res] m'].
    destruct H as (fresh & Hacc & _ & Hports & Htr & _). simpl in Hacc. subst res.
    split; assumption.
Qed.

(** Witness for C9: ports [3389; 445; 80], 3389 refused, 445 open. *)
Lemma tcp_probe_port_order_witness :
  let net := App.mkNet (fun _ _ => inl "10.0.0.5") (fun _ _ => None)
               (fun _ p => bool_decide (p = 445)) in
  let s := App.mkAppState ∅ ∅ [] 0 [] in
  "10.0.0.5" <> "" /\
  Forall (fun q => App.tcp_connect net "10.0.0.5" q = false) [3389] /\
  App.tcp_connect net "10.0.0.5" 445 = true /\
  ((let '(ok, s') := App.tcp_scan net "10.0.0.5" ([3389] ++ 445 :: [80]) s in
    ok = true /\
    App.trace s' = App.trace s ++ map (App.EvTcp "10.0.0.5") ([3389] ++ [445]) /\
    App.same_but_trace s s') /\
   (forall (P : Mon.Prober) (target : string) (tmo : Z) (any : bool)
           (best : option Z) (m : Mon.MonState),
      let '(_, _, res, m') := Mon.tcp_loop P target tmo ([3389] ++ 445 :: [80]) any best [] m in
      Mon.trace m' = Mon.trace m ++ map (Mon.EvTcp target) ([3389] ++ 445 :: [80]) /\
      map Mon.tc_port res = [3389] ++ 445 :: [80])).
Proof.
  intros net s.
  split; [discriminate|].
  split; [repeat constructor|].
  split; [vm_compute; reflexivity|].
  apply (tcp_probe_port_order net "10.0.0.5" [3389] [80] 445 s).
  - discriminate.
  - repeat constructor.
  - vm_compute. reflexivity.
Defined.

End PortOrderProofs.

Module HistoryProofs.
Import App.
Local Open Scope list_scope.

(** A resolution touches neither the status cache nor the history. *)
Lemma resolve_keeps_status_history net hn now s :
  let '(r, s1) := resolve_hostname net hn now s in
  status_cache s1 = status_cache s /\ history s1 = history s.
Proof.
  pose proof (AppProofs.resolve_hostname_spec net hn now s) as H.
  destruct (resolve_hostname net hn now s) as [r s1].
  destruct H as [->|(_ & ? & ?)]; auto.
Qed.

(** C2 (counterexample): [save_check_result] of [services/monitoring.py]
    applied to two results with the same status [ONLINE] and the same
    address adds two history rows, although nothing changed. *)
Lemma save_check_result_no_transition_counterexample :
  let r := Mon.mkResult "db1" 0 Mon.ONLINE Mon.no_checks (Some "10.0.0.5") (Some 3) None in
  let m := Mon.save_check_result r (Mon.save_check_result r (Mon.mkMonState ∅ [] [])) in
  length (Mon.host_history m) = 2%nat.
Proof. vm_compute. reflexivity. Qed.

(** C2 (amended): in [app.py], a check of a host adds to the history
    - one row [IP_CHANGED] when a previous entry of the host carries an
      address and the new address is non-empty and different from it,
      whether or not the status changed, and
    - then one status row when the previous entry has a (non-empty) status
      different from the new one,
    and no other row: no row at all for a repeated identical status with an
    unchanged address, nor for the first check of a host without a previous
    entry.  [save_check_result] of [services/monitoring.py] does not follow
    this rule: it adds one row on every call, whatever the previous status,
    and no [IP_CHANGED] row. *)
Theorem history_rows_per_check :
  (forall (net : Net) (hn : string) (ip : option string) (now : Z) (s : AppState),
    let '(od, s') := checar_um_host net (mkMachine hn ip) now s in
    match od with
    | None => hn = "" /\ s' = s
    | Some d =>
        history s' = history s ++
          match status_cache s !! hn with
          | Some e =>
              (if (Py.truthy (se_ip e) && Py.truthy (se_ip d)
                   && negb (Py.opt_eqb (se_ip e) (se_ip d)))%bool
               then [ip_changed_row hn (default "" (se_ip e)) (default "" (se_ip d))
                       (se_method d) now]
               else []) ++
              (if (Py.truthy (Some (se_status e))
                   && negb (Py.opt_eqb (Some (se_status e)) (Some (se_status d))))%bool
               then [mkHostHistory hn
                       (match se_ip d with
                        | Some a => if String.eqb a "" then "unknown" else a
                        | None => "unknown" end)
                       (se_status d) (se_latency_ms d) now]
               else [])
          | None => []
          end
    end) /\
  (forall (r : Mon.Result) (m : Mon.MonState),
    Mon.host_history (Mon.save_check_result r m) =
    Mon.host_history m ++
      [Mon.mkHistoryRow (Mon.r_hostname r) (Mon.r_overall_status r)
         (Mon.r_primary_ip r) (Mon.r_response_time r) (Mon.r_timestamp r)
         (Mon.r_error_message r)]).
Proof.
  split; [|intros r m; reflexivity].
  intros net hn ip now s.
  unfold checar_um_host. simpl.
  destruct (String.eqb_spec hn "") as [Hhn|Hhn]; [split; auto|].
  pose proof (resolve_keeps_status_history net hn now s) as Hr.
  destruct (resolve_hostname net hn now s) as [[rip derr] s1].
  destruct Hr as (Hsc1 & Hh1).
  destruct (Py.truthy rip) eqn:Hrip; [|destruct (Py.truthy ip) eqn:Hip].
  - pose proof (AppProofs.probe_spec net hn (default "" rip) s1) as Hp.
    destruct (probe net hn (default "" rip) s1) as [[on lat] s2].
    destruct Hp as (evs & _ & _ & _ & _ & Hsc2 & Hh2 & _).
    rewrite Hsc2, Hsc1.
    destruct (status_cache s !! hn) as [e|]; simpl; try rewrite Hrip; try rewrite Hip; simpl;
      repeat (match goal with
              | |- context [if ?c then _ else _] =>
                  let E := fresh "E" in destruct c eqn:E; simpl; try rewrite Hrip; try rewrite Hip; try rewrite E
              end);
      simpl; rewrite ?Hh2, ?Hh1, ?app_nil_r, <- ?app_assoc; reflexivity.
  - pose proof (AppProofs.probe_spec net (default "" ip) (default "" ip) s1) as Hp.
    destruct (probe net (default "" ip) (default "" ip) s1) as [[on lat] s2].
    destruct Hp as (evs & _ & _ & _ & _ & Hsc2 & Hh2 & _).
    rewrite Hsc2, Hsc1.
    destruct (status_cache s !! hn) as [e|]; simpl; try rewrite Hrip; try rewrite Hip; simpl;
      repeat (match goal with
              | |- context [if ?c then _ else _] =>
                  let E := fresh "E" in destruct c eqn:E; simpl; try rewrite Hrip; try rewrite Hip; try rewrite E
              end);
      simpl; rewrite ?Hh2, ?Hh1, ?app_nil_r, <- ?app_assoc; reflexivity.
  - rewrite Hsc1.
    destruct (status_cache s !! hn) as [e|]; simpl; try rewrite Hrip; try rewrite Hip; simpl;
      repeat (match goal with
              | |- context [if ?c then _ else _] =>
                  let E := fresh "E" in destruct c eqn:E; simpl; try rewrite Hrip; try rewrite Hip; try rewrite E
              end);
      simpl; rewrite ?Hh2, ?Hh1, ?app_nil_r, <- ?app_assoc; reflexivity.
Qed.

End HistoryProofs.

Module AlertProofs.
Import Mon Alerts.
Local Open Scope list_scope.

(** C8 (counterexample): a rule without any targeting does not match a
    hostname that has no row in the [hosts] table. *)
Lemma untargeted_rule_unknown_host_counterexample :
  let env := mkEnv ∅ ∅ [] in
  let r := mkAlertRule 1 "Host down" "status" "equals" "Offline" None None None
             HIGH None true in
  matches_target (fun _ => None) env r "ghost" = false.
Proof. reflexivity. Qed.

(** C8 (amended): a rule whose [target_hosts], [target_tags] and
    [target_groups] are all empty matches exactly the hostnames that have a
    row in the [hosts] table. *)
Theorem untargeted_rule_matches_known_hosts
    (json_loads : string -> option Json) (env : Env) (r : AlertRule) (hn : string)
    (Hh : Py.truthy (ar_target_hosts r) = false)
    (Ht : Py.truthy (ar_target_tags r) = false)
    (Hg : Py.truthy (ar_target_groups r) = false) :
  matches_target json_loads env r hn = bool_decide (is_Some (env_hosts env !! hn)).
Proof.
  unfold matches_target. rewrite Hh, Ht, Hg.
  destruct (env_hosts env !! hn); reflexivity.
Qed.

(** Witness for C8. *)
Lemma untargeted_rule_matches_known_hosts_witness :
  let env := mkEnv {[ "db1" := mkHost "db1" None None 5 None None None None
                                 true false None ]} ∅ [] in
  let r := mkAlertRule 1 "Host down" "status" "equals" "Offline" None None None
             HIGH None true in
  Py.truthy (ar_target_hosts r) = false /\ Py.truthy (ar_target_tags r) = false /\
  Py.truthy (ar_target_groups r) = false /\
  matches_target (fun _ => None) env r "db1" = bool_decide (is_Some (env_hosts env !! "db1")).
Proof.
  intros env r. split; [reflexivity|]. split; [reflexivity|]. split; [reflexivity|].
  apply untargeted_rule_matches_known_hosts; reflexivity.
Defined.

(** C3: two consecutive evaluations of the rule [status equals Offline]
    for the same host, both with status [OFFLINE], starting from an empty
    [alert_instances] table.  The first creates and commits the instance
    and sends the triggered notification; the second finds it and
    increments [notification_count] in the session only, without a
    commit, so the table still holds one active instance whose count is 1,
    not 2.  Exactly one triggered notification was sent, and neither call
    raised. *)
Theorem retrigger_count_not_persisted :
  let jl := fun s => if String.eqb s "[1]" then Some (JList [JNum 1]) else None in
  let pf := fun (_ : string) => @None Q in
  let env := mkEnv {[ "db1" := mkHost "db1" None None 5 None None None None
                                 true false None ]}
               {[ 1 := true ]}
               [mkAlertRule 1 "Host down" "status" "equals" "Offline" None None None
                  HIGH (Some "[1]") true] in
  let sn := fun (_ : string) => @None Q in
  let '(t1, n1, e1) := evaluate_alert_rules jl pf env sn "db1" OFFLINE None 100 [] in
  let '(t2, n2, e2) := evaluate_alert_rules jl pf env sn "db1" OFFLINE None 160 t1 in
  t2 = [mkAlertInstance 1 1 "db1" ACTIVE HIGH "Host down - db1" 100 None
          (TVStatus "Offline") 1] /\
  n1 ++ n2 = [NTriggered 1 1 1] /\ e1 = false /\ e2 = false.
Proof. vm_compute. repeat split. Qed.

(** ** Resolution (C7) *)

Lemma map_lookup {A B} (f : A -> B) (l : list A) (i : nat) :
  map f l !! i = f <$> l !! i.
Proof. revert i. induction l as [|x l IH]; intros [|i]; simpl; auto. Qed.

Lemma filter_app_bool {A} (p : A -> bool) (l1 l2 : list A) :
  List.filter p (l1 ++ l2) = List.filter p l1 ++ List.filter p l2.
Proof. induction l1 as [|x l1 IH]; simpl; [done|]. destruct (p x); simpl; by rewrite IH. Qed.

Lemma filter_all_bool {A} (p : A -> bool) (l : list A) :
  (forall x, In x l -> p x = true) -> List.filter p l = l.
Proof.
  induction l as [|x l IH]; intros H; simpl; [done|].
  rewrite (H x (or_introl eq_refl)), IH; [done|]. intros y Hy. apply H. right. exact Hy.
Qed.

Lemma filter_none_bool {A} (p : A -> bool) (l : list A) :
  (forall x, In x l -> p x = false) -> List.filter p l = [].
Proof.
  induction l as [|x l IH]; intros H; simpl; [done|].
  rewrite (H x (or_introl eq_refl)), IH; [done|]. intros y Hy. apply H. right. exact Hy.
Qed.

Lemma update_first_ids p f l (Hf : forall x, ai_id (f x) = ai_id x) :
  map ai_id (update_first p f l) = map ai_id l.
Proof.
  induction l as [|x l IH]; simpl; [done|].
  destruct (p x); simpl; by rewrite ?Hf, ?IH.
Qed.

Lemma update_first_keep p f l i b :
  l !! i = Some b -> p b = false -> update_first p f l !! i = Some b.
Proof.
  revert i. induction l as [|x l IH]; intros i Hi Hp; [done|].
  destruct i as [|i]; simpl in *.
  - injection Hi as ->. rewrite Hp. done.
  - destruct (p x); simpl; [exact Hi|]. by apply IH.
Qed.

Lemma next_id_fresh l : Forall (fun x => ai_id x < next_id l) l.
Proof.
  unfold next_id. induction l as [|x l IH]; simpl; constructor; [lia|].
  eapply Forall_impl; [exact IH|]. intros y Hy. simpl in Hy. lia.
Qed.

Lemma lookup_In {A} (l : list A) i x : l !! i = Some x -> In x l.
Proof. intros H. apply list_elem_of_In. by eapply list_elem_of_lookup_2. Qed.

(** Two instances of the table with the same id are the same one. *)
Lemma same_id_same l i b x :
  NoDup (map ai_id l) -> l !! i = Some b -> In x l -> ai_id x = ai_id b -> x = b.
Proof.
  intros Hnd Hi Hx Hid.
  apply list_elem_of_In, list_elem_of_lookup_1 in Hx as [j Hj].
  assert (j = i) as ->.
  { eapply NoDup_lookup; [exact Hnd| |]; rewrite map_lookup;
      [rewrite Hj|rewrite Hi]; simpl; [rewrite Hid|]; reflexivity. }
  congruence.
Qed.

(** The notifications of a pass over the table that concern one instance
    are those of that instance. *)
Lemma flat_filter (h : AlertInstance -> AlertInstance * list Notification) l i b :
  NoDup (map ai_id l) -> l !! i = Some b ->
  (forall x n, In n (snd (h x)) -> notif_alert n = ai_id x) ->
  List.filter (fun n => notif_alert n =? ai_id b) (flat_map snd (map h l)) =
  List.filter (fun n => notif_alert n =? ai_id b) (snd (h b)).
Proof.
  revert i. induction l as [|x l IH]; intros i Hnd Hi Hh; [done|].
  simpl. rewrite filter_app_bool. simpl in Hnd. apply NoDup_cons in Hnd as [Hx Hnd].
  destruct i as [|i]; simpl in Hi.
  - injection Hi as ->. rewrite (filter_none_bool _ (flat_map snd (map h l))); [by rewrite app_nil_r|].
    intros n Hn. apply in_flat_map in Hn as [y [Hy Hn]].
    apply in_map_iff in Hy as [z [<- Hz]]. rewrite (Hh _ _ Hn).
    apply Z.eqb_neq. intros E. apply Hx. apply list_elem_of_In.
    rewrite <- E. apply in_map. exact Hz.
  - rewrite (filter_none_bool _ (snd (h x))); [simpl; by eapply IH|].
    intros n Hn. rewrite (Hh _ _ Hn). apply Z.eqb_neq. intros E. apply Hx.
    apply list_elem_of_In. rewrite E. apply in_map. by eapply lookup_In.
Qed.

Lemma Forall2_diag_or {A} (P : A -> A -> Prop) (l : list A) :
  Forall2 (fun x y => y = x \/ P x y) l l.
Proof. induction l as [|x l IH]; constructor; [left; reflexivity|exact IH]. Qed.

Section Resolution.
Variable jl : string -> option Json.
Variable pf : string -> option Q.
Variable env : Env.
Variable sn : string -> option Q.

(** The senders' messages and exception do not depend on the instance
    beyond its id. *)
Lemma send_resolution_split r x :
  send_resolution_notification jl env sn r x =
    (map (NResolved (ar_id r) (ai_id x)) (fst (channel_targets jl env sn r false)),
     snd (channel_targets jl env sn r false)).
Proof. unfold send_resolution_notification. by destruct (channel_targets jl env sn r false). Qed.

Lemma send_alert_split r x :
  send_alert_notifications jl env sn r x =
    (map (NTriggered (ar_id r) (ai_id x)) (fst (channel_targets jl env sn r true)),
     snd (channel_targets jl env sn r true)).
Proof. unfold send_alert_notifications. by destruct (channel_targets jl env sn r true). Qed.

(** The re-test of [_check_alert_resolution] is made without latency; it
    can only hold where the test with the latency holds. *)
Lemma should_trigger_none r hn status lat :
  should_trigger_alert jl pf env r hn status None = true ->
  should_trigger_alert jl pf env r hn status lat = true.
Proof.
  unfold should_trigger_alert, condition_holds.
  destruct (matches_target jl env r hn); simpl; [|done].
  destruct (String.eqb (ar_condition_type r) "status"); [done|].
  destruct (String.eqb (ar_condition_type r) "latency"); done.
Qed.

(** The loop of [_check_alert_resolution] leaves each instance as it is
    or, if it is active for the rule, resolves it; every message it sends
    is about an instance active for the rule. *)
Lemma resolution_loop_spec r hn status now l :
  let '(w, ns, raised) := resolution_loop jl pf env sn r hn status now l in
  Forall2 (fun x y => y = x \/ (is_active_for r hn x = true /\ y = resolve_alert now x)) l w /\
  (forall n, In n ns ->
     exists x, In x l /\ is_active_for r hn x = true /\ notif_alert n = ai_id x).
Proof.
  induction l as [|x l IH]; cbn [resolution_loop]; [split; [constructor|intros _ []]|].
  rewrite send_resolution_split.
  destruct (resolution_loop jl pf env sn r hn status now l) as [[w ns] raised].
  destruct IH as [Hw Hn].
  destruct (is_active_for r hn x && negb (should_trigger_alert jl pf env r hn status None))%bool
    eqn:Hc.
  - apply andb_prop in Hc as [Hx _].
    destruct (snd (channel_targets jl env sn r false)).
    + split.
      * constructor; [right; split; [exact Hx|reflexivity]|apply Forall2_diag_or].
      * intros n Hn'. apply in_map_iff in Hn' as [c [<- _]].
        exists x. split; [left; reflexivity|]. split; [exact Hx|reflexivity].
    + split.
      * constructor; [right; split; [exact Hx|reflexivity]|exact Hw].
      * intros n Hn'. apply in_app_or in Hn' as [Hn'|Hn'].
        -- apply in_map_iff in Hn' as [c [<- _]].
           exists x. split; [left; reflexivity|]. split; [exact Hx|reflexivity].
        -- destruct (Hn n Hn') as (y & Hy & Hya & Hid).
           exists y. split; [right; exact Hy|]. split; assumption.
  - split; [constructor; [left; reflexivity|exact Hw]|].
    intros n Hn'. destruct (Hn n Hn') as (y & Hy & Hya & Hid).
    exists y. split; [right; exact Hy|]. split; assumption.
Qed.

(** When the loop completes, it is a map over the instances. *)
Lemma resolution_loop_done r hn status now l :
  let h := fun x => if is_active_for r hn x && negb (should_trigger_alert jl pf env r hn status None)
                    then (resolve_alert now x,
                          fst (send_resolution_notification jl env sn r (resolve_alert now x)))
                    else (x, []) in
  let '(w, ns, raised) := resolution_loop jl pf env sn r hn status now l in
  raised = false -> w = map fst (map h l) /\ ns = flat_map snd (map h l).
Proof.
  intros h. induction l as [|x l IH]; cbn [resolution_loop]; [intros _; split; reflexivity|].
  rewrite send_resolution_split.
  destruct (resolution_loop jl pf env sn r hn status now l) as [[w ns] raised].
  cbn [map flat_map fst snd]. unfold h at 1 3.
  destruct (is_active_for r hn x && negb (should_trigger_alert jl pf env r hn status None))%bool.
  - rewrite send_resolution_split.
    destruct (snd (channel_targets jl env sn r false)); [discriminate|].
    intros Hr. destruct (IH Hr) as [-> ->]. split; reflexivity.
  - intros Hr. destruct (IH Hr) as [-> ->]. split; reflexivity.
Qed.

(** The loop raises as soon as it reaches an instance to resolve while
    the resolution sender raises. *)
Lemma resolution_loop_raises r hn status now l x :
  In x l -> is_active_for r hn x = true ->
  should_trigger_alert jl pf env r hn status None = false ->
  snd (channel_targets jl env sn r false) = true ->
  snd (resolution_loop jl pf env sn r hn status now l) = true.
Proof.
  intros Hx Hact Hn Hraise. induction l as [|y l IH]; [destruct Hx|].
  cbn [resolution_loop]. rewrite send_resolution_split, Hraise, Hn. cbn [negb].
  destruct (is_active_for r hn y) eqn:Hy; cbn [andb]; [reflexivity|].
  destruct Hx as [<-|Hx]; [congruence|].
  specialize (IH Hx).
  destruct (resolution_loop jl pf env sn r hn status now l) as [[w ns] raised].
  exact IH.
Qed.

Lemma forall2_ids r hn now l w :
  Forall2 (fun x y => y = x \/ (is_active_for r hn x = true /\ y = resolve_alert now x)) l w ->
  map ai_id w = map ai_id l.
Proof.
  induction 1 as [|x y l w Hxy _ IH]; [reflexivity|]. cbn [map]. rewrite IH.
  destruct Hxy as [->|[_ ->]]; reflexivity.
Qed.

Lemma forall2_keep r hn now l w i b :
  Forall2 (fun x y => y = x \/ (is_active_for r hn x = true /\ y = resolve_alert now x)) l w ->
  l !! i = Some b -> is_active_for r hn b = false -> w !! i = Some b.
Proof.
  intros HF Hi Hb. destruct (Forall2_lookup_l _ _ _ _ _ HF Hi) as (y & Hy & [->|[Ha _]]);
    [exact Hy|congruence].
Qed.

(** One rule's step leaves an instance that is not active for it where
    it is, and sends nothing about it. *)
Lemma step_other r hn status lat now ss i b :
  working ss !! i = Some b -> is_active_for r hn b = false ->
  NoDup (map ai_id (working ss)) ->
  let '(ss', ns, raised) := rule_step jl pf env sn r hn status lat now ss in
  working ss' !! i = Some b /\
  (committed ss' = committed ss \/ committed ss' = working ss') /\
  NoDup (map ai_id (working ss')) /\
  List.filter (fun n => notif_alert n =? ai_id b) ns = [].
Proof.
  intros Hi Hb Hnd. unfold rule_step.
  destruct (should_trigger_alert jl pf env r hn status lat).
  - unfold create_alert_instance.
    destruct (find (is_active_for r hn) (working ss)) eqn:Hf; cbn [working committed].
    + split; [by apply update_first_keep|]. split; [by left|].
      split; [by rewrite update_first_ids|done].
    + rewrite send_alert_split. cbn [working committed commit].
      pose proof (next_id_fresh (working ss)) as Hfresh.
      assert (Hbin : In b (working ss)) by (by eapply lookup_In).
      split; [by apply lookup_app_l_Some|]. split; [by right|]. split.
      * rewrite map_app. apply NoDup_app. split; [exact Hnd|]. split; [|apply NoDup_singleton].
        intros k Hk. apply list_elem_of_In, in_map_iff in Hk as [y [<- Hy]].
        rewrite List.Forall_forall in Hfresh. specialize (Hfresh y Hy). simpl.
        rewrite list_elem_of_singleton. lia.
      * apply filter_none_bool. intros n Hn. apply in_map_iff in Hn as [c [<- _]].
        simpl. apply Z.eqb_neq. rewrite List.Forall_forall in Hfresh.
        specialize (Hfresh b Hbin). lia.
  - unfold check_alert_resolution.
    pose proof (resolution_loop_spec r hn status now (working ss)) as Hs.
    destruct (resolution_loop jl pf env sn r hn status now (working ss)) as [[w ns] raised].
    destruct Hs as [HF Hn].
    assert (Hw : w !! i = Some b) by (eapply forall2_keep; eassumption).
    assert (Hnd' : NoDup (map ai_id w)) by (rewrite (forall2_ids _ _ _ _ _ HF); exact Hnd).
    assert (Hf : List.filter (fun n => notif_alert n =? ai_id b) ns = []).
    { apply filter_none_bool. intros n Hn'. destruct (Hn n Hn') as (x & Hx & Hxa & ->).
      apply Z.eqb_neq. intros E. assert (x = b) as -> by (exact (same_id_same (working ss) i b x Hnd Hi Hx E)).
      congruence. }
    destruct raised; cbn [working committed commit].
    + split; [exact Hw|]. split; [by left|]. split; assumption.
    + split; [exact Hw|]. split; [by right|]. split; assumption.
Qed.

(** The step of the rule of an active instance whose condition no longer
    holds resolves it, commits, and sends its resolution notification,
    when it does not raise. *)
Lemma step_own r hn status lat now ss i a :
  working ss !! i = Some a -> is_active_for r hn a = true ->
  NoDup (map ai_id (working ss)) ->
  should_trigger_alert jl pf env r hn status lat = false ->
  let '(ss', ns, raised) := rule_step jl pf env sn r hn status lat now ss in
  raised = false ->
  working ss' !! i = Some (resolve_alert now a) /\ committed ss' = working ss' /\
  NoDup (map ai_id (working ss')) /\
  List.filter (fun n => notif_alert n =? ai_id a) ns =
    fst (send_resolution_notification jl env sn r (resolve_alert now a)).
Proof.
  intros Hi Ha Hnd Hc. unfold rule_step. rewrite Hc.
  assert (Hn : should_trigger_alert jl pf env r hn status None = false).
  { destruct (should_trigger_alert jl pf env r hn status None) eqn:E; [|done].
    rewrite (should_trigger_none r hn status lat E) in Hc. done. }
  unfold check_alert_resolution.
  pose proof (resolution_loop_done r hn status now (working ss)) as Hd.
  set (h := fun x => if is_active_for r hn x && negb (should_trigger_alert jl pf env r hn status None)
                    then (resolve_alert now x,
                          fst (send_resolution_notification jl env sn r (resolve_alert now x)))
                    else (x, [])) in Hd.
  destruct (resolution_loop jl pf env sn r hn status now (working ss)) as [[w ns] raised].
  destruct raised; [intros [=]|intros _]. destruct (Hd eq_refl) as [-> ->]. cbn [working committed commit].
  assert (Hid : forall x, ai_id (fst (h x)) = ai_id x).
  { intros x. unfold h. destruct (_ && _)%bool; reflexivity. }
  assert (Hids : map ai_id (map fst (map h (working ss))) = map ai_id (working ss)).
  { rewrite !map_map. apply map_ext. exact Hid. }
  split; [rewrite !map_lookup, Hi; simpl; unfold h; rewrite Ha, Hn; reflexivity|].
  split; [done|]. split; [by rewrite Hids|].
  rewrite (flat_filter h (working ss) i a Hnd Hi).
  - unfold h. rewrite Ha, Hn. simpl. apply filter_all_bool. intros n Hn'.
    rewrite send_resolution_split in Hn'. apply in_map_iff in Hn' as [c [<- _]].
    apply Z.eqb_refl.
  - intros x n Hn'. unfold h in Hn'. destruct (_ && _)%bool; [|destruct Hn'].
    rewrite send_resolution_split in Hn'. apply in_map_iff in Hn' as [c [<- _]].
    reflexivity.
Qed.

(** The step of the rule of an active instance whose condition no longer
    holds raises, with nothing committed, when the resolution sender
    raises. *)
Lemma step_raise r hn status lat now ss a :
  In a (working ss) -> is_active_for r hn a = true ->
  should_trigger_alert jl pf env r hn status lat = false ->
  snd (channel_targets jl env sn r false) = true ->
  let '(ss', ns, raised) := rule_step jl pf env sn r hn status lat now ss in
  raised = true /\ committed ss' = committed ss.
Proof.
  intros Hin Ha Hc Hraise. unfold rule_step. rewrite Hc.
  assert (Hn : should_trigger_alert jl pf env r hn status None = false).
  { destruct (should_trigger_alert jl pf env r hn status None) eqn:E; [|done].
    rewrite (should_trigger_none r hn status lat E) in Hc. done. }
  unfold check_alert_resolution.
  pose proof (resolution_loop_raises r hn status now (working ss) a Hin Ha Hn Hraise) as H.
  destruct (resolution_loop jl pf env sn r hn status now (working ss)) as [[w ns] raised].
  cbn [snd] in H. subst raised. split; reflexivity.
Qed.

Lemma resolved_inactive now a r hn : is_active_for r hn (resolve_alert now a) = false.
Proof. unfold is_active_for. simpl. by rewrite !andb_false_r. Qed.

Lemma eval_rules_cons r rest hn status lat now ss out :
  eval_rules jl pf env sn (r :: rest) hn status lat now ss out =
  let '(ss1, ns, raised) := rule_step jl pf env sn r hn status lat now ss in
  if raised then (ss1, out ++ ns, true)
  else eval_rules jl pf env sn rest hn status lat now ss1 (out ++ ns).
Proof. reflexivity. Qed.

Lemma eval_rules_app l1 l2 hn status lat now ss out :
  eval_rules jl pf env sn (l1 ++ l2) hn status lat now ss out =
  let '(ss1, out1, raised) := eval_rules jl pf env sn l1 hn status lat now ss out in
  if raised then (ss1, out1, true)
  else eval_rules jl pf env sn l2 hn status lat now ss1 out1.
Proof.
  revert ss out. induction l1 as [|r l1 IH]; intros ss out; [reflexivity|].
  cbn [app]. rewrite !eval_rules_cons.
  destruct (rule_step jl pf env sn r hn status lat now ss) as [[ss1 ns] raised].
  destruct raised; [reflexivity|apply IH].
Qed.

(** The evaluation only appends to the notifications already sent. *)
Lemma eval_out_prefix rules hn status lat now ss out :
  let '(ss', out', raised) := eval_rules jl pf env sn rules hn status lat now ss out in
  exists o, out' = out ++ o.
Proof.
  revert ss out. induction rules as [|r rest IH]; intros ss out.
  - exists []. by rewrite app_nil_r.
  - rewrite eval_rules_cons.
    destruct (rule_step jl pf env sn r hn status lat now ss) as [[ss1 ns] raised].
    destruct raised; [exists ns; reflexivity|].
    specialize (IH ss1 (out ++ ns)).
    destruct (eval_rules jl pf env sn rest hn status lat now ss1 (out ++ ns)) as [[ss' out'] r'].
    destruct IH as [o ->]. exists (ns ++ o). by rewrite app_assoc.
Qed.

(** An instance active for none of the rules stays in the table, and the
    rules send nothing about it. *)
Lemma eval_post rules hn status lat now ss out i b :
  (forall r', In r' rules -> is_active_for r' hn b = false) ->
  working ss !! i = Some b -> committed ss !! i = Some b ->
  NoDup (map ai_id (working ss)) ->
  let '(ss', out', raised) := eval_rules jl pf env sn rules hn status lat now ss out in
  committed ss' !! i = Some b /\
  List.filter (fun n => notif_alert n =? ai_id b) out' =
  List.filter (fun n => notif_alert n =? ai_id b) out.
Proof.
  revert ss out.
  induction rules as [|r rest IH]; intros ss out Hb Hw Hc Hnd; [done|].
  rewrite eval_rules_cons.
  pose proof (step_other r hn status lat now ss i b Hw (Hb r (or_introl eq_refl)) Hnd) as Hs.
  destruct (rule_step jl pf env sn r hn status lat now ss) as [[ss1 ns] raised].
  destruct Hs as (Hw1 & Hc1 & Hnd1 & Hf1).
  assert (Hc1' : committed ss1 !! i = Some b) by (destruct Hc1 as [-> | ->]; done).
  destruct raised.
  - split; [exact Hc1'|]. rewrite filter_app_bool, Hf1, app_nil_r. reflexivity.
  - specialize (IH ss1 (out ++ ns) (fun r' H => Hb r' (or_intror H)) Hw1 Hc1' Hnd1).
    destruct (eval_rules jl pf env sn rest hn status lat now ss1 (out ++ ns)) as [[ss' out'] r'].
    destruct IH as [Hc' Hf']. split; [done|].
    rewrite Hf', filter_app_bool, Hf1, app_nil_r. reflexivity.
Qed.

Lemma other_rule_inactive r0 r hn a :
  ar_id r0 <> ar_id r -> is_active_for r hn a = true -> is_active_for r0 hn a = false.
Proof.
  intros E Ha. unfold is_active_for in *. apply andb_prop in Ha as [Ha _].
  apply andb_prop in Ha as [Ha _]. apply Z.eqb_eq in Ha.
  rewrite Ha. apply Z.eqb_neq in E. rewrite Z.eqb_sym, E. reflexivity.
Qed.

(** When the evaluation completes, the active instance of a rule whose
    condition no longer holds is resolved and committed, with its
    resolution sent. *)
Lemma eval_pre rules r hn status lat now ss out i a :
  (forall r', In r' rules -> ar_id r' = ar_id r -> r' = r) -> In r rules ->
  should_trigger_alert jl pf env r hn status lat = false ->
  is_active_for r hn a = true ->
  working ss !! i = Some a -> NoDup (map ai_id (working ss)) ->
  let '(ss', out', raised) := eval_rules jl pf env sn rules hn status lat now ss out in
  raised = false ->
  committed ss' !! i = Some (resolve_alert now a) /\
  List.filter (fun n => notif_alert n =? ai_id a) out' =
  List.filter (fun n => notif_alert n =? ai_id a) out ++
    fst (send_resolution_notification jl env sn r (resolve_alert now a)).
Proof.
  intros Huniq Hin Hc Ha. revert ss out.
  induction rules as [|r0 rest IH]; intros ss out Hw Hnd; [destruct Hin|].
  rewrite eval_rules_cons.
  destruct (Z.eq_dec (ar_id r0) (ar_id r)) as [E|E].
  - assert (r0 = r) as -> by (apply Huniq; [left|]; done).
    pose proof (step_own r hn status lat now ss i a Hw Ha Hnd Hc) as Hs.
    destruct (rule_step jl pf env sn r hn status lat now ss) as [[ss1 ns] raised].
    destruct raised; [discriminate|].
    destruct (Hs eq_refl) as (Hw1 & Hc1 & Hnd1 & Hf1).
    pose proof (eval_post rest hn status lat now ss1 (out ++ ns) i (resolve_alert now a)
                  (fun r' _ => resolved_inactive now a r' hn) Hw1
                  ltac:(by rewrite Hc1) Hnd1) as Hp.
    destruct (eval_rules jl pf env sn rest hn status lat now ss1 (out ++ ns)) as [[ss' out'] r'].
    intros _. destruct Hp as [Hc' Hf']. split; [done|].
    change (ai_id (resolve_alert now a)) with (ai_id a) in Hf'.
    rewrite Hf', filter_app_bool, Hf1. reflexivity.
  - pose proof (step_other r0 hn status lat now ss i a Hw
                  (other_rule_inactive r0 r hn a E Ha) Hnd) as Hs.
    destruct (rule_step jl pf env sn r0 hn status lat now ss) as [[ss1 ns] raised].
    destruct raised; [discriminate|].
    destruct Hs as (Hw1 & _ & Hnd1 & Hf1).
    assert (Hin' : In r rest).
    { destruct Hin as [<-|Hin]; [done|exact Hin]. }
    specialize (IH (fun r' H => Huniq r' (or_intror H)) Hin' ss1 (out ++ ns) Hw1 Hnd1).
    destruct (eval_rules jl pf env sn rest hn status lat now ss1 (out ++ ns)) as [[ss' out'] r'].
    intros Hr. destruct (IH Hr) as [Hc' Hf']. split; [done|].
    rewrite Hf', filter_app_bool, Hf1, app_nil_r. reflexivity.
Qed.

(** When the resolution sender of the rule raises, the evaluation raises
    (at that rule or before) and the active instance is left in the table
    as it was. *)
Lemma eval_raise rules r hn status lat now ss out i a :
  (forall r', In r' rules -> ar_id r' = ar_id r -> r' = r) -> In r rules ->
  should_trigger_alert jl pf env r hn status lat = false ->
  is_active_for r hn a = true ->
  snd (channel_targets jl env sn r false) = true ->
  working ss !! i = Some a -> committed ss !! i = Some a ->
  NoDup (map ai_id (working ss)) ->
  let '(ss', out', raised) := eval_rules jl pf env sn rules hn status lat now ss out in
  raised = true /\ committed ss' !! i = Some a.
Proof.
  intros Huniq Hin Hc Ha Hraise. revert ss out.
  induction rules as [|r0 rest IH]; intros ss out Hw Hcm Hnd; [destruct Hin|].
  rewrite eval_rules_cons.
  destruct (Z.eq_dec (ar_id r0) (ar_id r)) as [E|E].
  - assert (r0 = r) as -> by (apply Huniq; [left|]; done).
    pose proof (step_raise r hn status lat now ss a (lookup_In _ _ _ Hw) Ha Hc Hraise) as Hs.
    destruct (rule_step jl pf env sn r hn status lat now ss) as [[ss1 ns] raised].
    destruct Hs as [-> Hc1]. split; [reflexivity|]. rewrite Hc1. exact Hcm.
  - pose proof (step_other r0 hn status lat now ss i a Hw
                  (other_rule_inactive r0 r hn a E Ha) Hnd) as Hs.
    destruct (rule_step jl pf env sn r0 hn status lat now ss) as [[ss1 ns] raised].
    destruct Hs as (Hw1 & Hc1 & Hnd1 & _).
    assert (Hc1' : committed ss1 !! i = Some a) by (destruct Hc1 as [-> | ->]; done).
    destruct raised; [split; [reflexivity|exact Hc1']|].
    assert (Hin' : In r rest).
    { destruct Hin as [<-|Hin]; [done|exact Hin]. }
    exact (IH (fun r' H => Huniq r' (or_intror H)) Hin' ss1 (out ++ ns) Hw1 Hc1' Hnd1).
Qed.

End Resolution.

(** C7: take an instance [a] of the table, active for the enabled rule
    [r] and the host, and a result of the host that no longer satisfies
    the test of [r] (targeting and condition, the latency threshold tested
    on the latency of that result).  When the resolution sender of [r]
    raises (for instance [notification_channels] decodes to a number,
    which [for channel_id in channel_ids] cannot iterate, outside the
    [try]), [evaluate_alert_rules] raises before the commit of
    [_check_alert_resolution]: [a] stays in the table unchanged, still
    [ACTIVE].  Only when the evaluation completes
    without raising is [a], in the table it leaves, the same instance with
    status [RESOLVED] and [resolved_at] the evaluation time, and the
    notifications about it are one resolution message per channel id of
    [notification_channels] that names a channel, in that order (none when
    there is no such id).  The re-test made inside
    [_check_alert_resolution] passes no latency; it is only reached after
    the full test with the latency failed, and it cannot hold then. *)
Theorem resolve_when_condition_cleared
    (jl : string -> option Json) (pf : string -> option Q) (env : Env)
    (sn : string -> option Q)
    (r : AlertRule) (hn : string) (status : HostStatus) (lat : option Q) (now : Z)
    (table : list AlertInstance) (i : nat) (a : AlertInstance)
    (Hr : In r (env_rules env)) (Hen : ar_enabled r = true)
    (Huniq : forall r', In r' (env_rules env) -> ar_id r' = ar_id r -> r' = r)
    (Hnd : NoDup (map ai_id table))
    (Ha : table !! i = Some a) (Hact : is_active_for r hn a = true)
    (Hc : should_trigger_alert jl pf env r hn status lat = false) :
  let '(table', out, raised) := evaluate_alert_rules jl pf env sn hn status lat now table in
  (snd (channel_targets jl env sn r false) = true ->
     raised = true /\ table' !! i = Some a /\ ai_status a = ACTIVE) /\
  (raised = false ->
     table' !! i = Some (resolve_alert now a) /\
     ai_status (resolve_alert now a) = RESOLVED /\
     ai_resolved_at (resolve_alert now a) = Some now /\
     List.filter (fun n => notif_alert n =? ai_id a) out =
       map (NResolved (ar_id r) (ai_id a)) (fst (channel_targets jl env sn r false))).
Proof.
  unfold evaluate_alert_rules.
  set (rules := filter (fun r => ar_enabled r = true) (env_rules env)).
  assert (Hin : In r rules).
  { apply list_elem_of_In, list_elem_of_filter. split; [done|]. by apply list_elem_of_In. }
  assert (Hu : forall r', In r' rules -> ar_id r' = ar_id r -> r' = r).
  { intros r' Hr' E. apply Huniq; [|exact E].
    apply list_elem_of_In, list_elem_of_filter in Hr' as [_ Hr'].
    by apply list_elem_of_In. }
  assert (Hst : ai_status a = ACTIVE).
  { unfold is_active_for in Hact. apply andb_prop in Hact as [_ Hs].
    destruct (ai_status a); try discriminate; reflexivity. }
  pose proof (eval_pre jl pf env sn rules r hn status lat now (mkSession table table) []
                i a Hu Hin Hc Hact Ha Hnd) as H1.
  pose proof (fun Hraise => eval_raise jl pf env sn rules r hn status lat now
                (mkSession table table) [] i a Hu Hin Hc Hact Hraise Ha Ha Hnd) as H2.
  destruct (eval_rules jl pf env sn rules hn status lat now (mkSession table table) [])
    as [[ss out] raised].
  split.
  - intros Hraise. destruct (H2 Hraise) as [-> Hc']. split; [reflexivity|].
    split; [exact Hc'|exact Hst].
  - intros Hr'. destruct (H1 Hr') as [Hc1 Hf]. split; [exact Hc1|].
    split; [reflexivity|]. split; [reflexivity|].
    rewrite Hf, send_resolution_split. reflexivity.
Qed.

(** Witness for C7: the rule [status equals Offline] whose
    [notification_channels] is ["5"], an enabled channel 5, an active
    instance for [db1], evaluated on an [ONLINE] result. *)
Lemma resolve_when_condition_cleared_witness :
  let jl := fun s => if String.eqb s "5" then Some (JNum 5) else None in
  let pf := fun (_ : string) => @None Q in
  let sn := fun (_ : string) => @None Q in
  let r := mkAlertRule 1 "Host down" "status" "equals" "Offline" None None None
             HIGH (Some "5") true in
  let env := mkEnv {[ "db1" := mkHost "db1" None None 5 None None None None
                                 true false None ]} {[ 5 := true ]} [r] in
  let a := mkAlertInstance 7 1 "db1" ACTIVE HIGH "Host down - db1" 100 None
             (TVStatus "Offline") 1 in
  In r (env_rules env) /\ ar_enabled r = true /\
  (forall r', In r' (env_rules env) -> ar_id r' = ar_id r -> r' = r) /\
  NoDup (map ai_id [a]) /\ [a] !! 0%nat = Some a /\ is_active_for r "db1" a = true /\
  should_trigger_alert jl pf env r "db1" ONLINE None = false /\
  snd (channel_targets jl env sn r false) = true /\
  let '(table', out, raised) := evaluate_alert_rules jl pf env sn "db1" ONLINE None 160 [a] in
  (snd (channel_targets jl env sn r false) = true ->
     raised = true /\ table' !! 0%nat = Some a /\ ai_status a = ACTIVE) /\
  (raised = false ->
     table' !! 0%nat = Some (resolve_alert 160 a) /\
     ai_status (resolve_alert 160 a) = RESOLVED /\
     ai_resolved_at (resolve_alert 160 a) = Some 160 /\
     List.filter (fun n => notif_alert n =? ai_id a) out =
       map (NResolved (ar_id r) (ai_id a)) (fst (channel_targets jl env sn r false))).
Proof.
  intros jl pf sn r env a.
  assert (Hr : In r (env_rules env)) by (left; reflexivity).
  assert (Hu : forall r', In r' (env_rules env) -> ar_id r' = ar_id r -> r' = r).
  { intros r' [<-|[]] _. reflexivity. }
  assert (Hnd : NoDup (map ai_id [a])) by (apply NoDup_singleton).
  assert (Hact : is_active_for r "db1" a = true) by reflexivity.
  assert (Hc : should_trigger_alert jl pf env r "db1" ONLINE None = false)
    by (vm_compute; reflexivity).
  split; [exact Hr|]. split; [reflexivity|]. split; [exact Hu|]. split; [exact Hnd|].
  split; [reflexivity|]. split; [exact Hact|]. split; [exact Hc|].
  split; [vm_compute; reflexivity|].
  exact (resolve_when_condition_cleared jl pf env sn r "db1" ONLINE None 160 [a] 0 a
           Hr eq_refl Hu Hnd eq_refl Hact Hc).
Defined.

End AlertProofs.

(* ================================================================= *)
(** * Further properties of the code around the specified functions *)


Module LoaderProofs.
Import App AppRoutes.
Local Open Scope list_scope.

Lemma parse_row_valid row m :
  parse_row row = Some m ->
  m_name m <> "" /\
  (forall ip, m_ip m = Some ip -> ip <> "" /\ ip <> "?" /\ Py.str_contains "/" ip = false).
Proof.
  destruct row as [|c0 rest]; simpl; [discriminate|].
  destruct (String.eqb_spec (Py.strip c0) "") as [He|Hn]; [discriminate|].
  destruct rest as [|c1 rest']; simpl.
  - intros Hm. injection Hm as <-. simpl. split; [exact Hn|]. discriminate.
  - destruct (String.eqb_spec (Py.strip c1) "") as [He1|Hn1]; simpl.
    + intros Hm. injection Hm as <-. simpl. split; [exact Hn|]. discriminate.
    + destruct (String.eqb_spec (Py.strip c1) "?") as [Hq|Hq]; simpl.
      * intros Hm. injection Hm as <-. simpl. split; [exact Hn|]. discriminate.
      * destruct (Py.str_contains "/" (Py.strip c1)) eqn:Hs; simpl.
        -- intros Hm. injection Hm as <-. simpl. split; [exact Hn|]. discriminate.
        -- intros Hm. injection Hm as <-. simpl. split; [exact Hn|].
           intros ip Hip. injection Hip as <-. auto.
Qed.

Lemma scan_hosts_valid :
  Forall (fun m => m_name m <> "" /\
     (forall ip, m_ip m = Some ip -> ip <> "" /\ ip <> "?" /\ Py.str_contains "/" ip = false))
    scan_hosts.
Proof.
  assert (Hb : forallb (fun m => negb (String.eqb (m_name m) "") &&
             match m_ip m with
             | Some ip => negb (String.eqb ip "") && negb (String.eqb ip "?")
                          && negb (Py.str_contains "/" ip)
             | None => true end) scan_hosts = true) by (vm_compute; reflexivity).
  rewrite forallb_forall in Hb. apply List.Forall_forall. intros m Hm.
  specialize (Hb m Hm). apply andb_prop in Hb as [Hn Hi].
  split; [apply negb_true_iff, String.eqb_neq in Hn; exact Hn|].
  intros ip Hip. rewrite Hip in Hi.
  apply andb_prop in Hi as [Hi Hs]. apply andb_prop in Hi as [He Hq].
  apply negb_true_iff, String.eqb_neq in He. apply negb_true_iff, String.eqb_neq in Hq.
  apply negb_true_iff in Hs. auto.
Qed.

(** Every machine [carregar_maquinas] returns has a non-empty name and,
    when it has an address, one that is not empty, not ["?"] and without a
    ["/"], provided the cached list it may reuse has that form; the list
    returned is the one it caches. *)
Theorem carregar_maquinas_entries_valid (file : Z -> option (list (list string)))
    (now : Z) (ls : LoaderState)
  (Hcache : Forall (fun m => m_name m <> "" /\
     (forall ip, m_ip m = Some ip -> ip <> "" /\ ip <> "?" /\ Py.str_contains "/" ip = false))
     (machines_cache ls)) :
  let '(ms, ls') := carregar_maquinas file now ls in
  machines_cache ls' = ms /\
  Forall (fun m => m_name m <> "" /\
     (forall ip, m_ip m = Some ip -> ip <> "" /\ ip <> "?" /\ Py.str_contains "/" ip = false))
     ms.
Proof.
  unfold carregar_maquinas.
  destruct (nonempty (machines_cache ls) && _)%bool; [split; [reflexivity|exact Hcache]|].
  split; [reflexivity|].
  destruct (file now) as [rows|]; [|exact scan_hosts_valid].
  destruct rows as [|hdr body]; simpl; [constructor|].
  apply Forall_forall. intros m Hm.
  apply list_elem_of_omap in Hm as (row & _ & Hr).
  exact (parse_row_valid row m Hr).
Qed.

Lemma carregar_maquinas_entries_valid_witness :
  let file := fun (_ : Z) => Some [["Nome"; "IP"]; [" pc1 "; "10.0.0.7"];
                                   [""; "10.0.0.8"]; ["pc3"; "10.0.0.0/24"]] in
  let '(ms, ls') := carregar_maquinas file 1000 (mkLoaderState [] 0 0) in
  machines_cache ls' = ms /\
  Forall (fun m => m_name m <> "" /\
     (forall ip, m_ip m = Some ip -> ip <> "" /\ ip <> "?" /\ Py.str_contains "/" ip = false))
     ms.
Proof.
  intros file.
  exact (carregar_maquinas_entries_valid file 1000 (mkLoaderState [] 0 0) (List.Forall_nil _)).
Defined.

(** [carregar_maquinas] reuses a non-empty list for 300 s after it was
    built, and rebuilds an empty one on every call. *)
Theorem carregar_maquinas_cache (file : Z -> option (list (list string)))
    (t : Z) (ls : LoaderState) :
  let '(ms, ls') := carregar_maquinas file t ls in
  machines_cache ls' = ms /\
  (ls' = ls \/ (last_machines_load ls' = t /\ rebuilds ls' = S (rebuilds ls))) /\
  (ms <> [] -> forall t', t' - last_machines_load ls' < CACHE_TIMEOUT ->
     carregar_maquinas file t' ls' = (ms, ls')) /\
  (ms = [] -> forall t', rebuilds (snd (carregar_maquinas file t' ls')) = S (rebuilds ls')).
Proof.
  unfold carregar_maquinas at 1.
  destruct (nonempty (machines_cache ls) && _)%bool eqn:Hhit.
  - split; [reflexivity|]. split; [left; reflexivity|]. split.
    + intros _ t' Ht'. unfold carregar_maquinas.
      apply andb_prop in Hhit as [Hne _]. rewrite Hne.
      rewrite bool_decide_eq_true_2 by exact Ht'. reflexivity.
    + intros Hms. rewrite Hms in Hhit. discriminate.
  - set (ms := match file t with Some rows => load_rows rows | None => scan_hosts end).
    split; [reflexivity|]. split; [right; split; reflexivity|]. split.
    + intros Hne t' Ht'. unfold carregar_maquinas. cbn [machines_cache last_machines_load] in *.
      destruct ms as [|x xs] eqn:Hms; [congruence|]. cbn [nonempty].
      rewrite bool_decide_eq_true_2 by exact Ht'. reflexivity.
    + intros Hms t'. unfold carregar_maquinas. cbn [machines_cache]. rewrite Hms. reflexivity.
Qed.

End LoaderProofs.

Module PingProofs.
Import App.
Local Open Scope list_scope.

(** [ping_icmp_target] runs at most [MAX_RETRIES] = 2 ping processes and
    none after a successful one; it reports success exactly when one of
    them succeeded, with that attempt's latency. *)
Theorem ping_icmp_target_attempts (net : Net) (target : string) (s : AppState) :
  let '((ok, lat), s') := ping_icmp_target net target s in
  same_but_trace s s' /\
  match ping_once net target 0 with
  | Some l => ok = true /\ lat = Some l /\ trace s' = trace s ++ [EvIcmp target 0]
  | None =>
      trace s' = trace s ++ [EvIcmp target 0; EvIcmp target 1] /\
      match ping_once net target 1 with
      | Some l => ok = true /\ lat = Some l
      | None => ok = false /\ lat = None
      end
  end.
Proof.
  unfold ping_icmp_target, MAX_RETRIES. simpl.
  destruct (ping_once net target 0) as [l0|]; simpl.
  - unfold same_but_trace. done.
  - destruct (ping_once net target 1) as [l1|]; simpl;
      unfold same_but_trace; simpl; rewrite <- app_assoc; done.
Qed.

End PingProofs.

Module InitProofs.
Import App AppRoutes.
Local Open Scope list_scope.

(** The history rows of one [checar_um_host] call (the rule of [app.py]). *)
Lemma checar_history_rows (net : Net) (hn : string) (ip : option string) (now : Z)
    (s : AppState) :
  let '(od, s') := checar_um_host net (mkMachine hn ip) now s in
  match od with
  | None => hn = "" /\ s' = s
  | Some d =>
      history s' = history s ++
        match status_cache s !! hn with
        | Some e =>
            (if (Py.truthy (se_ip e) && Py.truthy (se_ip d)
                 && negb (Py.opt_eqb (se_ip e) (se_ip d)))%bool
             then [ip_changed_row hn (default "" (se_ip e)) (default "" (se_ip d))
                     (se_method d) now]
             else []) ++
            (if (Py.truthy (Some (se_status e))
                 && negb (Py.opt_eqb (Some (se_status e)) (Some (se_status d))))%bool
             then [mkHostHistory hn
                     (match se_ip d with
                      | Some a => if String.eqb a "" then "unknown" else a
                      | None => "unknown" end)
                     (se_status d) (se_latency_ms d) now]
             else [])
        | None => []
        end
  end.
Proof.
  unfold checar_um_host. simpl.
  destruct (String.eqb_spec hn "") as [Hhn|Hhn]; [split; auto|].
  pose proof (HistoryProofs.resolve_keeps_status_history net hn now s) as Hr.
  destruct (resolve_hostname net hn now s) as [[rip derr] s1].
  destruct Hr as (Hsc1 & Hh1).
  destruct (Py.truthy rip) eqn:Hrip; [|destruct (Py.truthy ip) eqn:Hip].
  - pose proof (AppProofs.probe_spec net hn (default "" rip) s1) as Hp.
    destruct (probe net hn (default "" rip) s1) as [[on lat] s2].
    destruct Hp as (evs & _ & _ & _ & _ & Hsc2 & Hh2 & _).
    rewrite Hsc2, Hsc1.
    destruct (status_cache s !! hn) as [e|]; simpl; try rewrite Hrip; try rewrite Hip; simpl;
      repeat (match goal with
              | |- context [if ?c then _ else _] =>
                  let E := fresh "E" in destruct c eqn:E; simpl; try rewrite Hrip; try rewrite Hip; try rewrite E
              end);
      simpl; rewrite ?Hh2, ?Hh1, ?app_nil_r, <- ?app_assoc; reflexivity.
  - pose proof (AppProofs.probe_spec net (default "" ip) (default "" ip) s1) as Hp.
    destruct (probe net (default "" ip) (default "" ip) s1) as [[on lat] s2].
    destruct Hp as (evs & _ & _ & _ & _ & Hsc2 & Hh2 & _).
    rewrite Hsc2, Hsc1.
    destruct (status_cache s !! hn) as [e|]; simpl; try rewrite Hrip; try rewrite Hip; simpl;
      repeat (match goal with
              | |- context [if ?c then _ else _] =>
                  let E := fresh "E" in destruct c eqn:E; simpl; try rewrite Hrip; try rewrite Hip; try rewrite E
              end);
      simpl; rewrite ?Hh2, ?Hh1, ?app_nil_r, <- ?app_assoc; reflexivity.
  - rewrite Hsc1.
    destruct (status_cache s !! hn) as [e|]; simpl; try rewrite Hrip; try rewrite Hip; simpl;
      repeat (match goal with
              | |- context [if ?c then _ else _] =>
                  let E := fresh "E" in destruct c eqn:E; simpl; try rewrite Hrip; try rewrite Hip; try rewrite E
              end);
      simpl; rewrite ?Hh2, ?Hh1, ?app_nil_r, <- ?app_assoc; reflexivity.
Qed.

Lemma init_fold_lookup (ms : list Machine) (s : AppState) (hn : string) :
  (status_cache s !! hn = Some (init_entry hn) \/ In hn (map m_name ms)) ->
  status_cache (fold_left (fun s m =>
     set_status_cache (<[m_name m := init_entry (m_name m)]> (status_cache s)) s) ms s) !! hn
  = Some (init_entry hn).
Proof.
  revert s. induction ms as [|m ms IH]; intros s H; simpl.
  - destruct H as [H|[]]. exact H.
  - apply IH. simpl.
    destruct (decide (m_name m = hn)) as [<-|Hne].
    + left. apply lookup_insert_eq.
    + rewrite lookup_insert_ne by exact Hne.
      destruct H as [H|[H|H]]; [left; exact H|congruence|right; exact H].
Qed.

Lemma init_fold_history (ms : list Machine) (s : AppState) :
  history (fold_left (fun s m =>
     set_status_cache (<[m_name m := init_entry (m_name m)]> (status_cache s)) s) ms s)
  = history s.
Proof.
  revert s. induction ms as [|m ms IH]; intros s; simpl; [reflexivity|].
  rewrite IH. reflexivity.
Qed.

(** At startup (empty machine cache), after [inicializar_cache] the first
    check of a loaded machine writes exactly one history row: the status
    row of the change from ["Desconhecido"] to ["Online"] or ["Offline"],
    and no [IP_CHANGED] row. *)
Theorem first_check_after_init (net : Net) (file : Z -> option (list (list string)))
    (t : Z) (ls : LoaderState) (s0 : AppState) (m : Machine) (now : Z)
  (Hempty : machines_cache ls = [])
  (Hm : In m (fst (carregar_maquinas file t ls))) :
  let '(ls1, s1) := inicializar_cache file t ls s0 in
  let '(od, s2) := checar_um_host net m now s1 in
  exists d, od = Some d /\
    (se_status d = "Online" \/ se_status d = "Offline") /\
    history s1 = history s0 /\
    history s2 = history s1 ++
      [mkHostHistory (m_name m)
         (match se_ip d with
          | Some a => if String.eqb a "" then "unknown" else a
          | None => "unknown" end)
         (se_status d) (se_latency_ms d) now].
Proof.
  unfold inicializar_cache.
  destruct (carregar_maquinas file t ls) as [ms ls1] eqn:Hc. simpl in Hm.
  assert (Hname : m_name m <> "").
  { unfold carregar_maquinas in Hc. rewrite Hempty in Hc. simpl in Hc.
    injection Hc as <- _.
    destruct (file t) as [rows|].
    - destruct rows as [|hdr body]; [destruct Hm|].
      apply list_elem_of_In in Hm. apply list_elem_of_omap in Hm as (row & _ & Hr).
      exact (proj1 (LoaderProofs.parse_row_valid row m Hr)).
    - pose proof LoaderProofs.scan_hosts_valid as Hv.
      rewrite List.Forall_forall in Hv. exact (proj1 (Hv m Hm)). }
  set (s1 := fold_left _ ms s0).
  assert (Hl : status_cache s1 !! m_name m = Some (init_entry (m_name m))).
  { apply init_fold_lookup. right. apply in_map. exact Hm. }
  assert (Hh : history s1 = history s0) by apply init_fold_history.
  destruct m as [hn ip]. simpl in *.
  pose proof (checar_history_rows net hn ip now s1) as Hrows.
  pose proof (AppProofs.checar_status_iff_success net hn ip now s1) as Hst.
  destruct (checar_um_host net (mkMachine hn ip) now s1) as [od s2].
  destruct od as [d|]; [|destruct Hrows as [Hhn _]; congruence].
  destruct (Hst d s2 eq_refl) as (evs & _ & Hs).
  assert (Hst' : se_status d = "Online" \/ se_status d = "Offline") by
    (destruct Hs as [[? _]|[? _]]; auto).
  exists d. split; [reflexivity|]. split; [exact Hst'|]. split; [exact Hh|].
  rewrite Hrows, Hl. simpl.
  destruct Hst' as [-> | ->]; reflexivity.
Qed.

Lemma first_check_after_init_witness :
  let net := mkNet (fun _ _ => inl "10.0.0.7") (fun _ _ => Some 3) (fun _ _ => false) in
  let file := fun (_ : Z) => Some [["Nome"; "IP"]; ["pc1"; "10.0.0.7"]] in
  let ls := mkLoaderState [] 0 0 in
  let s0 := mkAppState ∅ ∅ [] 0 [] in
  let m := mkMachine "pc1" (Some "10.0.0.7") in
  machines_cache ls = [] /\ In m (fst (carregar_maquinas file 0 ls)) /\
  let '(ls1, s1) := inicializar_cache file 0 ls s0 in
  let '(od, s2) := checar_um_host net m 10 s1 in
  exists d, od = Some d /\
    (se_status d = "Online" \/ se_status d = "Offline") /\
    history s1 = history s0 /\
    history s2 = history s1 ++
      [mkHostHistory (m_name m)
         (match se_ip d with
          | Some a => if String.eqb a "" then "unknown" else a
          | None => "unknown" end)
         (se_status d) (se_latency_ms d) 10].
Proof.
  intros net file ls s0 m.
  assert (Hempty : machines_cache ls = []) by reflexivity.
  assert (Hm : In m (fst (carregar_maquinas file 0 ls))) by (vm_compute; left; reflexivity).
  split; [exact Hempty|]. split; [exact Hm|].
  exact (first_check_after_init net file 0 ls s0 m 10 Hempty Hm).
Defined.

End InitProofs.

Module RouteProofs.
Import App AppRoutes.
Local Open Scope list_scope.

Section Lower.
Variable str_lower : string -> string.
Variable fmt : Z -> string.

Lemma key_le_total a b : key_le str_lower a b = false -> key_le str_lower b a = true.
Proof.
  unfold key_le.
  destruct (String.eqb (se_status a) "Online"), (String.eqb (se_status b) "Online");
    simpl; try discriminate; try reflexivity.
  - intros H. destruct (String.leb_total (str_lower (se_name a)) (str_lower (se_name b)));
      congruence.
  - intros H. destruct (String.leb_total (str_lower (se_name a)) (str_lower (se_name b)));
      congruence.
Qed.

Lemma insert_by_perm x l : Permutation (insert_by str_lower x l) (x :: l).
Proof.
  induction l as [|y l IH]; simpl; [reflexivity|].
  destruct (key_le str_lower x y); [reflexivity|].
  rewrite IH. apply perm_swap.
Qed.

Lemma sort_items_perm l : Permutation (sort_items str_lower l) l.
Proof.
  induction l as [|x l IH]; simpl; [reflexivity|].
  rewrite insert_by_perm, IH. reflexivity.
Qed.

Lemma insert_by_sorted x l :
  Sorted (fun a b => key_le str_lower a b = true) l ->
  Sorted (fun a b => key_le str_lower a b = true) (insert_by str_lower x l).
Proof.
  induction 1 as [|y l Hs IH Hhd]; simpl.
  - repeat constructor.
  - destruct (key_le str_lower x y) eqn:Hxy.
    + constructor; [constructor; assumption|constructor; exact Hxy].
    + constructor; [exact IH|].
      destruct l as [|z l]; simpl.
      * constructor. apply key_le_total. exact Hxy.
      * inversion Hhd; subst.
        destruct (key_le str_lower x z); constructor;
          [apply key_le_total; exact Hxy|assumption].
Qed.

Lemma sort_items_sorted l :
  Sorted (fun a b => key_le str_lower a b = true) (sort_items str_lower l).
Proof.
  induction l as [|x l IH]; simpl; [constructor|].
  apply insert_by_sorted. exact IH.
Qed.

Lemma sorted_split l :
  Sorted (fun a b => key_le str_lower a b = true) l ->
  exists on off, l = on ++ off /\
    Forall (fun it => se_status it = "Online") on /\
    Forall (fun it => se_status it <> "Online") off /\
    Sorted (fun a b => String.leb (str_lower (se_name a)) (str_lower (se_name b)) = true) on /\
    Sorted (fun a b => String.leb (str_lower (se_name a)) (str_lower (se_name b)) = true) off.
Proof.
  induction 1 as [|x l Hs IH Hhd].
  - exists [], []. repeat constructor.
  - destruct IH as (on & off & -> & Hon & Hoff & Hson & Hsoff).
    destruct (String.eqb_spec (se_status x) "Online") as [Hx|Hx].
    + exists (x :: on), off. split; [reflexivity|].
      split; [constructor; assumption|]. split; [exact Hoff|]. split; [|exact Hsoff].
      constructor; [exact Hson|].
      destruct on as [|y on]; [constructor|]. constructor.
      inversion Hhd; subst. inversion Hon; subst.
      unfold key_le in *. rewrite Hx, H2 in H0. simpl in H0. exact H0.
    + destruct on as [|y on].
      * exists [], (x :: off). split; [reflexivity|].
        split; [constructor|]. split; [constructor; assumption|]. split; [constructor|].
        constructor; [exact Hsoff|].
        destruct off as [|y off]; [constructor|]. constructor.
        inversion Hhd; subst. inversion Hoff; subst.
        unfold key_le in *.
        apply String.eqb_neq in Hx. apply String.eqb_neq in H2.
        rewrite Hx, H2 in H0. simpl in H0. exact H0.
      * exfalso. inversion Hhd; subst. inversion Hon; subst.
        unfold key_le in H0. apply String.eqb_neq in Hx. rewrite Hx, H2 in H0.
        simpl in H0. discriminate.
Qed.

Lemma sorted_map {A B} (R : B -> B -> Prop) (f : A -> B) (l : list A) :
  Sorted (fun a b => R (f a) (f b)) l -> Sorted R (map f l).
Proof.
  induction 1 as [|x l Hs IH Hhd]; simpl; constructor; [exact IH|].
  destruct Hhd; simpl; constructor; assumption.
Qed.

(** The [/status] route lists every entry of the status cache once, the
    ["Online"] entries first, each group in the order of the lowered
    names. *)
Theorem status_route_order (items : list StatusEntry) :
  Permutation (status_route str_lower fmt items) (map (status_view fmt) items) /\
  exists on off, status_route str_lower fmt items = on ++ off /\
    Forall (fun v => sv_status v = "Online") on /\
    Forall (fun v => sv_status v <> "Online") off /\
    Sorted (fun a b => String.leb (str_lower (sv_name a)) (str_lower (sv_name b)) = true) on /\
    Sorted (fun a b => String.leb (str_lower (sv_name a)) (str_lower (sv_name b)) = true) off.
Proof.
  unfold status_route. split.
  - apply Permutation_map. apply sort_items_perm.
  - destruct (sorted_split _ (sort_items_sorted items))
      as (on & off & Heq & Hon & Hoff & Hson & Hsoff).
    exists (map (status_view fmt) on), (map (status_view fmt) off).
    rewrite Heq, map_app. split; [reflexivity|].
    split; [apply Forall_map; exact Hon|].
    split; [apply Forall_map; exact Hoff|].
    split; apply sorted_map; assumption.
Qed.

(** The [/search] route returns, in the order of [/status], exactly the
    entries whose lowered name or address contains the lowered query (when
    it is not empty) and whose lowered status equals the lowered status
    filter (when it is given); with neither, it lists the same hosts in the
    same order as [/status]. *)
Theorem search_results (q status_filter : string) (items : list StatusEntry)
  (Hlower : str_lower "" = "") :
  search str_lower fmt q status_filter items =
    map (search_view fmt)
      (sort_items str_lower
        (List.filter (fun it =>
           (String.eqb (str_lower q) "" || matches_query str_lower (str_lower q) it)
           && (String.eqb status_filter "" || matches_status str_lower status_filter it))%bool
         items)) /\
  search str_lower fmt "" "" items =
    map (fun v => mkSearchView (sv_name v) (sv_ip v) (sv_status v)
                    (sv_time_last_checked v) (sv_latency_ms v))
        (status_route str_lower fmt items).
Proof.
  split.
  - unfold search. f_equal. f_equal.
    destruct (String.eqb (str_lower q) "") eqn:Hq, (String.eqb status_filter "") eqn:Hs;
      simpl.
    + induction items as [|x l IH]; simpl; [reflexivity|].
      rewrite <- IH. reflexivity.
    + induction items as [|x l IH]; simpl; [reflexivity|].
      rewrite IH. reflexivity.
    + induction items as [|x l IH]; simpl; [reflexivity|].
      rewrite andb_true_r. rewrite IH. reflexivity.
    + induction items as [|x l IH]; simpl; [reflexivity|].
      destruct (matches_query str_lower (str_lower q) x) eqn:E1,
        (matches_status str_lower status_filter x) eqn:E2; simpl;
        rewrite ?E1, ?E2; simpl; rewrite ?IH; reflexivity.
  - unfold search, status_route. rewrite Hlower. simpl. rewrite map_map. reflexivity.
Qed.

End Lower.

Lemma search_results_witness :
  let items := [mkStatusEntry "db1" (Some "10.0.0.5") "Offline" None None None None false;
                mkStatusEntry "Web" (Some "10.0.0.6") "Online" (Some 5) (Some 2) None None false] in
  Py.lower "" = "" /\
  search Py.lower (fun _ => "") "DB" "offline" items =
    map (search_view (fun _ => ""))
      (sort_items Py.lower
        (List.filter (fun it =>
           (String.eqb (Py.lower "DB") "" || matches_query Py.lower (Py.lower "DB") it)
           && (String.eqb "offline" "" || matches_status Py.lower "offline" it))%bool
         items)) /\
  search Py.lower (fun _ => "") "" "" items =
    map (fun v => mkSearchView (sv_name v) (sv_ip v) (sv_status v)
                    (sv_time_last_checked v) (sv_latency_ms v))
        (status_route Py.lower (fun _ => "") items).
Proof.
  intros items.
  assert (Hl : Py.lower "" = "") by reflexivity.
  split; [exact Hl|].
  exact (search_results Py.lower (fun _ => "") "DB" "offline" items Hl).
Defined.

End RouteProofs.

Module ProbeProofs.
Import Mon MonRoutes.
Local Open Scope list_scope.

Lemma tcp_loop_best P target tmo ports any best acc s :
  let '(any', best', acc', s') := tcp_loop P target tmo ports any best acc s in
  exists fresh, acc' = acc ++ fresh /\
    best' = fold_left improve (map tc_latency_ms (List.filter tc_success fresh)) best.
Proof.
  revert any best acc s. induction ports as [|port rest IH]; intros any best acc s.
  - simpl. exists []. rewrite app_nil_r. done.
  - simpl. destruct (ping_tcp P target port tmo) as [ok lat] eqn:Hp.
    destruct ok.
    + specialize (IH true (improve best lat) (acc ++ [mkTcpCheck port true lat])
                    (log (EvTcp target port) s)).
      destruct (tcp_loop P target tmo rest true (improve best lat) _ _)
        as [[[any' best'] acc'] s'].
      destruct IH as (fresh & Hacc & Hbest).
      exists (mkTcpCheck port true lat :: fresh).
      split; [rewrite Hacc, <- app_assoc; done|]. exact Hbest.
    + specialize (IH any best (acc ++ [mkTcpCheck port false lat])
                    (log (EvTcp target port) s)).
      destruct (tcp_loop P target tmo rest any best _ _)
        as [[[any' best'] acc'] s'].
      destruct IH as (fresh & Hacc & Hbest).
      exists (mkTcpCheck port false lat :: fresh).
      split; [rewrite Hacc, <- app_assoc; done|]. exact Hbest.
Qed.

Lemma run_probes_plan P host target dns s :
  let '(any, best, checks, s') :=
    run_probes P host target (mkChecks (Some dns) None None None None None) s in
  trace s' = trace s ++ probe_plan host target /\
  hosts s' = hosts s /\ host_history s' = host_history s /\
  best = fold_left improve (successful_latencies checks) None.
Proof.
  unfold run_probes, probe_plan.
  destruct (Py.str_mem "icmp" _) eqn:Hicmp.
  - destruct (ping_icmp P target (timeout host)) as [ok lat] eqn:Hi.
    destruct (Py.str_mem "tcp" _ && Py.truthy (tcp_ports host))%bool eqn:Htcp.
    + pose proof (MonProofs.tcp_loop_spec P target (timeout host)
                    (parse_tcp_ports (default "" (tcp_ports host)))
                    (if ok then true else false) (if ok then improve None lat else None)
                    [] (log (EvIcmp target) s)) as Hl.
      pose proof (tcp_loop_best P target (timeout host)
                    (parse_tcp_ports (default "" (tcp_ports host)))
                    (if ok then true else false) (if ok then improve None lat else None)
                    [] (log (EvIcmp target) s)) as Hb.
      destruct ok;
      (destruct (tcp_loop _ _ _ _ _ _ _ _) as [[[any1 best1] acc1] s1];
       destruct Hl as (fresh & Hacc & _ & _ & Htr & Hh & Hhist);
       destruct Hb as (fresh' & Hacc' & Hbest);
       simpl in Hacc, Hacc'; subst acc1; subst fresh'; subst best1;
       simpl in Htr;
       destruct (Py.str_mem "http" _);
       [destruct (ping_http P _ _) as [[hok hlat] hst]; destruct hok|];
       destruct (Py.str_mem "https" _);
       try (destruct (ping_http P ("https://" ++ target)%string _) as [[sok slat] sst];
            destruct (check_ssl_certificate P target 443 _); destruct sok);
       cbv [successful_latencies set_ck_https set_ck_http set_ck_tcp set_ck_icmp log]; cbn;
       rewrite ?Htr, ?Hh, ?Hhist; rewrite <- ?app_assoc; simpl;
       rewrite ?fold_left_app, ?app_nil_r; simpl;
       (split; [reflexivity|]); (split; [reflexivity|]); (split; [reflexivity|]);
       reflexivity).
    + destruct ok;
      (destruct (Py.str_mem "http" _);
       [destruct (ping_http P _ _) as [[hok hlat] hst]; destruct hok|];
       destruct (Py.str_mem "https" _);
       try (destruct (ping_http P ("https://" ++ target)%string _) as [[sok slat] sst];
            destruct (check_ssl_certificate P target 443 _); destruct sok);
       cbv [successful_latencies set_ck_https set_ck_http set_ck_tcp set_ck_icmp log]; cbn;
       rewrite <- ?app_assoc, ?app_nil_r; simpl;
       (split; [reflexivity|]); (split; [reflexivity|]); (split; [reflexivity|]);
       reflexivity).
  - destruct (Py.str_mem "tcp" _ && Py.truthy (tcp_ports host))%bool eqn:Htcp.
    + pose proof (MonProofs.tcp_loop_spec P target (timeout host)
                    (parse_tcp_ports (default "" (tcp_ports host)))
                    false None [] s) as Hl.
      pose proof (tcp_loop_best P target (timeout host)
                    (parse_tcp_ports (default "" (tcp_ports host)))
                    false None [] s) as Hb.
      destruct (tcp_loop _ _ _ _ _ _ _ _) as [[[any1 best1] acc1] s1];
       destruct Hl as (fresh & Hacc & _ & _ & Htr & Hh & Hhist);
       destruct Hb as (fresh' & Hacc' & Hbest);
       simpl in Hacc, Hacc'; subst acc1; subst fresh'; subst best1;
       destruct (Py.str_mem "http" _);
       [destruct (ping_http P _ _) as [[hok hlat] hst]; destruct hok|];
       destruct (Py.str_mem "https" _);
       try (destruct (ping_http P ("https://" ++ target)%string _) as [[sok slat] sst];
            destruct (check_ssl_certificate P target 443 _); destruct sok);
       cbv [successful_latencies set_ck_https set_ck_http set_ck_tcp set_ck_icmp log]; cbn;
       rewrite ?Htr, ?Hh, ?Hhist; rewrite <- ?app_assoc; simpl;
       rewrite ?fold_left_app, ?app_nil_r; simpl;
       (split; [reflexivity|]); (split; [reflexivity|]); (split; [reflexivity|]);
       reflexivity.
    + destruct (Py.str_mem "http" _);
       [destruct (ping_http P _ _) as [[hok hlat] hst]; destruct hok|];
       destruct (Py.str_mem "https" _);
       try (destruct (ping_http P ("https://" ++ target)%string _) as [[sok slat] sst];
            destruct (check_ssl_certificate P target 443 _); destruct sok);
       cbv [successful_latencies set_ck_https set_ck_http set_ck_tcp set_ck_icmp log]; cbn;
       rewrite <- ?app_assoc, ?app_nil_r; simpl;
       (split; [reflexivity|]); (split; [reflexivity|]); (split; [reflexivity|]);
       reflexivity.
Qed.


Lemma successful_latencies_none ck :
  probe_success ck = false -> successful_latencies ck = [].
Proof.
  unfold probe_success, successful_latencies.
  destruct (ck_icmp ck) as [c|]; [destruct (pc_success c)|]; simpl; try discriminate;
  (destruct (ck_tcp ck) as [l|]; [destruct (existsb tc_success l) eqn:Et|]; simpl; try discriminate);
  (destruct (ck_http ck) as [c2|]; [destruct (hc_success c2)|]; simpl; try discriminate);
  (destruct (ck_https ck) as [c3|]; [destruct (hc_success c3)|]; simpl; try discriminate);
  intros _; rewrite ?app_nil_r; try reflexivity;
  (assert (Hf : List.filter tc_success l = [])
     by (induction l as [|x l IH]; simpl in *; [reflexivity|];
         apply orb_false_iff in Et as [-> Et]; apply IH; exact Et));
  rewrite Hf; reflexivity.
Qed.

(** [check_host_comprehensive] past the maintenance test: the result's
    name, time, probes and status, and the state it leaves. *)
Lemma check_after_maintenance_facts P host now s :
  let '(res, s') := check_after_maintenance P host now s in
  r_hostname res = hostname host /\ r_timestamp res = now /\
  hosts s' = hosts s /\ host_history s' = host_history s /\
  trace s' = trace s ++ EvLookup (hostname host) ::
    (if Py.truthy (r_primary_ip res)
     then probe_plan host (default "" (r_primary_ip res)) else []) /\
  r_response_time res = fold_left improve (successful_latencies (r_checks res)) None /\
  ((r_overall_status res = ONLINE /\ r_error_message res = None) \/
   (r_overall_status res = OFFLINE /\
    r_error_message res =
      Some (if negb (Py.truthy (r_primary_ip res)) then "No IP address available"
            else if match gethostbyname P (hostname host) with
                    | DnsOk ip => negb (String.eqb ip "")
                    | _ => false end
            then "All checks failed" else "DNS resolution failed"))).
Proof.
  unfold check_after_maintenance, resolve_hostname.
  set (hn := hostname host).
  destruct (gethostbyname P hn) as [ip|e|e] eqn:Hdns; cbn -[run_probes probe_plan];
  [destruct (String.eqb ip "") eqn:Hip; cbn -[run_probes probe_plan]|..];
  try (destruct (Py.truthy (fallback_ip host)) eqn:Hfb; cbn -[run_probes probe_plan]);
  try (rewrite Hfb; cbn -[run_probes probe_plan]);
  (* the no-address branches *)
  try (repeat split; try reflexivity; right; split; reflexivity);
  match goal with
  | |- context [run_probes P host ?t ?ck ?s0] =>
      pose proof (run_probes_plan P host t
                   match ck with mkChecks (Some d) _ _ _ _ _ => d | _ => mkDnsCheck false None None false end s0) as Hp;
      pose proof (MonProofs.run_probes_any_success P host t
                   match ck with mkChecks (Some d) _ _ _ _ _ => d | _ => mkDnsCheck false None None false end s0) as Ha;
      cbn iota in Hp, Ha;
      destruct (run_probes P host t ck s0) as [[[any best] checks] s1]
  end;
  destruct Hp as (Htr & Hh & Hhist & Hbest);
  destruct Ha as (Hany & _);
  destruct any; cbn;
  rewrite ?Hip, ?Hfb; cbn;
  (split; [reflexivity|]); (split; [reflexivity|]);
  rewrite ?Htr, ?Hh, ?Hhist; cbn;
  (split; [reflexivity|]); (split; [reflexivity|]);
  (split; [rewrite ?Hip; cbn; rewrite <- ?app_assoc; reflexivity|]);
  (split; [try exact Hbest; rewrite successful_latencies_none by (symmetry; exact Hany); reflexivity|]);
  rewrite ?Hdns, ?Hip; cbn;
  first [left; split; reflexivity | right; split; reflexivity].
Qed.


Lemma check_host_facts P host now s :
  match check_host_comprehensive P host now s with
  | (None, s') => s' = s /\ maintenance_raises host
  | (Some res, s') =>
  r_hostname res = hostname host /\ r_timestamp res = now /\
  host_history s' = host_history s /\
  r_response_time res = fold_left improve (successful_latencies (r_checks res)) None /\
  ((r_overall_status res = MAINTENANCE /\ r_error_message res = None /\
    r_checks res = no_checks /\ s' = s) \/
   (trace s' = trace s ++ EvLookup (hostname host) ::
      (if Py.truthy (r_primary_ip res)
       then probe_plan host (default "" (r_primary_ip res)) else []) /\
    ((r_overall_status res = ONLINE /\ r_error_message res = None) \/
     (r_overall_status res = OFFLINE /\
      r_error_message res =
        Some (if negb (Py.truthy (r_primary_ip res)) then "No IP address available"
              else if match gethostbyname P (hostname host) with
                      | DnsOk ip => negb (String.eqb ip "")
                      | _ => false end
              then "All checks failed" else "DNS resolution failed")))))
  end.
Proof.
  unfold check_host_comprehensive.
  assert (Hafter : forall s0, trace s0 = trace s -> host_history s0 = host_history s ->
    let '(res, s') := check_after_maintenance P host now s0 in
    r_hostname res = hostname host /\ r_timestamp res = now /\
    host_history s' = host_history s /\
    r_response_time res = fold_left improve (successful_latencies (r_checks res)) None /\
    ((r_overall_status res = MAINTENANCE /\ r_error_message res = None /\
      r_checks res = no_checks /\ s' = s) \/
     (trace s' = trace s ++ EvLookup (hostname host) ::
        (if Py.truthy (r_primary_ip res)
         then probe_plan host (default "" (r_primary_ip res)) else []) /\
      ((r_overall_status res = ONLINE /\ r_error_message res = None) \/
       (r_overall_status res = OFFLINE /\
        r_error_message res =
          Some (if negb (Py.truthy (r_primary_ip res)) then "No IP address available"
                else if match gethostbyname P (hostname host) with
                        | DnsOk ip => negb (String.eqb ip "")
                        | _ => false end
                then "All checks failed" else "DNS resolution failed")))))).
  { intros s0 Htr0 Hh0.
    pose proof (check_after_maintenance_facts P host now s0) as Hf.
    destruct (check_after_maintenance P host now s0) as [res s'].
    destruct Hf as (Hn & Ht & _ & Hh & Htr & Hrt & Hst).
    split; [exact Hn|]. split; [exact Ht|]. split; [congruence|]. split; [exact Hrt|].
    right. split; [rewrite Htr, Htr0; reflexivity|exact Hst]. }
  destruct (in_maintenance host) eqn:Hin.
  - destruct (maintenance_until host) as [until|] eqn:Hu.
    + unfold dt_gt. cbn [dt_aware dt_ticks].
      destruct (dt_aware until) eqn:Ha; cbn [Bool.eqb].
      * destruct (dt_ticks until <? now).
        -- pose proof (Hafter (end_maintenance (hostname host) s)
                         ltac:(unfold end_maintenance; destruct (hosts s !! hostname host); reflexivity)
                         ltac:(unfold end_maintenance; destruct (hosts s !! hostname host); reflexivity))
             as H.
           destruct (check_after_maintenance _ _ _ _) as [res s']. exact H.
        -- cbn. repeat split; try reflexivity. left. repeat split.
      * split; [reflexivity|]. split; [exact Hin|]. exists until. split; [exact Hu|exact Ha].
    + cbn. repeat split; try reflexivity. left. repeat split.
  - pose proof (Hafter s eq_refl eq_refl) as H.
    destruct (check_after_maintenance _ _ _ _) as [res s']. exact H.
Qed.

Lemma improve_fold_none lats best :
  fold_left improve lats best = None <-> best = None /\ Forall (fun l => l = None) lats.
Proof.
  revert best. induction lats as [|x rest IH]; intros best; simpl.
  - split; [intros ->; split; [reflexivity|constructor]|intros [-> _]; reflexivity].
  - rewrite IH. split.
    + intros [Hi Hr]. destruct best as [b|]; simpl in Hi.
      * destruct x as [l|]; [destruct (negb (l =? 0) && (l <? b))%bool|]; discriminate.
      * split; [reflexivity|]. constructor; assumption.
    + intros [-> Hf]. inversion Hf; subst. split; [reflexivity|assumption].
Qed.

Lemma improve_fold_some lats best b :
  fold_left improve lats best = Some b ->
  (best = Some b \/ In (Some b) lats) /\
  (forall l, In (Some l) lats -> l <> 0 -> b <= l) /\
  (forall b0, best = Some b0 -> b <= b0).
Proof.
  revert best. induction lats as [|x rest IH]; intros best; simpl.
  - intros ->. split; [left; reflexivity|]. split; [intros _ []|].
    intros b0 Hb. injection Hb as ->. lia.
  - intros Hf. destruct (IH _ Hf) as (Hin & Hle & Hbest).
    split; [|split].
    + destruct Hin as [Hin|Hin]; [|right; right; exact Hin].
      destruct best as [c|]; simpl in Hin; [|right; left; exact Hin].
      destruct x as [l|]; [destruct (negb (l =? 0) && (l <? c))%bool|];
        [right; left; exact Hin|left; exact Hin|left; exact Hin].
    + intros l [Hx|Hl] Hnz; [|exact (Hle l Hl Hnz)]. subst x.
      destruct best as [c|]; simpl in Hbest.
      * destruct (negb (l =? 0) && (l <? c))%bool eqn:E.
        -- apply Hbest. reflexivity.
        -- specialize (Hbest c eq_refl).
           apply andb_false_iff in E as [E|E].
           ++ apply negb_false_iff, Z.eqb_eq in E. contradiction.
           ++ apply Z.ltb_ge in E. lia.
      * apply Hbest. reflexivity.
    + intros b0 ->. simpl in Hbest.
      destruct x as [l|]; [destruct (negb (l =? 0) && (l <? b0))%bool eqn:E|].
      * specialize (Hbest l eq_refl).
        apply andb_prop in E as [_ E]. apply Z.ltb_lt in E. lia.
      * apply Hbest. reflexivity.
      * apply Hbest. reflexivity.
Qed.


(** The [response_time] of a check is the best latency among the probes
    recorded as successful: [None] exactly when none of them reported a
    latency, otherwise one of the reported latencies, no larger than any
    other non-zero one. *)
Theorem check_host_best_latency (P : Prober) (host : Host) (now : Z) (s : MonState) :
  match check_host_comprehensive P host now s with
  | (None, s') => s' = s /\ maintenance_raises host
  | (Some res, s') =>
      (r_response_time res = None <->
       Forall (fun l => l = None) (successful_latencies (r_checks res))) /\
      (forall b, r_response_time res = Some b ->
         In (Some b) (successful_latencies (r_checks res)) /\
         forall l, In (Some l) (successful_latencies (r_checks res)) -> l <> 0 -> b <= l)
  end.
Proof.
  pose proof (check_host_facts P host now s) as Hf.
  destruct (check_host_comprehensive P host now s) as [[res|] s']; [|exact Hf].
  destruct Hf as (_ & _ & _ & Hrt & _).
  rewrite Hrt. split.
  - rewrite improve_fold_none. split; [intros [_ H]; exact H|intros H; split; [reflexivity|exact H]].
  - intros b Hb. destruct (improve_fold_some _ _ _ Hb) as ([Hn|Hin] & Hle & _);
      [discriminate|]. split; [exact Hin|exact Hle].
Qed.

(** A check ends [ONLINE], [OFFLINE] or [MAINTENANCE], never [WARNING] or
    [UNKNOWN]; only an [OFFLINE] result carries an error message, and it
    says why: no address at all, a failed name resolution (the fallback
    address was probed and failed), or every probe failed on a resolved
    address. *)
Theorem check_host_error_message (P : Prober) (host : Host) (now : Z) (s : MonState) :
  match check_host_comprehensive P host now s with
  | (None, s') => s' = s /\ maintenance_raises host
  | (Some res, s') =>
      match r_overall_status res with
      | ONLINE => r_error_message res = None
      | OFFLINE =>
          r_error_message res =
            Some (if negb (Py.truthy (r_primary_ip res)) then "No IP address available"
                  else if match gethostbyname P (hostname host) with
                          | DnsOk ip => negb (String.eqb ip "")
                          | _ => false end
                  then "All checks failed" else "DNS resolution failed")
      | MAINTENANCE => r_error_message res = None /\ r_checks res = no_checks
      | WARNING | UNKNOWN => False
      end
  end.
Proof.
  pose proof (check_host_facts P host now s) as Hf.
  destruct (check_host_comprehensive P host now s) as [[res|] s']; [|exact Hf].
  destruct Hf as (_ & _ & _ & _ & [(Hm & He & Hc & _)|(_ & [(Hs & He)|(Hs & He)])]);
    [rewrite Hm; split; assumption|rewrite Hs; exact He|rewrite Hs; exact He].
Qed.

End ProbeProofs.

Module SaveProofs.
Import Mon MonRoutes.
Local Open Scope list_scope.

(** [save_check_result] changes only the row of the result's host, and
    only its address, which becomes the result's [primary_ip] when there is
    one; it creates no host row, calls nothing, and adds one history row. *)
Theorem save_check_result_host_row (r : Result) (s : MonState) :
  let s' := save_check_result r s in
  (forall k, k <> r_hostname r -> hosts s' !! k = hosts s !! k) /\
  hosts s' !! r_hostname r =
    (fun h => if Py.truthy (r_primary_ip r)
              then mkHost (hostname h) (r_primary_ip r) (fallback_ip h) (timeout h)
                     (check_types h) (tcp_ports h) (tags h) (group_name h)
                     (enabled h) (in_maintenance h) (maintenance_until h)
              else h) <$> hosts s !! r_hostname r /\
  length (host_history s') = S (length (host_history s)) /\
  trace s' = trace s.
Proof.
  unfold save_check_result. cbn.
  split; [|split; [|split; [rewrite length_app; simpl; lia|reflexivity]]].
  - intros k Hk. destruct (hosts s !! r_hostname r) as [h|]; [|reflexivity].
    destruct (_ && _)%bool; [|reflexivity].
    apply lookup_insert_ne. congruence.
  - destruct (hosts s !! r_hostname r) as [h|] eqn:Hl; [|simpl; rewrite Hl; reflexivity].
    simpl. destruct (Py.truthy (r_primary_ip r)) eqn:Ht; simpl.
    + destruct (Py.opt_eqb (r_primary_ip r) (ip_address h)) eqn:Eq; simpl.
      * rewrite Hl. f_equal. destruct h as [? ipa]. simpl in *.
        destruct (r_primary_ip r) as [p|], ipa as [q|]; simpl in Eq, Ht; try discriminate.
        apply String.eqb_eq in Eq. subst q. reflexivity.
      * apply lookup_insert_eq.
    + rewrite Hl. reflexivity.
Qed.


End SaveProofs.

Module CounterProofs.
Import Mon.

(** Every completed [update_stats] call counts one check, as successful or
    as failed: over a sequence of calls, [total_checks] grows by the number
    of calls, [successful_checks] by the successful ones and
    [failed_checks] by the others. *)
Theorem run_stats_counters (st : Stats) (calls : list (bool * option Q)) (st' : Stats)
  (Hrun : run_stats st calls = Some st') :
  total_checks st' = total_checks st + Z.of_nat (length calls) /\
  successful_checks st' = successful_checks st + Z.of_nat (length (List.filter fst calls)) /\
  failed_checks st' =
    failed_checks st + Z.of_nat (length (List.filter (fun c => negb (fst c)) calls)).
Proof.
  revert st Hrun. induction calls as [|[ok rt] rest IH]; intros st Hrun; simpl in Hrun.
  - injection Hrun as <-. simpl. lia.
  - destruct (update_stats st ok rt) as [st1|] eqn:Hu; [|discriminate].
    destruct (IH st1 Hrun) as (Ht & Hs & Hf).
    assert (H1 : total_checks st1 = total_checks st + 1 /\
                 successful_checks st1 = successful_checks st + (if ok then 1 else 0) /\
                 failed_checks st1 = failed_checks st + (if ok then 0 else 1)).
    { unfold update_stats in Hu.
      destruct rt as [q|]; [destruct (_ =? 0); [discriminate|]|];
        injection Hu as <-; simpl; destruct ok; lia. }
    destruct H1 as (H1 & H2 & H3).
    rewrite Ht, Hs, Hf, H1, H2, H3. simpl length. destruct ok; simpl; lia.
Qed.

Lemma run_stats_counters_witness :
  run_stats init_stats [(true, Some 10%Q); (false, None)] =
    Some (mkStats 2 1 1 10%Q) /\
  total_checks (mkStats 2 1 1 10%Q) = total_checks init_stats + 2.
Proof.
  split; [vm_compute; reflexivity|].
  destruct (run_stats_counters init_stats [(true, Some 10%Q); (false, None)]
              (mkStats 2 1 1 10%Q) ltac:(vm_compute; reflexivity)) as (H & _ & _).
  exact H.
Defined.

End CounterProofs.

Module AckProofs.
Import Mon Alerts AlertsAck.
Local Open Scope list_scope.

Lemma find_update_first (p : AlertInstance -> bool) f l a :
  find p l = Some a ->
  exists i, l !! i = Some a /\ p a = true /\
    (forall j b, (j < i)%nat -> l !! j = Some b -> p b = false) /\
    update_first p f l = <[i := f a]> l.
Proof.
  induction l as [|x l IH]; simpl; [discriminate|].
  destruct (p x) eqn:Hx.
  - intros Hf. injection Hf as <-. exists 0%nat. split; [reflexivity|].
    split; [exact Hx|]. split; [intros j b Hj; lia|reflexivity].
  - intros Hf. destruct (IH Hf) as (i & Hi & Hp & Hbefore & Hu).
    exists (S i). split; [exact Hi|]. split; [exact Hp|]. split.
    + intros [|j] b Hj Hb; simpl in Hb; [injection Hb as <-; exact Hx|].
      apply (Hbefore j b); [lia|exact Hb].
    + rewrite Hu. reflexivity.
Qed.

Lemma count_update_first_drop (p q : AlertInstance -> bool) f l a :
  find p l = Some a -> q a = true -> q (f a) = false ->
  S (length (List.filter q (update_first p f l))) = length (List.filter q l).
Proof.
  induction l as [|x l IH]; simpl; [discriminate|].
  destruct (p x) eqn:Hx.
  - intros Hf Hq Hqf. injection Hf as <-. simpl. rewrite Hq, Hqf. reflexivity.
  - intros Hf Hq Hqf. simpl. destruct (q x); simpl; rewrite (IH Hf Hq Hqf); reflexivity.
Qed.

Lemma count_update_first_same (p q : AlertInstance -> bool) f l :
  (forall x, q (f x) = q x) ->
  length (List.filter q (update_first p f l)) = length (List.filter q l).
Proof.
  intros Hf. induction l as [|x l IH]; simpl; [reflexivity|].
  destruct (p x); simpl; [rewrite Hf; destruct (q x); reflexivity|].
  destruct (q x); simpl; rewrite IH; reflexivity.
Qed.

Lemma count_update_first_le (p q : AlertInstance -> bool) f l :
  (forall x, q (f x) = true -> q x = true) ->
  (length (List.filter q (update_first p f l)) <= length (List.filter q l))%nat.
Proof.
  intros Hf. induction l as [|x l IH]; simpl; [lia|].
  destruct (p x); simpl.
  - destruct (q (f x)) eqn:E; [rewrite (Hf x E); simpl; lia|].
    destruct (q x); simpl; lia.
  - destruct (q x); simpl; lia.
Qed.

Lemma count_map_le (q : AlertInstance -> bool) (g : AlertInstance -> AlertInstance) l :
  (forall x, q (g x) = true -> q x = true) ->
  (length (List.filter q (map g l)) <= length (List.filter q l))%nat.
Proof.
  intros Hg. induction l as [|x l IH]; simpl; [lia|].
  destruct (q (g x)) eqn:E1; [rewrite (Hg x E1); simpl; lia|].
  destruct (q x); simpl; lia.
Qed.

Lemma find_none_filter (p : AlertInstance -> bool) l :
  find p l = None -> List.filter p l = [].
Proof.
  induction l as [|x l IH]; simpl; [reflexivity|].
  destruct (p x); [discriminate|exact IH].
Qed.

Lemma filter_nil_find (p : AlertInstance -> bool) l :
  List.filter p l = [] -> find p l = None.
Proof.
  induction l as [|x l IH]; simpl; [reflexivity|].
  destruct (p x); [discriminate|exact IH].
Qed.

Lemma is_active_for_pair r hn a : is_active_for r hn a = active_pair (ar_id r) hn a.
Proof. reflexivity. Qed.

Lemma active_pair_inv rid hn a :
  active_pair rid hn a = true -> ai_rule_id a = rid /\ ai_hostname a = hn /\ ai_status a = ACTIVE.
Proof.
  unfold active_pair. intros H.
  apply andb_prop in H as [H H3]. apply andb_prop in H as [H1 H2].
  apply Z.eqb_eq in H1. apply String.eqb_eq in H2.
  split; [exact H1|]. split; [exact H2|]. destruct (ai_status a); try discriminate; reflexivity.
Qed.

Lemma in_update_first p f l x :
  In x (update_first p f l) -> In x l \/ exists y, In y l /\ x = f y.
Proof.
  induction l as [|y l IH]; simpl; [intros []|].
  destruct (p y); simpl.
  - intros [<-|Hx]; [right; exists y; split; [left|]; reflexivity|left; right; exact Hx].
  - intros [<-|Hx]; [left; left; reflexivity|].
    destruct (IH Hx) as [H|(z & Hz & ->)]; [left; right; exact H|].
    right. exists z. split; [right; exact Hz|reflexivity].
Qed.

Lemma length_update_first p f l : length (update_first p f l) = length l.
Proof. induction l as [|y l IH]; simpl; [done|]. destruct (p y); simpl; lia. Qed.

Lemma forall2_in {A} (R : A -> A -> Prop) l w y :
  Forall2 R l w -> In y w -> exists x, In x l /\ R x y.
Proof.
  induction 1 as [|x z l w Hxz _ IH]; [intros []|].
  intros [<-|Hy]; [exists x; split; [left; reflexivity|exact Hxz]|].
  destruct (IH Hy) as (x' & Hx' & HR). exists x'. split; [right; exact Hx'|exact HR].
Qed.

Lemma filter_nil_not {A} (p : A -> bool) l x :
  List.filter p l = [] -> In x l -> p x = false.
Proof.
  induction l as [|y l IH]; simpl; [intros _ []|].
  destruct (p y) eqn:Hy; [discriminate|]. intros H [<-|Hx]; [exact Hy|exact (IH H Hx)].
Qed.

Lemma find_none_all {A} (p : A -> bool) l :
  (forall x, In x l -> p x = false) -> find p l = None.
Proof.
  induction l as [|y l IH]; simpl; intros H; [reflexivity|].
  rewrite (H y (or_introl eq_refl)). apply IH. intros x Hx. apply H. right. exact Hx.
Qed.

Lemma active_pair_resolved rid hn now x : active_pair rid hn (resolve_alert now x) = false.
Proof. unfold active_pair. simpl. apply andb_false_r. Qed.

Lemma active_pair_ack rid hn x : active_pair rid hn (set_acknowledged x) = false.
Proof. unfold active_pair. simpl. apply andb_false_r. Qed.

Lemma count_forall2_le r hn now (q : AlertInstance -> bool) l w :
  (forall x, q (resolve_alert now x) = false) ->
  Forall2 (fun x y => y = x \/ (is_active_for r hn x = true /\ y = resolve_alert now x)) l w ->
  (length (List.filter q w) <= length (List.filter q l))%nat.
Proof.
  intros Hq. induction 1 as [|x y l w Hxy _ IH]; simpl; [lia|].
  destruct Hxy as [->|[_ ->]]; [destruct (q x); simpl; lia|].
  rewrite Hq. destruct (q x); simpl; lia.
Qed.

(** The rows of [alert_rules] have distinct ids ([id] is the primary key);
    so do the enabled ones. *)
Lemma nodup_ids_filter (l : list AlertRule) :
  NoDup (map ar_id l) -> NoDup (map ar_id (filter (fun r => ar_enabled r = true) l)).
Proof.
  induction l as [|x l IH]; [done|]. rewrite filter_cons. cbn [map].
  intros Hn. apply NoDup_cons in Hn as [Hx Hn].
  destruct (decide (ar_enabled x = true)); cbn [map]; [|auto].
  constructor; [|auto]. intros Hin. apply Hx.
  apply list_elem_of_In in Hin. apply list_elem_of_In.
  apply in_map_iff in Hin as [y [Hy Hin]]. rewrite <- Hy. apply in_map.
  apply list_elem_of_In in Hin. apply list_elem_of_filter in Hin as [_ Hin].
  by apply list_elem_of_In.
Qed.

Lemma split_unique (rules : list AlertRule) r :
  NoDup (map ar_id rules) -> In r rules ->
  exists l1 l2, rules = l1 ++ r :: l2 /\
    (forall r0, In r0 l1 -> ar_id r0 <> ar_id r) /\
    (forall r0, In r0 l2 -> ar_id r0 <> ar_id r).
Proof.
  intros Hn Hr. destruct (in_split _ _ Hr) as (l1 & l2 & ->).
  exists l1, l2. split; [reflexivity|].
  rewrite map_app in Hn. cbn [map] in Hn.
  apply NoDup_app in Hn as (_ & Hd & Hn). apply NoDup_cons in Hn as [Hn _].
  split.
  - intros r0 Hr0 E. apply (Hd (ar_id r0)).
    + apply list_elem_of_In. apply in_map. exact Hr0.
    + rewrite E. constructor.
  - intros r0 Hr0 E. apply Hn. rewrite <- E. apply list_elem_of_In. apply in_map. exact Hr0.
Qed.

Section Eval.
Variable jl : string -> option Json.
Variable pf : string -> option Q.
Variable env : Env.
Variable sn : string -> option Q.

Lemma create_keeps_one_active ss r hn status lat now :
  one_active_per_pair (committed ss) -> one_active_per_pair (working ss) ->
  let '(ss', ns, raised) := create_alert_instance jl env sn ss r hn status lat now in
  one_active_per_pair (committed ss') /\ one_active_per_pair (working ss').
Proof.
  intros Hc Hw. unfold create_alert_instance.
  destruct (find (is_active_for r hn) (working ss)) as [a|] eqn:Hf.
  - cbn [committed working]. split; [exact Hc|]. intros rid h.
    rewrite count_update_first_same; [apply Hw|].
    intros x. reflexivity.
  - set (alert := mkAlertInstance (next_id (working ss)) (ar_id r) hn ACTIVE
                 (ar_severity r) (ar_name r ++ " - " ++ hn) now None
                 (trigger_value status lat) 1).
    assert (Hnew : one_active_per_pair (working ss ++ [alert])).
    { intros rid h. rewrite List.filter_app, length_app. cbn [List.filter].
      destruct (active_pair rid h alert) eqn:E; simpl.
      - apply active_pair_inv in E as (E1 & E2 & _). simpl in E1, E2. subst rid h.
        apply find_none_filter in Hf.
        assert (Heq : List.filter (active_pair (ar_id r) hn) (working ss) = []).
        { rewrite <- Hf. apply filter_ext. intros x. reflexivity. }
        rewrite Heq. simpl. lia.
      - rewrite Nat.add_0_r. apply Hw. }
    destruct (send_alert_notifications jl env sn r alert) as [ns raised].
    cbn [committed working commit]. split; exact Hnew.
Qed.

Lemma resolution_keeps_one_active ss r hn status now :
  one_active_per_pair (committed ss) -> one_active_per_pair (working ss) ->
  let '(ss', ns, raised) := check_alert_resolution jl pf env sn ss r hn status now in
  one_active_per_pair (committed ss') /\ one_active_per_pair (working ss').
Proof.
  intros Hc Hw. unfold check_alert_resolution.
  pose proof (AlertProofs.resolution_loop_spec jl pf env sn r hn status now (working ss)) as Hs.
  destruct (resolution_loop jl pf env sn r hn status now (working ss)) as [[w ns] raised].
  destruct Hs as [HF _].
  assert (Hm : one_active_per_pair w).
  { intros rid h. etransitivity; [|apply Hw].
    eapply count_forall2_le; [|exact HF]. intros x. apply active_pair_resolved. }
  destruct raised; cbn [committed working commit]; split; assumption.
Qed.

Lemma step_keeps_one_active r hn status lat now ss :
  one_active_per_pair (committed ss) -> one_active_per_pair (working ss) ->
  let '(ss', ns, raised) := rule_step jl pf env sn r hn status lat now ss in
  one_active_per_pair (committed ss') /\ one_active_per_pair (working ss').
Proof.
  intros Hc Hw. unfold rule_step.
  destruct (should_trigger_alert jl pf env r hn status lat).
  - exact (create_keeps_one_active ss r hn status lat now Hc Hw).
  - exact (resolution_keeps_one_active ss r hn status now Hc Hw).
Qed.

Lemma eval_rules_keeps_one_active rules hn status lat now ss out :
  one_active_per_pair (committed ss) -> one_active_per_pair (working ss) ->
  let '(ss', out', raised) := eval_rules jl pf env sn rules hn status lat now ss out in
  one_active_per_pair (committed ss') /\ one_active_per_pair (working ss').
Proof.
  revert ss out. induction rules as [|r rest IH]; intros ss out Hc Hw; [split; assumption|].
  rewrite AlertProofs.eval_rules_cons.
  pose proof (step_keeps_one_active r hn status lat now ss Hc Hw) as H.
  destruct (rule_step jl pf env sn r hn status lat now ss) as [[ss1 ns] raised].
  destruct H as [Hc1 Hw1].
  destruct raised; [split; assumption|apply IH; assumption].
Qed.

(** The step of a rule of another id creates no [ACTIVE] instance for the
    pair of rule id [rid] and the host, and removes no instance. *)
Lemma step_keeps_no_pair r0 rid hn status lat now ss :
  ar_id r0 <> rid ->
  (forall x, In x (working ss) -> active_pair rid hn x = false) ->
  let '(ss', ns, raised) := rule_step jl pf env sn r0 hn status lat now ss in
  (forall x, In x (working ss') -> active_pair rid hn x = false) /\
  (length (working ss) <= length (working ss'))%nat.
Proof.
  intros Hne Hno. unfold rule_step.
  destruct (should_trigger_alert jl pf env r0 hn status lat).
  - unfold create_alert_instance.
    destruct (find (is_active_for r0 hn) (working ss)) eqn:Hf.
    + cbn [working]. split; [|rewrite length_update_first; lia].
      intros x Hx. apply in_update_first in Hx as [Hx|(y & Hy & ->)]; [exact (Hno x Hx)|].
      exact (Hno y Hy).
    + match goal with
      | |- context [send_alert_notifications ?a ?b ?c ?d ?e] =>
          destruct (send_alert_notifications a b c d e) as [ns raised]
      end.
      cbn [working commit]. split; [|rewrite length_app; simpl; lia].
      intros x Hx. apply in_app_or in Hx as [Hx|[<-|[]]]; [exact (Hno x Hx)|].
      unfold active_pair. simpl. apply Z.eqb_neq in Hne. rewrite Hne. reflexivity.
  - unfold check_alert_resolution.
    pose proof (AlertProofs.resolution_loop_spec jl pf env sn r0 hn status now (working ss)) as Hs.
    destruct (resolution_loop jl pf env sn r0 hn status now (working ss)) as [[w ns] raised].
    destruct Hs as [HF _].
    assert (Hw : forall x, In x w -> active_pair rid hn x = false).
    { intros x Hx. destruct (forall2_in _ _ _ _ HF Hx) as (y & Hy & [->|[_ ->]]);
        [exact (Hno _ Hy)|apply active_pair_resolved]. }
    assert (Hl : length (working ss) = length w) by (eapply Forall2_length; exact HF).
    destruct raised; cbn [working commit]; (split; [exact Hw|lia]).
Qed.

(** Over rules of ids other than [rid], the instance [ack], active for no
    rule, stays at its index, ids stay distinct, no [ACTIVE] instance for
    the pair of [rid] and the host appears and no instance is removed. *)
Lemma eval_keeps_no_pair rules rid hn status lat now ss out i ack :
  (forall r0, In r0 rules -> ar_id r0 <> rid) ->
  (forall r', is_active_for r' hn ack = false) ->
  working ss !! i = Some ack -> NoDup (map ai_id (working ss)) ->
  (forall x, In x (working ss) -> active_pair rid hn x = false) ->
  let '(ss', out', raised) := eval_rules jl pf env sn rules hn status lat now ss out in
  raised = false ->
  working ss' !! i = Some ack /\ NoDup (map ai_id (working ss')) /\
  (forall x, In x (working ss') -> active_pair rid hn x = false) /\
  (length (working ss) <= length (working ss'))%nat.
Proof.
  intros Hids Hack. revert ss out.
  induction rules as [|r0 rest IH]; intros ss out Hw Hnd Hno.
  - intros _. split; [exact Hw|]. split; [exact Hnd|]. split; [exact Hno|lia].
  - rewrite AlertProofs.eval_rules_cons.
    pose proof (AlertProofs.step_other jl pf env sn r0 hn status lat now ss i ack
                  Hw (Hack r0) Hnd) as Hs.
    pose proof (step_keeps_no_pair r0 rid hn status lat now ss
                  (Hids r0 (or_introl eq_refl)) Hno) as Hk.
    destruct (rule_step jl pf env sn r0 hn status lat now ss) as [[ss1 ns] raised].
    destruct raised; [intros [=]|].
    destruct Hs as (Hw1 & _ & Hnd1 & _). destruct Hk as [Hno1 Hl1].
    specialize (IH (fun r H => Hids r (or_intror H)) ss1 (out ++ ns) Hw1 Hnd1 Hno1).
    destruct (eval_rules jl pf env sn rest hn status lat now ss1 (out ++ ns)) as [[ss' out'] r'].
    intros Hr. destruct (IH Hr) as (Hw' & Hnd' & Hno' & Hl').
    split; [exact Hw'|]. split; [exact Hnd'|]. split; [exact Hno'|lia].
Qed.

End Eval.

(** X13: neither an evaluation nor an acknowledgement ever leaves two
    [ACTIVE] instances for the same rule and host: if the table had at
    most one per pair, the table left afterwards still has, also when the
    evaluation raised. *)
Theorem one_active_instance_per_pair (jl : string -> option Json)
    (pf : string -> option Q) (env : Env) (sn : string -> option Q) (hn : string)
    (status : HostStatus) (lat : option Q) (now : Z) (table : list AlertInstance)
  (Hone : one_active_per_pair table) :
  one_active_per_pair
    (fst (fst (evaluate_alert_rules jl pf env sn hn status lat now table))) /\
  forall alert_id who t acks,
    one_active_per_pair (fst (snd (acknowledge_alert alert_id who t table acks))).
Proof.
  split.
  - unfold evaluate_alert_rules.
    pose proof (eval_rules_keeps_one_active jl pf env sn
                  (filter (fun r => ar_enabled r = true) (env_rules env))
                  hn status lat now (mkSession table table) [] Hone Hone) as H.
    destruct (eval_rules _ _ _ _ _ _ _ _ _ _ _) as [[ss out] raised]. exact (proj1 H).
  - intros alert_id who t acks. unfold acknowledge_alert.
    destruct (find (fun a => ai_id a =? alert_id) table) as [a|] eqn:Hf; [|exact Hone].
    destruct (AlertStatus_eqb (ai_status a) ACTIVE); [|exact Hone].
    intros rid h. simpl. etransitivity; [apply count_update_first_le|apply Hone].
    intros x Hx. rewrite active_pair_ack in Hx. discriminate.
Qed.

(** Witness for X13: two rules on [db1], one whose condition holds (its
    active instance is re-triggered) and one whose condition no longer
    holds (its active instance is resolved), and a resolved instance. *)
Lemma one_active_instance_per_pair_witness :
  let jl := fun s => if String.eqb s "[1]" then Some (JList [JNum 1]) else None in
  let pf := fun (_ : string) => @None Q in
  let sn := fun (_ : string) => @None Q in
  let r1 := mkAlertRule 1 "Host down" "status" "equals" "Offline" None None None
              HIGH (Some "[1]") true in
  let r2 := mkAlertRule 2 "Host up" "status" "equals" "Online" None None None
              LOW (Some "[1]") true in
  let env := mkEnv {[ "db1" := mkHost "db1" None None 5 None None None None
                                 true false None ]} {[ 1 := true ]} [r1; r2] in
  let a1 := mkAlertInstance 7 1 "db1" ACTIVE HIGH "Host down - db1" 100 None
              (TVStatus "Offline") 1 in
  let a2 := mkAlertInstance 8 2 "db1" ACTIVE LOW "Host up - db1" 90 None
              (TVStatus "Online") 1 in
  let a3 := mkAlertInstance 3 1 "db1" RESOLVED HIGH "Host down - db1" 20 (Some 40)
              (TVStatus "Offline") 1 in
  one_active_per_pair [a1; a2; a3] /\
  evaluate_alert_rules jl pf env sn "db1" OFFLINE None 160 [a1; a2; a3] =
    ([retrigger (TVStatus "Offline") a1; resolve_alert 160 a2; a3],
     [NResolved 2 8 1], false) /\
  one_active_per_pair
    (fst (fst (evaluate_alert_rules jl pf env sn "db1" OFFLINE None 160 [a1; a2; a3]))) /\
  one_active_per_pair (fst (snd (acknowledge_alert 7 "ops" 130 [a1; a2; a3] ∅))).
Proof.
  intros jl pf sn r1 r2 env a1 a2 a3.
  assert (Hone : one_active_per_pair [a1; a2; a3]).
  { intros rid h. unfold a1, a2, a3, active_pair. cbn [List.filter ai_rule_id ai_hostname ai_status].
    destruct (1 =? rid) eqn:E1, (2 =? rid) eqn:E2, (String.eqb "db1" h); cbn; lia. }
  split; [exact Hone|]. split; [vm_compute; reflexivity|].
  pose proof (one_active_instance_per_pair jl pf env sn "db1" OFFLINE None 160
                [a1; a2; a3] Hone) as H.
  split; [exact (proj1 H)|exact (proj2 H 7 "ops" 130 ∅)].
Defined.

(** [acknowledge_alert] succeeds exactly when the first instance with the
    given id is [ACTIVE]; it then turns that instance, and no other, into
    [ACKNOWLEDGED] and records when and by whom; otherwise it changes
    nothing. *)
Theorem acknowledge_alert_contract (alert_id : Z) (who : string) (now : Z)
    (table : list AlertInstance) (acks : gmap Z (Z * string)) :
  let '(ok, (t', acks')) := acknowledge_alert alert_id who now table acks in
  (ok = true <-> exists a, find (fun a => ai_id a =? alert_id) table = Some a /\
                           ai_status a = ACTIVE) /\
  (ok = false -> t' = table /\ acks' = acks) /\
  (ok = true ->
     acks' = <[alert_id := (now, who)]> acks /\
     exists i a, table !! i = Some a /\ ai_id a = alert_id /\ ai_status a = ACTIVE /\
       (forall j b, (j < i)%nat -> table !! j = Some b -> ai_id b <> alert_id) /\
       t' = <[i := set_acknowledged a]> table).
Proof.
  unfold acknowledge_alert.
  destruct (find (fun a => ai_id a =? alert_id) table) as [a|] eqn:Hf.
  - destruct (AlertStatus_eqb (ai_status a) ACTIVE) eqn:Hs.
    + assert (Hs' : ai_status a = ACTIVE) by (destruct (ai_status a); simpl in Hs; congruence).
      split; [split; [intros _; exists a; split; [reflexivity|exact Hs']|reflexivity]|].
      split; [discriminate|]. intros _. split; [reflexivity|].
      destruct (find_update_first _ set_acknowledged table a Hf) as (i & Hi & Hp & Hbefore & Hu).
      exists i, a. split; [exact Hi|]. split; [apply Z.eqb_eq; exact Hp|].
      split; [exact Hs'|]. split; [|exact Hu].
      intros j b Hj Hb Heq. specialize (Hbefore j b Hj Hb). rewrite Heq, Z.eqb_refl in Hbefore.
      discriminate.
    + split; [split; [discriminate|]|].
      * intros (a' & Ha' & Hs'). injection Ha' as <-. rewrite Hs' in Hs. discriminate.
      * split; [intros _; split; reflexivity|discriminate].
  - split; [split; [discriminate|intros (a' & Ha' & _); discriminate]|].
    split; [intros _; split; reflexivity|discriminate].
Qed.


(** X15: acknowledging the [ACTIVE] alert of a rule and host does not
    silence the rule.  Take a table with at most one [ACTIVE] instance per
    rule and host and distinct ids, a successful acknowledgement of the
    instance of [r] and [hn], and an enabled rule [r] (rule ids are
    distinct) whose test still holds for the host.  At the next
    evaluation, the acknowledged instance is left in the table, unchanged
    at its index (neither re-triggered nor resolved), also when the
    evaluation raises; and when the evaluation completes, a new [ACTIVE]
    instance of [r] for [hn], triggered at the evaluation time and counted
    once, is in the table after the old rows, and the evaluation sent its
    trigger notifications, one per channel the sender notifies. *)
Theorem acknowledged_alert_retriggers (jl : string -> option Json)
    (pf : string -> option Q) (env : Env) (sn : string -> option Q)
    (alert_id : Z) (who : string) (t : Z)
    (table : list AlertInstance) (acks : gmap Z (Z * string))
    (t' : list AlertInstance) (acks' : gmap Z (Z * string))
    (r : AlertRule) (hn : string) (status : HostStatus) (lat : option Q) (now : Z)
  (Hack : acknowledge_alert alert_id who t table acks = (true, (t', acks')))
  (Hpair : exists a, find (fun a => ai_id a =? alert_id) table = Some a /\
                     ai_rule_id a = ar_id r /\ ai_hostname a = hn)
  (Hone : one_active_per_pair table)
  (Hnd : NoDup (map ai_id table))
  (Hr : In r (env_rules env)) (Hen : ar_enabled r = true)
  (Hids : NoDup (map ar_id (env_rules env)))
  (Htrig : should_trigger_alert jl pf env r hn status lat = true) :
  exists i a, table !! i = Some a /\ ai_id a = alert_id /\
    t' !! i = Some (set_acknowledged a) /\
  let '(t'', out, raised) := evaluate_alert_rules jl pf env sn hn status lat now t' in
  t'' !! i = Some (set_acknowledged a) /\
  (raised = false ->
     exists n b o1 o2, (length t' <= n)%nat /\ t'' !! n = Some b /\
       active_pair (ar_id r) hn b = true /\ ai_triggered_at b = now /\
       ai_notification_count b = 1 /\
       out = o1 ++ map (NTriggered (ar_id r) (ai_id b))
                      (fst (channel_targets jl env sn r true)) ++ o2).
Proof.
  destruct Hpair as (a & Hf & Hrid & Hhn).
  unfold acknowledge_alert in Hack. rewrite Hf in Hack.
  destruct (AlertStatus_eqb (ai_status a) ACTIVE) eqn:Hs; [|discriminate].
  injection Hack as Ht' _.
  destruct (find_update_first _ set_acknowledged table a Hf) as (i & Hi & Hp & _ & Hu).
  assert (Hi' : t' !! i = Some (set_acknowledged a)).
  { rewrite <- Ht', Hu. apply list_lookup_insert_eq. eapply lookup_lt_Some. exact Hi. }
  exists i, a. split; [exact Hi|]. split; [apply Z.eqb_eq; exact Hp|]. split; [exact Hi'|].
  (* no [ACTIVE] instance of the pair is left after the acknowledgement *)
  assert (Hqa : active_pair (ar_id r) hn a = true).
  { unfold active_pair. rewrite Hrid, Hhn, Z.eqb_refl, String.eqb_refl, Hs. reflexivity. }
  pose proof (count_update_first_drop _ (active_pair (ar_id r) hn) set_acknowledged
                table a Hf Hqa (active_pair_ack _ _ a)) as Hd.
  specialize (Hone (ar_id r) hn).
  rewrite Ht' in Hd.
  assert (Hnil : List.filter (active_pair (ar_id r) hn) t' = []).
  { destruct (List.filter (active_pair (ar_id r) hn) t') eqn:E; [reflexivity|].
    simpl in Hd. lia. }
  assert (Hno : forall x, In x t' -> active_pair (ar_id r) hn x = false)
    by (intros x; apply filter_nil_not; exact Hnil).
  assert (Hnd' : NoDup (map ai_id t')).
  { rewrite <- Ht', AlertProofs.update_first_ids; [exact Hnd|reflexivity]. }
  assert (Hinact : forall r', is_active_for r' hn (set_acknowledged a) = false).
  { intros r'. rewrite is_active_for_pair. apply active_pair_ack. }
  unfold evaluate_alert_rules.
  set (rules := filter (fun r => ar_enabled r = true) (env_rules env)).
  assert (Hin : In r rules).
  { apply list_elem_of_In, list_elem_of_filter. split; [done|]. by apply list_elem_of_In. }
  destruct (split_unique rules r (nodup_ids_filter _ Hids) Hin) as (l1 & l2 & Hsplit & H1 & H2).
  pose proof (AlertProofs.eval_post jl pf env sn rules hn status lat now (mkSession t' t') []
                i (set_acknowledged a) (fun r' _ => Hinact r') Hi' Hi' Hnd') as Hpost.
  set (alert := fun w => mkAlertInstance (next_id w) (ar_id r) hn ACTIVE (ar_severity r)
                          (ar_name r ++ " - " ++ hn) now None (trigger_value status lat) 1).
  assert (Hnew :
    let '(ss', out', raised) :=
      eval_rules jl pf env sn rules hn status lat now (mkSession t' t') [] in
    raised = false ->
    exists n b o1 o2, (length t' <= n)%nat /\ committed ss' !! n = Some b /\
      active_pair (ar_id r) hn b = true /\ ai_triggered_at b = now /\
      ai_notification_count b = 1 /\
      out' = o1 ++ map (NTriggered (ar_id r) (ai_id b))
                       (fst (channel_targets jl env sn r true)) ++ o2).
  { rewrite Hsplit, AlertProofs.eval_rules_app.
    pose proof (eval_keeps_no_pair jl pf env sn l1 (ar_id r) hn status lat now
                  (mkSession t' t') [] i (set_acknowledged a) H1 Hinact Hi' Hnd' Hno) as Hl1.
    destruct (eval_rules jl pf env sn l1 hn status lat now (mkSession t' t') [])
      as [[ss1 out1] raised1].
    destruct raised1; [intros [=]|].
    destruct (Hl1 eq_refl) as (Hw1 & Hnd1 & Hno1 & Hlen1). cbn [working] in Hlen1.
    rewrite AlertProofs.eval_rules_cons.
    pose proof (AlertProofs.step_other jl pf env sn r hn status lat now ss1 i
                  (set_acknowledged a) Hw1 (Hinact r) Hnd1) as Hso.
    assert (Hfind : find (is_active_for r hn) (working ss1) = None).
    { apply find_none_all. intros x Hx. rewrite is_active_for_pair. exact (Hno1 x Hx). }
    assert (Hstep : rule_step jl pf env sn r hn status lat now ss1 =
      (commit (mkSession (committed ss1) (working ss1 ++ [alert (working ss1)])),
       fst (send_alert_notifications jl env sn r (alert (working ss1))),
       snd (send_alert_notifications jl env sn r (alert (working ss1))))).
    { unfold rule_step. rewrite Htrig. unfold create_alert_instance. rewrite Hfind.
      unfold alert. destruct (send_alert_notifications _ _ _ _ _); reflexivity. }
    rewrite Hstep in Hso |- *. cbn [working committed commit] in Hso.
    destruct Hso as (_ & _ & Hnd2 & _).
    rewrite AlertProofs.send_alert_split. cbn [fst snd].
    destruct (snd (channel_targets jl env sn r true)); [intros [=]|].
    set (b := alert (working ss1)).
    assert (Hb : is_active_for r hn b = true).
    { rewrite is_active_for_pair. unfold active_pair. simpl.
      rewrite Z.eqb_refl, String.eqb_refl. reflexivity. }
    assert (Hbn : (working ss1 ++ [b]) !! length (working ss1) = Some b)
      by (apply list_lookup_middle; reflexivity).
    pose proof (AlertProofs.eval_post jl pf env sn l2 hn status lat now
                  (commit (mkSession (committed ss1) (working ss1 ++ [b])))
                  (out1 ++ map (NTriggered (ar_id r) (ai_id b))
                                (fst (channel_targets jl env sn r true)))
                  (length (working ss1)) b
                  (fun r' H => AlertProofs.other_rule_inactive r' r hn b (H2 r' H) Hb)
                  Hbn Hbn Hnd2) as Hp2.
    pose proof (AlertProofs.eval_out_prefix jl pf env sn l2 hn status lat now
                  (commit (mkSession (committed ss1) (working ss1 ++ [b])))
                  (out1 ++ map (NTriggered (ar_id r) (ai_id b))
                                (fst (channel_targets jl env sn r true)))) as Ho.
    destruct (eval_rules jl pf env sn l2 hn status lat now _ _) as [[ss' out'] r'].
    intros _. destruct Hp2 as [Hc' _]. destruct Ho as [o ->].
    exists (length (working ss1)), b, out1, o.
    split; [exact Hlen1|]. split; [exact Hc'|].
    split; [rewrite <- is_active_for_pair; exact Hb|].
    split; [reflexivity|]. split; [reflexivity|].
    by rewrite <- app_assoc. }
  destruct (eval_rules jl pf env sn rules hn status lat now (mkSession t' t') [])
    as [[ss out] raised].
  split; [exact (proj1 Hpost)|exact Hnew].
Qed.

(** Witness for X15: two enabled rules; the instance of the rule
    [Host down] for [db1] is acknowledged, and [db1] is still [OFFLINE]. *)
Lemma acknowledged_alert_retriggers_witness :
  let jl := fun s => if String.eqb s "[1]" then Some (JList [JNum 1]) else None in
  let pf := fun (_ : string) => @None Q in
  let sn := fun (_ : string) => @None Q in
  let r0 := mkAlertRule 2 "Host up" "status" "equals" "Online" None None None
              LOW None true in
  let r := mkAlertRule 1 "Host down" "status" "equals" "Offline" None None None
             HIGH (Some "[1]") true in
  let env := mkEnv {[ "db1" := mkHost "db1" None None 5 None None None None
                                 true false None ]} {[ 1 := true ]} [r0; r] in
  let a := mkAlertInstance 7 1 "db1" ACTIVE HIGH "Host down - db1" 100 None
             (TVStatus "Offline") 1 in
  let a' := mkAlertInstance 3 1 "db1" RESOLVED HIGH "Host down - db1" 20 (Some 40)
              (TVStatus "Offline") 1 in
  acknowledge_alert 7 "ops" 130 [a'; a] ∅ =
    (true, ([a'; set_acknowledged a], <[7 := (130, "ops")]> ∅)) /\
  evaluate_alert_rules jl pf env sn "db1" OFFLINE None 160 [a'; set_acknowledged a] =
    ([a'; set_acknowledged a;
      mkAlertInstance 8 1 "db1" ACTIVE HIGH "Host down - db1" 160 None
        (TVStatus "Offline") 1],
     [NTriggered 1 8 1], false) /\
  exists i a0, [a'; a] !! i = Some a0 /\ ai_id a0 = 7 /\
    [a'; set_acknowledged a] !! i = Some (set_acknowledged a0) /\
  let '(t'', out, raised) :=
    evaluate_alert_rules jl pf env sn "db1" OFFLINE None 160 [a'; set_acknowledged a] in
  t'' !! i = Some (set_acknowledged a0) /\
  (raised = false ->
     exists n b o1 o2, (length [a'; set_acknowledged a] <= n)%nat /\ t'' !! n = Some b /\
       active_pair (ar_id r) "db1" b = true /\ ai_triggered_at b = 160 /\
       ai_notification_count b = 1 /\
       out = o1 ++ map (NTriggered (ar_id r) (ai_id b))
                      (fst (channel_targets jl env sn r true)) ++ o2).
Proof.
  intros jl pf sn r0 r env a a'.
  assert (Hack : acknowledge_alert 7 "ops" 130 [a'; a] ∅ =
                   (true, ([a'; set_acknowledged a], <[7 := (130, "ops")]> ∅)))
    by reflexivity.
  assert (Hpair : exists a0, find (fun a0 => ai_id a0 =? 7) [a'; a] = Some a0 /\
                             ai_rule_id a0 = ar_id r /\ ai_hostname a0 = "db1")
    by (exists a; split; [reflexivity|split; reflexivity]).
  assert (Hone : one_active_per_pair [a'; a]).
  { intros rid h. unfold a, a', active_pair. cbn [List.filter ai_rule_id ai_hostname ai_status].
    destruct (1 =? rid), (String.eqb "db1" h); cbn; lia. }
  assert (Hnd : NoDup (map ai_id [a'; a])) by (cbn; repeat constructor; set_solver).
  assert (Hr : In r (env_rules env)) by (right; left; reflexivity).
  assert (Hids : NoDup (map ar_id (env_rules env))) by (cbn; repeat constructor; set_solver).
  assert (Htrig : should_trigger_alert jl pf env r "db1" OFFLINE None = true)
    by (vm_compute; reflexivity).
  split; [exact Hack|]. split; [vm_compute; reflexivity|].
  exact (acknowledged_alert_retriggers jl pf env sn 7 "ops" 130 [a'; a] ∅
           [a'; set_acknowledged a] (<[7 := (130, "ops")]> ∅) r "db1" OFFLINE None 160
           Hack Hpair Hone Hnd Hr eq_refl Hids Htrig).
Defined.

(** X16: a trigger notification goes to the channels a resolution
    notification of the same rule goes to, in the same order, keeping
    only those whose channel is enabled; and the two senders raise on
    the same rules. *)
Theorem trigger_channels_enabled_resolution_channels (jl : string -> option Json)
    (env : Env) (sn : string -> option Q) (r : AlertRule) :
  channel_targets jl env sn r true =
    (List.filter (fun c => bool_decide (env_channels env !! c = Some true))
       (fst (channel_targets jl env sn r false)),
     snd (channel_targets jl env sn r false)).
Proof.
  unfold channel_targets.
  destruct (negb (Py.truthy (ar_notification_channels r))); [reflexivity|].
  destruct (jl _) as [v|]; [|reflexivity].
  destruct (py_iter v) as [ids|]; [|reflexivity].
  induction ids as [|j ids IH]; [reflexivity|].
  cbn [dispatch]. destruct (sqlite_bind j) as [x|]; [|reflexivity].
  destruct (dispatch env sn true ids) as [cs1 e1].
  destruct (dispatch env sn false ids) as [cs2 e2].
  injection IH as -> ->. cbn [fst snd]. rewrite List.filter_app. f_equal. f_equal.
  destruct (sql_id sn x) as [c|]; [|reflexivity].
  destruct (env_channels env !! c) as [[]|] eqn:E; cbn; rewrite ?E;
    rewrite ?bool_decide_eq_true_2, ?bool_decide_eq_false_2 by congruence; reflexivity.
Qed.

End AckProofs.
